(** * ADW orchestrator: a shallow embedding of the Python sources

    The development follows the layout of [adws/]:
    - [PyStr]   the [str] methods the sources call ([strip], [lower],
                [startswith], [in], [splitlines], [join], slices);
    - [Re]      the fragment of Python's [re] the sources' patterns need,
                as a backtracking matcher with [match], [search], [findall];
    - [Json]    the values [json.loads] returns, and [dict.get];
    - [Runtime] what the sources take from Python's libraries and leave to
                them ([json.loads], [json.dumps], pydantic's coercions), as
                a class, with [lite] an instance that runs the examples;
    - [Proc]    the process: its files, the comments it posts, the
                subprocesses it spawns, uncaught exceptions and [sys.exit];
    - then one module per source file.

    Text.  A Python [str] is modelled by [string].  Its characters are the
    256 code points of Latin-1, which is where [str.isspace], [str.lower],
    the line boundaries of [str.splitlines] and the classes [\s] and [\w]
    are tabulated below.  The emoji of the tracker messages, which no
    string operation of the sources inspects, are written as their UTF-8
    bytes. *)

From Stdlib Require Import ZArith Bool Ascii String List Lia Floats Sorted.
From stdpp Require Import base gmap strings list pretty.

Local Open Scope nat_scope.

(** ** Python [str] *)

Module PyStr.

Definition code (c : ascii) : N := N_of_ascii c.

Definition between (lo hi : N) (c : ascii) : bool :=
  ((lo <=? code c)%N && (code c <=? hi)%N)%bool.

Definition is_code (n : N) (c : ascii) : bool := (code c =? n)%N.

(** [str.isspace] on one character: 09-0D, 1C-1F, 20, 85, A0. *)
Definition isspace (c : ascii) : bool :=
  (between 9 13 c || between 28 31 c || is_code 32 c
   || is_code 133 c || is_code 160 c)%N.

(** [str.isalnum] on one character: digits, letters, and the Latin-1
    letters and numerics (AA, B2, B3, B5, B9, BA, BC-BE, C0-D6, D8-F6,
    F8-FF). *)
Definition isalnum (c : ascii) : bool :=
  (between 48 57 c || between 65 90 c || between 97 122 c
   || is_code 170 c || is_code 178 c || is_code 179 c || is_code 181 c
   || is_code 185 c || is_code 186 c || between 188 190 c
   || between 192 214 c || between 216 246 c || between 248 255 c)%N.

(** [str.lower] on one character: A-Z, C0-D6 and D8-DE move up by 32. *)
Definition lower_char (c : ascii) : ascii :=
  if (between 65 90 c || between 192 214 c || between 216 222 c)%N
  then ascii_of_N (code c + 32)
  else c.

Fixpoint lower (s : string) : string :=
  match s with
  | EmptyString => EmptyString
  | String c s' => String (lower_char c) (lower s')
  end.

Fixpoint lstrip (s : string) : string :=
  match s with
  | EmptyString => EmptyString
  | String c s' => if isspace c then lstrip s' else s
  end.

Fixpoint rstrip (s : string) : string :=
  match s with
  | EmptyString => EmptyString
  | String c s' =>
      match rstrip s' with
      | EmptyString => if isspace c then EmptyString else String c EmptyString
      | r => String c r
      end
  end.

(** [s.strip()] *)
Definition strip (s : string) : string := rstrip (lstrip s).

(** [s.startswith(p)] *)
Fixpoint startswith (p s : string) : bool :=
  match p, s with
  | EmptyString, _ => true
  | String a p', String b s' => if Ascii.eqb a b then startswith p' s' else false
  | String _ _, EmptyString => false
  end.

(** [s.endswith(c)], for one character *)
Fixpoint ends_in (c : ascii) (s : string) : bool :=
  match s with
  | EmptyString => false
  | String a EmptyString => Ascii.eqb a c
  | String _ s' => ends_in c s'
  end.

(** [sub in s] *)
Fixpoint contains (sub s : string) : bool :=
  startswith sub s ||
  match s with
  | EmptyString => false
  | String _ s' => contains sub s'
  end.

(** Every character of [s] satisfies [p]. *)
Fixpoint all_chars (p : ascii -> bool) (s : string) : bool :=
  match s with
  | EmptyString => true
  | String c s' => p c && all_chars p s'
  end.

(** [s[:n]] *)
Fixpoint take (n : nat) (s : string) : string :=
  match n, s with
  | S n', String c s' => String c (take n' s')
  | _, _ => EmptyString
  end.

(** [s[n:]] *)
Fixpoint drop (n : nat) (s : string) : string :=
  match n, s with
  | S n', String _ s' => drop n' s'
  | _, _ => s
  end.

(** [sep.join(parts)] *)
Fixpoint join (sep : string) (parts : list string) : string :=
  match parts with
  | [] => EmptyString
  | [p] => p
  | p :: rest => p +:+ sep +:+ join sep rest
  end.

(** [s.replace(old, new)], for a non-empty [old]: [skip] counts the
    characters of the occurrence just replaced that are still to pass. *)
Fixpoint replace_go (old new : string) (skip : nat) (s : string) : string :=
  match s with
  | EmptyString => EmptyString
  | String c s' =>
      match skip with
      | S k => replace_go old new k s'
      | O =>
          if startswith old s
          then new +:+ replace_go old new (String.length old - 1) s'
          else String c (replace_go old new 0 s')
      end
  end.

Definition replace (old new s : string) : string := replace_go old new 0 s.

Definition LF : ascii := "010"%char.
Definition CR : ascii := "013"%char.
Definition DQUOTE : ascii := "034"%char.
Definition nl : string := String LF EmptyString.
Definition dq : string := String DQUOTE EmptyString.

(** The line boundaries of [str.splitlines] other than CR LF:
    0A, 0B, 0C, 0D, 1C, 1D, 1E, 85. *)
Definition is_linebreak (c : ascii) : bool :=
  (between 10 13 c || between 28 30 c || is_code 133 c)%N.

(** [s.splitlines()]: [cur] is the line being read, in reverse.  A
    boundary closes the line; CR LF counts as one boundary; the text after
    the last boundary is a line only when it is not empty. *)
Fixpoint splitlines_go (cur : string) (s : string) : list string :=
  match s with
  | EmptyString =>
      match cur with EmptyString => [] | _ => [String.rev cur] end
  | String c s' =>
      if is_linebreak c then
        String.rev cur ::
          (if Ascii.eqb c CR then
             match s' with
             | String d s'' =>
                 if Ascii.eqb d LF then splitlines_go EmptyString s''
                 else splitlines_go EmptyString s'
             | EmptyString => []
             end
           else splitlines_go EmptyString s')
      else splitlines_go (String c cur) s'
  end.

Definition splitlines (s : string) : list string := splitlines_go EmptyString s.

End PyStr.

(** ** Python [re]

    The sources' patterns are sequences of literals, character classes,
    greedy and lazy repetitions of a class, optional sub-patterns and one
    capturing group.  [run] is the backtracking matcher: alternatives are
    tried in Python's order (greedy: longest first; lazy: shortest first;
    optional: present first) and the first one that lets the rest of the
    pattern match wins. *)

Module Re.

Inductive regex : Type :=
| Lit (s : string)                (* literal text *)
| Cls (p : ascii -> bool)         (* one character of a class *)
| Star (p : ascii -> bool)        (* [c*] *)
| Plus (p : ascii -> bool)        (* [c+] *)
| LazyStar (p : ascii -> bool)    (* [c*?] *)
| Opt (r : regex)                 (* [(?:r)?] *)
| Group (r : regex)               (* [(r)], group 1 *)
| Seq (r1 r2 : regex).

Infix ">>" := Seq (at level 60, right associativity).

Fixpoint strip_prefix (p s : string) : option string :=
  match p, s with
  | EmptyString, _ => Some s
  | String a p', String b s' => if Ascii.eqb a b then strip_prefix p' s' else None
  | String _ _, EmptyString => None
  end.

Section Matcher.
Context {X : Type}.

Fixpoint star_greedy (p : ascii -> bool) (k : string -> option X) (s : string)
  : option X :=
  match s with
  | String c s' =>
      if p c then
        match star_greedy p k s' with
        | Some x => Some x
        | None => k s
        end
      else k s
  | EmptyString => k s
  end.

Fixpoint star_lazy (p : ascii -> bool) (k : string -> option X) (s : string)
  : option X :=
  match k s with
  | Some x => Some x
  | None =>
      match s with
      | String c s' => if p c then star_lazy p k s' else None
      | EmptyString => None
      end
  end.

(** The text consumed between the input [s] and its suffix [s']. *)
Definition consumed (s s' : string) : string :=
  PyStr.take (String.length s - String.length s') s.

Fixpoint run (r : regex) (s : string) (cap : option string)
    (k : string -> option string -> option X) : option X :=
  match r with
  | Lit p =>
      match strip_prefix p s with
      | Some s' => k s' cap
      | None => None
      end
  | Cls p =>
      match s with
      | String c s' => if p c then k s' cap else None
      | EmptyString => None
      end
  | Star p => star_greedy p (fun s' => k s' cap) s
  | Plus p =>
      match s with
      | String c s' => if p c then star_greedy p (fun s' => k s' cap) s' else None
      | EmptyString => None
      end
  | LazyStar p => star_lazy p (fun s' => k s' cap) s
  | Opt r' =>
      match run r' s cap k with
      | Some x => Some x
      | None => k s cap
      end
  | Group r' => run r' s cap (fun s' _ => k s' (Some (consumed s s')))
  | Seq r1 r2 => run r1 s cap (fun s' cap' => run r2 s' cap' k)
  end.
End Matcher.

(** [re.match]: a match at the start of [s]; the result is group 1 (when
    it took part) and the text that follows the match. *)
Definition re_match (r : regex) (s : string) : option (option string * string) :=
  run r s None (fun rest cap => Some (cap, rest)).

(** [re.search]: the leftmost position with a match. *)
Fixpoint re_search (r : regex) (s : string) : option (option string * string) :=
  match re_match r s with
  | Some m => Some m
  | None =>
      match s with
      | String _ s' => re_search r s'
      | EmptyString => None
      end
  end.

Definition group1 (cap : option string) : string :=
  match cap with Some g => g | None => EmptyString end.

(** [re.findall] for a pattern with one group: the group of every match,
    left to right, matches not overlapping.  [pos] is the offset of [s] in
    the scanned text and [skip] counts the characters of the last match
    still to pass over; the position is kept for [finditer]-style use.
    (The sources' patterns match no empty text.) *)
Fixpoint findall_at (r : regex) (pos skip : nat) (s : string) : list (nat * string) :=
  match skip with
  | S skip' =>
      match s with
      | String _ s' => findall_at r (S pos) skip' s'
      | EmptyString => []
      end
  | O =>
      match re_match r s with
      | Some (cap, rest) =>
          (pos, group1 cap) ::
            match s with
            | String _ s' =>
                findall_at r (S pos) (String.length s - String.length rest - 1) s'
            | EmptyString => []
            end
      | None =>
          match s with
          | String _ s' => findall_at r (S pos) 0 s'
          | EmptyString => []
          end
      end
  end.

Definition finditer (r : regex) (s : string) : list (nat * string) :=
  findall_at r 0 0 s.

Definition findall (r : regex) (s : string) : list string :=
  (finditer r s).*2.

(** The classes of the sources' patterns. *)
Definition any (_ : ascii) : bool := true.                       (* [.] with DOTALL *)
Definition space (c : ascii) : bool := PyStr.isspace c.           (* [\s] *)
Definition word (c : ascii) : bool :=                             (* [\w] *)
  PyStr.isalnum c || Ascii.eqb c "_"%char.
Definition is_char (a : ascii) (c : ascii) : bool := Ascii.eqb a c.
Definition none_of (l : list ascii) (c : ascii) : bool :=         (* [[^...]] *)
  negb (existsb (Ascii.eqb c) l).
Definition one_of (l : list ascii) (c : ascii) : bool :=          (* [[...]] *)
  existsb (Ascii.eqb c) l.

End Re.

(** ** JSON values, as [json.loads] returns them *)

Module Json.

#[warnings="-register-all"] Inductive value : Type :=
| JNull                                   (* [None] *)
| JBool (b : bool)
| JInt (z : Z)
| JFloat (f : float)
| JStr (s : string)
| JList (l : list value)
| JDict (kv : list (string * value)).      (* the bindings of a [dict] *)

(** Truth value of a Python object in a condition. *)
Definition truthy (v : value) : bool :=
  match v with
  | JNull => false
  | JBool b => b
  | JInt z => negb (z =? 0)%Z
  | JFloat f => negb (PrimFloat.eqb f 0%float)
  | JStr s => negb (String.eqb s "")
  | JList l => match l with [] => false | _ => true end
  | JDict kv => match kv with [] => false | _ => true end
  end.

(** [isinstance(v, list)] and [isinstance(v, dict)] *)
Definition is_list (v : value) : bool :=
  match v with JList _ => true | _ => false end.
Definition is_dict (v : value) : bool :=
  match v with JDict _ => true | _ => false end.

(** [v == text], for a [str] literal [text] *)
Definition eq_str (v : value) (text : string) : bool :=
  match v with JStr s => String.eqb s text | _ => false end.

(** The binding of [key] in a dict. *)
Fixpoint lookup (key : string) (kv : list (string * value)) : option value :=
  match kv with
  | [] => None
  | (k, v) :: rest => if String.eqb k key then Some v else lookup key rest
  end.

(** [d.get(key, default)] *)
Definition get (key : string) (default : value) (kv : list (string * value)) : value :=
  match lookup key kv with
  | Some v => v
  | None => default
  end.

(** [d[key] = v] on the bindings: a later binding replaces an earlier one. *)
Fixpoint set (key : string) (v : value) (kv : list (string * value))
  : list (string * value) :=
  match kv with
  | [] => [(key, v)]
  | (k, u) :: rest =>
      if String.eqb k key then (k, v) :: rest else (k, u) :: set key v rest
  end.

End Json.

(** ** What the sources leave to Python's libraries *)

(** The exceptions the modelled paths can raise. *)
Inductive exn : Type :=
| AttributeError            (* [.get] on a value that is not a dict *)
| TypeError                 (* iteration over a value that is not iterable *)
| ValidationError           (* a pydantic model refused a field *)
| ValueError (msg : string)
| FileNotFoundError
| TimeoutExpired
| OSError (msg : string).

Class Runtime : Type := {
  (** [json.loads]; [None] stands for [JSONDecodeError]. *)
  json_loads : string -> option Json.value;
  (** [json.dumps(v, indent=2)] *)
  json_dumps : Json.value -> string;
  (** pydantic's coercion of an input to a [bool] field; a [bool] is
      taken as it is. *)
  lax_bool : Json.value -> option bool;
  lax_bool_bool : forall b, lax_bool (Json.JBool b) = Some b;
  (** pydantic's coercion of an input to an [int] field. *)
  lax_int : Json.value -> option Z;
  (** [str(e)] *)
  exn_str : exn -> string;
}.

(** pydantic accepts exactly a [str] for a [str] field, [None] or a [str]
    for [Optional[str]], and a list of [str] for [List[str]]. *)
Module Pydantic.
Import Json.

Definition str_field (v : value) : option string :=
  match v with JStr s => Some s | _ => None end.

Definition opt_str_field (v : value) : option (option string) :=
  match v with
  | JNull => Some None
  | JStr s => Some (Some s)
  | _ => None
  end.

Definition opt_int_field `{Runtime} (v : value) : option (option Z) :=
  match v with
  | JNull => Some None
  | _ => match lax_int v with Some z => Some (Some z) | None => None end
  end.

Fixpoint str_items (l : list value) : option (list string) :=
  match l with
  | [] => Some []
  | v :: rest =>
      match str_field v, str_items rest with
      | Some s, Some ss => Some (s :: ss)
      | _, _ => None
      end
  end.

Definition str_list_field (v : value) : option (list string) :=
  match v with JList l => str_items l | _ => None end.

End Pydantic.

(** A decoder for the fragment of JSON without fractions, exponents,
    [NaN]/[Infinity] and [\u] escapes, on which it answers as [json.loads]
    does; outside the fragment it answers [None].  It runs the examples. *)
Module Lite.
Import Json.

Definition is_ws (c : ascii) : bool :=
  (PyStr.is_code 32 c || PyStr.is_code 9 c || PyStr.is_code 10 c || PyStr.is_code 13 c)%N.

Fixpoint skip_ws (s : string) : string :=
  match s with
  | String c s' => if is_ws c then skip_ws s' else s
  | EmptyString => s
  end.

Definition digit (c : ascii) : option Z :=
  if PyStr.between 48 57 c then Some (Z.of_N (PyStr.code c) - 48)%Z else None.

Fixpoint digits (acc : Z) (s : string) : Z * string :=
  match s with
  | String c s' =>
      match digit c with
      | Some d => digits (acc * 10 + d)%Z s'
      | None => (acc, s)
      end
  | EmptyString => (acc, s)
  end.

(** [0] or a digit sequence that does not start with [0]. *)
Definition natural (s : string) : option (Z * string) :=
  match s with
  | String c s' =>
      match digit c with
      | Some 0%Z => Some (0%Z, s')
      | Some d => Some (digits d s')
      | None => None
      end
  | EmptyString => None
  end.

Definition escape (c : ascii) : option ascii :=
  if Ascii.eqb c PyStr.DQUOTE then Some PyStr.DQUOTE
  else if Ascii.eqb c "\"%char then Some "\"%char
  else if Ascii.eqb c "/"%char then Some "/"%char
  else if Ascii.eqb c "b"%char then Some "008"%char
  else if Ascii.eqb c "f"%char then Some "012"%char
  else if Ascii.eqb c "n"%char then Some "010"%char
  else if Ascii.eqb c "r"%char then Some "013"%char
  else if Ascii.eqb c "t"%char then Some "009"%char
  else None.

(** The text of a string after its opening quote; [acc] is reversed. *)
Fixpoint string_body (acc : string) (s : string) : option (string * string) :=
  match s with
  | EmptyString => None
  | String c s' =>
      if Ascii.eqb c PyStr.DQUOTE then Some (String.rev acc, s')
      else if Ascii.eqb c "\"%char then
        match s' with
        | String e s'' =>
            match escape e with
            | Some ch => string_body (String ch acc) s''
            | None => None
            end
        | EmptyString => None
        end
      else if (PyStr.code c <? 32)%N then None
      else string_body (String c acc) s'
  end.

Fixpoint value_at (fuel : nat) (s : string) : option (value * string) :=
  match fuel with
  | O => None
  | S fuel' =>
      match s with
      | EmptyString => None
      | String c s' =>
          if Ascii.eqb c "n"%char then
            option_map (pair JNull) (Re.strip_prefix "ull" s')
          else if Ascii.eqb c "t"%char then
            option_map (pair (JBool true)) (Re.strip_prefix "rue" s')
          else if Ascii.eqb c "f"%char then
            option_map (pair (JBool false)) (Re.strip_prefix "alse" s')
          else if Ascii.eqb c PyStr.DQUOTE then
            match string_body EmptyString s' with
            | Some (str, rest) => Some (JStr str, rest)
            | None => None
            end
          else if Ascii.eqb c "-"%char then
            match natural s' with
            | Some (n, rest) => Some (JInt (- n), rest)
            | None => None
            end
          else if Ascii.eqb c "["%char then
            match skip_ws s' with
            | String "]"%char rest => Some (JList [], rest)
            | s1 =>
                match elems_at fuel' s1 with
                | Some (l, rest) => Some (JList l, rest)
                | None => None
                end
            end
          else if Ascii.eqb c "{"%char then
            match skip_ws s' with
            | String "}"%char rest => Some (JDict [], rest)
            | s1 =>
                match members_at fuel' [] s1 with
                | Some (kv, rest) => Some (JDict kv, rest)
                | None => None
                end
            end
          else
            match natural s with
            | Some (n, rest) => Some (JInt n, rest)
            | None => None
            end
      end
  end
(** The elements of an array, from the first character of an element. *)
with elems_at (fuel : nat) (s : string) : option (list value * string) :=
  match fuel with
  | O => None
  | S fuel' =>
      match value_at fuel' s with
      | Some (v, rest) =>
          match skip_ws rest with
          | String "]"%char rest' => Some ([v], rest')
          | String ","%char rest' =>
              match elems_at fuel' (skip_ws rest') with
              | Some (l, rest'') => Some (v :: l, rest'')
              | None => None
              end
          | _ => None
          end
      | None => None
      end
  end
(** The members of an object, from the quote that opens a key. *)
with members_at (fuel : nat) (acc : list (string * value)) (s : string)
  : option (list (string * value) * string) :=
  match fuel with
  | O => None
  | S fuel' =>
      match s with
      | String c s' =>
          if Ascii.eqb c PyStr.DQUOTE then
            match string_body EmptyString s' with
            | Some (key, rest) =>
                match skip_ws rest with
                | String ":"%char rest1 =>
                    match value_at fuel' (skip_ws rest1) with
                    | Some (v, rest2) =>
                        let acc' := Json.set key v acc in
                        match skip_ws rest2 with
                        | String "}"%char rest3 => Some (acc', rest3)
                        | String ","%char rest3 => members_at fuel' acc' (skip_ws rest3)
                        | _ => None
                        end
                    | None => None
                    end
                | _ => None
                end
            | None => None
            end
          else None
      | EmptyString => None
      end
  end.

(** [json.loads]: one value, white space around it, nothing else. *)
Definition loads (s : string) : option value :=
  match value_at (2 * String.length s + 2) (skip_ws s) with
  | Some (v, rest) =>
      match skip_ws rest with
      | EmptyString => Some v
      | _ => None
      end
  | None => None
  end.

(** pydantic's lax [bool]: a bool; the integers 0 and 1; the words it
    lists, whatever their case. *)
Definition bool_of_word (s : string) : option bool :=
  let w := PyStr.lower s in
  if existsb (String.eqb w) ["0"; "off"; "f"; "false"; "n"; "no"] then Some false
  else if existsb (String.eqb w) ["1"; "on"; "t"; "true"; "y"; "yes"] then Some true
  else None.

Definition to_bool (v : value) : option bool :=
  match v with
  | JBool b => Some b
  | JInt 0 => Some false
  | JInt 1 => Some true
  | JStr s => bool_of_word s
  | _ => None
  end.

(** pydantic's lax [int], on integers and booleans. *)
Definition to_int (v : value) : option Z :=
  match v with
  | JInt z => Some z
  | JBool b => Some (if b then 1 else 0)%Z
  | _ => None
  end.

(** [json.dumps(v, indent=2)] on the fragment: the escapes of
    [ensure_ascii], two spaces a level, one item a line. *)
Definition hex (n : N) : ascii :=
  if (n <? 10)%N then ascii_of_N (48 + n) else ascii_of_N (87 + n).

Definition escaped (c : ascii) : string :=
  if Ascii.eqb c PyStr.DQUOTE then String "\" PyStr.dq
  else if Ascii.eqb c "\"%char then String "\" (String "\" EmptyString)
  else if Ascii.eqb c "010"%char then "\n"
  else if Ascii.eqb c "013"%char then "\r"
  else if Ascii.eqb c "009"%char then "\t"
  else if Ascii.eqb c "008"%char then "\b"
  else if Ascii.eqb c "012"%char then "\f"
  else if PyStr.between 32 126 c then String c EmptyString
  else "\u00" +:+ String (hex (PyStr.code c / 16)) (String (hex (PyStr.code c mod 16)) EmptyString).

Fixpoint escape_all (s : string) : string :=
  match s with
  | EmptyString => EmptyString
  | String c s' => escaped c +:+ escape_all s'
  end.

Definition quote (s : string) : string := PyStr.dq +:+ escape_all s +:+ PyStr.dq.

Fixpoint indent (level : nat) : string :=
  match level with
  | O => EmptyString
  | S l => "  " +:+ indent l
  end.

Definition block (opening closing : string) (level : nat) (items : list string) : string :=
  match items with
  | [] => opening +:+ closing
  | _ =>
      opening +:+ PyStr.nl +:+ indent (S level)
        +:+ PyStr.join ("," +:+ PyStr.nl +:+ indent (S level)) items
        +:+ PyStr.nl +:+ indent level +:+ closing
  end.

Fixpoint dumps_at (level : nat) (v : value) : string :=
  match v with
  | JNull => "null"
  | JBool b => if b then "true" else "false"
  | JInt z => pretty z
  | JFloat _ => "0.0"
  | JStr s => quote s
  | JList l => block "[" "]" level (map (dumps_at (S level)) l)
  | JDict kv =>
      block "{" "}" level
        (map (fun p => quote p.1 +:+ ": " +:+ dumps_at (S level) p.2) kv)
  end.

Definition dumps (v : value) : string := dumps_at 0 v.

Definition exn_text (e : exn) : string :=
  match e with
  | AttributeError => "object has no attribute 'get'"
  | TypeError => "object is not iterable"
  | ValidationError => "validation error"
  | ValueError msg => msg
  | FileNotFoundError => "No such file or directory"
  | TimeoutExpired => "timed out"
  | OSError msg => msg
  end.

End Lite.

#[export] Instance lite : Runtime := {|
  json_loads := Lite.loads;
  json_dumps := Lite.dumps;
  lax_bool := Lite.to_bool;
  lax_bool_bool := fun b => eq_refl;
  lax_int := Lite.to_int;
  exn_str := Lite.exn_text;
|}.

(** ** adw_modules/data_types.py *)

Module DataTypes.
Import Re.

(** [Literal["sonnet", "opus"]] *)
Inductive Model : Type := sonnet | opus.

Definition model_name (m : Model) : string :=
  match m with sonnet => "sonnet" | opus => "opus" end.

Record AgentPromptRequest : Type := {
  prompt : string;
  adw_id : string;
  agent_name : string;
  model : Model;
  image_paths : list string;
  dangerously_skip_permissions : bool;
  output_file : string;
}.

Record AgentPromptResponse : Type := {
  output : string;
  success : bool;
  session_id : option string;
}.

(** The fields that [AgentPromptRequest] also has carry the prefix
    [tpl_]. *)
Record AgentTemplateRequest : Type := {
  tpl_agent_name : string;
  slash_command : string;
  args : list string;
  tpl_adw_id : string;
  tpl_image_paths : list string;
  tpl_model : Model;
}.

Inductive ADWWorkflow : Type :=
| PLAN_BUILD | PLAN_BUILD_TEST | PLAN_BUILD_REVIEW | PLAN_BUILD_TEST_REVIEW
| SDLC | PATCH.

Record TestResult : Type := {
  suite : string;
  passed : bool;
  test_output : string;                  (* [output] *)
  test_error : option string;            (* [error] *)
}.

Record E2ETestResult : Type := {
  all_passed : bool;
  results : list TestResult;
  attempt : nat;
}.

(** [Literal["blocker", "warning", "suggestion"]] *)
Inductive Severity : Type := blocker | warning | suggestion.

#[export] Instance Severity_eq_dec : EqDecision Severity.
Proof. solve_decision. Defined.

Record ReviewIssue : Type := {
  file : string;
  line : option Z;
  severity : Severity;
  description : string;
}.

Record ReviewResult : Type := {
  approved : bool;
  issues : list ReviewIssue;
  screenshots : list string;
  summary : string;
  review_attempt : nat;                  (* [attempt] *)
}.

Record DocumentationResult : Type := {
  files_created : list string;
  doc_summary : string;                  (* [summary] *)
}.

Inductive ADWPhase : Type :=
| CLASSIFY | BRANCH | PLAN | BUILD | TEST | REVIEW | DOCUMENT | PR.

#[export] Instance ADWPhase_eq_dec : EqDecision ADWPhase.
Proof. solve_decision. Defined.

(** [Literal["/chore", "/bug", "/feature"]] *)
Inductive IssueClass : Type := chore | bug | feature.

Record ADWStateData : Type := {
  state_adw_id : string;                 (* [adw_id] *)
  issue_number : string;
  workflow : ADWWorkflow;
  issue_class : option IssueClass;
  branch_name : option string;
  plan_file : option string;
  current_phase : ADWPhase;
  completed_phases : list ADWPhase;
  test_results : list E2ETestResult;
  review_results : list ReviewResult;
  documentation : option DocumentationResult;
  pr_url : option string;
  error : option string;
  created_at : string;
  updated_at : string;
}.

(** The pattern [<img[^>]+src=[Q']([^Q']+)[Q']] of the sources, where Q
    stands for the double quote. *)
Definition HTML_IMG : regex :=
  Lit "<img" >> Plus (none_of [">"%char]) >> Lit "src="
    >> Cls (one_of [PyStr.DQUOTE; "'"%char])
    >> Group (Plus (none_of [PyStr.DQUOTE; "'"%char]))
    >> Cls (one_of [PyStr.DQUOTE; "'"%char]).

(** The pattern [!\[[^\]]*\]\(([^)]+)\)] of the sources. *)
Definition MD_IMG : regex :=
  Lit "![" >> Star (none_of ["]"%char]) >> Lit "]("
    >> Group (Plus (none_of [")"%char])) >> Lit ")".

(** The loop of [extract_image_urls] that drops the URLs already seen. *)
Fixpoint unique_from (seen : gset string) (urls : list string) : list string :=
  match urls with
  | [] => []
  | url :: rest =>
      if bool_decide (url ∈ seen) then unique_from seen rest
      else url :: unique_from ({[url]} ∪ seen) rest
  end.

(** [GitHubIssue.extract_image_urls], on the issue's body. *)
Definition extract_image_urls (body : string) : list string :=
  let urls := findall HTML_IMG body ++ findall MD_IMG body in
  unique_from ∅ urls.

(** The list without the later occurrences of its elements: what
    "deduplicated, in first-seen order" says of a list. *)
Fixpoint first_seen (l : list string) : list string :=
  match l with
  | [] => []
  | x :: rest => x :: filter (fun y => y ≠ x) (first_seen rest)
  end.

(** The image references of a body, in either notation, each with the
    offset at which it starts. *)
Definition image_references (body : string) : list (nat * string) :=
  finditer HTML_IMG body ++ finditer MD_IMG body.

(** The offset of the first reference to [url] in the body. *)
Definition first_reference (body url : string) : option nat :=
  foldr (fun r acc =>
           if String.eqb r.2 url
           then Some (match acc with Some p => Nat.min r.1 p | None => r.1 end)
           else acc)
        None (image_references body).

(** [urls] lists URLs in the order in which the body first refers to them. *)
Definition in_body_order (body : string) (urls : list string) : Prop :=
  forall i j a b,
    urls !! i = Some a -> urls !! j = Some b -> i < j ->
    exists pa pb,
      first_reference body a = Some pa /\ first_reference body b = Some pb /\ pa < pb.

End DataTypes.

(** ** The process and its surroundings

    A phase executable is a computation over a [World]: the text files and
    state files it wrote, and the subprocesses it spawned.  What the
    surroundings answer is read from an [Env]: every query is stamped with
    the number of queries made before it ([tick]), so an [Env] can answer
    the same question differently each time it is asked. *)

Module Proc.
Import DataTypes.

(** [subprocess.CompletedProcess] *)
Record Completed : Type := {
  returncode : Z;
  stdout : string;
  stderr : string;
}.

(** One call of [subprocess.run]: its command, the [env] it was given
    ([None]: the host environment is inherited) and what came of it. *)
Record Spawn : Type := {
  cmd : list string;
  env : option (gmap string string);
  result : exn + Completed;
}.

Class Env : Type := {
  (** [os.environ] *)
  environ : gmap string string;
  (** the directory three levels above [adw_modules/*.py] *)
  project_root : string;
  (** [datetime.now().isoformat()] *)
  now : nat -> string;
  (** [os.path.isfile] *)
  isfile : nat -> string -> bool;
  (** [os.path.abspath] *)
  abspath : string -> string;
  (** [subprocess.run]; for the agent, [stdout] is what it wrote to the
      output file, as Python reads the file back in text mode. *)
  subprocess_run : nat -> list string -> option (gmap string string) -> exn + Completed;
  (** the [*.png] files under [test-results/] after the Playwright run,
      sorted ([run_e2e_screenshots] at its interface) *)
  playwright_pngs : nat -> list string;
  (** [upload_screenshot_to_github] at its interface: it catches every
      exception and answers the hosted URL or [None] *)
  upload_screenshot : nat -> string -> string -> string -> option string;
}.

Record World : Type := {
  tick : nat;
  files : gmap string string;
  state_files : gmap string ADWStateData;
  spawned : list Spawn;                  (* most recent first *)
}.

(** How a computation ends: with a value, with an exception nobody caught
    so far, or in [sys.exit]. *)
Inductive outcome (A : Type) : Type :=
| Done (a : A)
| Raised (e : exn)
| Exited (code : Z).
Arguments Done {A} a.
Arguments Raised {A} e.
Arguments Exited {A} code.

Definition M (A : Type) : Type := World -> outcome A * World.

#[export] Instance M_ret : MRet M := fun A a w => (Done a, w).

#[export] Instance M_bind : MBind M := fun A B f m w =>
  match m w with
  | (Done a, w') => f a w'
  | (Raised e, w') => (Raised e, w')
  | (Exited c, w') => (Exited c, w')
  end.

Definition raise {A : Type} (e : exn) : M A := fun w => (Raised e, w).

(** [sys.exit(code)] *)
Definition sys_exit {A : Type} (code : Z) : M A := fun w => (Exited code, w).

(** [try: m except Exception as e: h e]; [SystemExit] passes through. *)
Definition try_except {A : Type} (m : M A) (h : exn -> M A) : M A := fun w =>
  match m w with
  | (Raised e, w') => h e w'
  | r => r
  end.

(** The exit status of the process that ran [main]. *)
Definition exit_code {A : Type} (o : outcome A) : Z :=
  match o with
  | Done _ => 0
  | Raised _ => 1
  | Exited c => c
  end.

Definition next_tick (w : World) : World :=
  {| tick := S (tick w); files := files w; state_files := state_files w;
     spawned := spawned w |}.

Definition with_files (f : gmap string string) (w : World) : World :=
  {| tick := tick w; files := f; state_files := state_files w;
     spawned := spawned w |}.

Definition with_state_files (f : gmap string ADWStateData) (w : World) : World :=
  {| tick := tick w; files := files w; state_files := f; spawned := spawned w |}.

Definition with_spawned (l : list Spawn) (w : World) : World :=
  {| tick := tick w; files := files w; state_files := state_files w;
     spawned := l |}.

(** [subprocess.run(cmd, env=env)] *)
Definition run `{Env} (c : list string) (e : option (gmap string string)) : M Completed :=
  fun w =>
    let r := subprocess_run (tick w) c e in
    let w' := next_tick (with_spawned ({| cmd := c; env := e; result := r |} :: spawned w) w) in
    match r with
    | inr done => (Done done, w')
    | inl ex => (Raised ex, w')
    end.

Definition datetime_now `{Env} : M string := fun w => (Done (now (tick w)), next_tick w).

Definition os_path_isfile `{Env} (path : string) : M bool :=
  fun w => (Done (isfile (tick w) path), next_tick w).

(** [open(path, "w").write(text)] *)
Definition write_file (path text : string) : M unit :=
  fun w => (Done (), with_files (<[path := text]> (files w)) w).

(** [open(path, "r").read()]; a missing file raises. *)
Definition read_file (path : string) : M string := fun w =>
  match files w !! path with
  | Some text => (Done text, w)
  | None => (Raised FileNotFoundError, w)
  end.

(** Writing and reading a state file. *)
Definition put_state_file (path : string) (state : ADWStateData) : M unit :=
  fun w => (Done (), with_state_files (<[path := state]> (state_files w)) w).

Definition get_state_file (path : string) : M (option ADWStateData) :=
  fun w => (Done (state_files w !! path), w).

(** [os.path.join] *)
Definition join2 (path b : string) : string :=
  if PyStr.startswith "/" b then b
  else if String.eqb path "" || PyStr.ends_in "/"%char path then path +:+ b
  else path +:+ "/" +:+ b.

Definition os_path_join (a : string) (p : list string) : string := foldl join2 a p.

(** [os.path.basename] *)
Fixpoint basename_go (cur : string) (s : string) : string :=
  match s with
  | EmptyString => String.rev cur
  | String c s' =>
      if Ascii.eqb c "/"%char then basename_go EmptyString s'
      else basename_go (String c cur) s'
  end.

Definition os_path_basename (path : string) : string := basename_go EmptyString path.

(** [os.getenv(key)] and [os.getenv(key, default)] *)
Definition getenv `{Env} (key : string) : option string := environ !! key.
Definition getenv_or `{Env} (key default : string) : string :=
  match environ !! key with Some v => v | None => default end.

End Proc.

(** ** adw_modules/utils.py *)

Module Utils.
Import Re Json Proc.

(** [get_safe_subprocess_env]: a copy of the host environment without
    [CLAUDECODE]. *)
Definition get_safe_subprocess_env `{Env} : gmap string string :=
  delete "CLAUDECODE" environ.

(** The pattern [```(?:json)?\s*\n?(.*?)\n?\s*```], compiled with DOTALL. *)
Definition fence_pattern : regex :=
  Lit "```" >> Opt (Lit "json") >> Star space >> Opt (Lit PyStr.nl)
    >> Group (LazyStar any)
    >> Opt (Lit PyStr.nl) >> Star space >> Lit "```".

(** [parse_json]; [JNull] is Python's [None]. *)
Definition parse_json `{Runtime} (text : string) : value :=
  let stripped := PyStr.strip text in
  match json_loads stripped with
  | Some v => v
  | None =>
      match re_search fence_pattern stripped with
      | Some (cap, _) =>
          match json_loads (PyStr.strip (group1 cap)) with
          | Some v => v
          | None => JNull
          end
      | None => JNull
      end
  end.

End Utils.

(** ** adw_modules/state.py *)

Module State.
Import DataTypes Proc.

Definition get_state_path `{Env} (adw_id : string) : string :=
  os_path_join project_root ["agents"; adw_id; "adw_state.json"].

(** Assignments to the fields of the state object. *)
Definition set_updated_at (t : string) (s : ADWStateData) : ADWStateData :=
  {| state_adw_id := state_adw_id s; issue_number := issue_number s;
     workflow := workflow s; issue_class := issue_class s;
     branch_name := branch_name s; plan_file := plan_file s;
     current_phase := current_phase s; completed_phases := completed_phases s;
     test_results := test_results s; review_results := review_results s;
     documentation := documentation s; pr_url := pr_url s; error := error s;
     created_at := created_at s; updated_at := t |}.

Definition set_error (e : option string) (s : ADWStateData) : ADWStateData :=
  {| state_adw_id := state_adw_id s; issue_number := issue_number s;
     workflow := workflow s; issue_class := issue_class s;
     branch_name := branch_name s; plan_file := plan_file s;
     current_phase := current_phase s; completed_phases := completed_phases s;
     test_results := test_results s; review_results := review_results s;
     documentation := documentation s; pr_url := pr_url s; error := e;
     created_at := created_at s; updated_at := updated_at s |}.

Definition set_phase (current : ADWPhase) (completed : list ADWPhase)
    (s : ADWStateData) : ADWStateData :=
  {| state_adw_id := state_adw_id s; issue_number := issue_number s;
     workflow := workflow s; issue_class := issue_class s;
     branch_name := branch_name s; plan_file := plan_file s;
     current_phase := current; completed_phases := completed;
     test_results := test_results s; review_results := review_results s;
     documentation := documentation s; pr_url := pr_url s; error := error s;
     created_at := created_at s; updated_at := updated_at s |}.

Definition set_test_results (l : list E2ETestResult) (s : ADWStateData) : ADWStateData :=
  {| state_adw_id := state_adw_id s; issue_number := issue_number s;
     workflow := workflow s; issue_class := issue_class s;
     branch_name := branch_name s; plan_file := plan_file s;
     current_phase := current_phase s; completed_phases := completed_phases s;
     test_results := l; review_results := review_results s;
     documentation := documentation s; pr_url := pr_url s; error := error s;
     created_at := created_at s; updated_at := updated_at s |}.

Definition set_review_results (l : list ReviewResult) (s : ADWStateData) : ADWStateData :=
  {| state_adw_id := state_adw_id s; issue_number := issue_number s;
     workflow := workflow s; issue_class := issue_class s;
     branch_name := branch_name s; plan_file := plan_file s;
     current_phase := current_phase s; completed_phases := completed_phases s;
     test_results := test_results s; review_results := l;
     documentation := documentation s; pr_url := pr_url s; error := error s;
     created_at := created_at s; updated_at := updated_at s |}.

(** [load_state]: the record in the state file, [None] without one. *)
Definition load_state `{Env} (adw_id : string) : M (option ADWStateData) :=
  get_state_file (get_state_path adw_id).

(** [save_state] stamps [updated_at] and writes the record; the stamped
    record is returned, as the caller's object is the one written. *)
Definition save_state `{Env} (state : ADWStateData) : M ADWStateData :=
  t ← datetime_now;
  let state' := set_updated_at t state in
  put_state_file (get_state_path (state_adw_id state)) state';;
  mret state'.

(** [create_state]; both time stamps of a new record are read from the
    clock by the model's defaults. *)
Definition create_state `{Env} (adw_id issue_number : string) (workflow : ADWWorkflow)
  : M ADWStateData :=
  created ← datetime_now;
  updated ← datetime_now;
  save_state
    {| state_adw_id := adw_id; issue_number := issue_number; workflow := workflow;
       issue_class := None; branch_name := None; plan_file := None;
       current_phase := CLASSIFY; completed_phases := [];
       test_results := []; review_results := []; documentation := None;
       pr_url := None; error := None;
       created_at := created; updated_at := updated |}.

(** [advance_phase] *)
Definition advance_phase `{Env} (state : ADWStateData) (next_phase : ADWPhase)
  : M ADWStateData :=
  let completed :=
    if bool_decide (current_phase state ∈ completed_phases state)
    then completed_phases state
    else completed_phases state ++ [current_phase state] in
  save_state (set_phase next_phase completed state).

(** [mark_error] *)
Definition mark_error `{Env} (state : ADWStateData) (error : string) : M ADWStateData :=
  save_state (set_error (Some error) state).

End State.

(** ** adw_modules/agent.py *)

Module Agent.
Import Re Json DataTypes Proc.

Definition CLAUDE_PATH `{Env} : string := getenv_or "CLAUDE_CODE_PATH" "claude".

(** [check_claude_installed]: the error message, or [None]. *)
Definition check_claude_installed `{Env} : M (option string) :=
  let message :=
    "Error: Claude Code CLI is not installed. Expected at: " +:+ CLAUDE_PATH in
  try_except
    (result ← run [CLAUDE_PATH; "--version"] None;
     if (returncode result =? 0)%Z then mret None else mret (Some message))
    (fun e =>
       match e with
       | FileNotFoundError => mret (Some message)
       | _ => raise e
       end).

(** The lines a text file yields when iterated, each with its line feed. *)
Fixpoint file_lines_go (cur : string) (s : string) : list string :=
  match s with
  | EmptyString =>
      match cur with EmptyString => [] | _ => [String.rev cur] end
  | String c s' =>
      if Ascii.eqb c PyStr.LF then String.rev (String c cur) :: file_lines_go EmptyString s'
      else file_lines_go (String c cur) s'
  end.

Definition file_lines (text : string) : list string := file_lines_go EmptyString text.

(** [line.strip()] is not empty *)
Definition nonblank (line : string) : bool :=
  negb (String.eqb (PyStr.strip line) "").

(** [[json.loads(line) for line in f if line.strip()]]; [None] when some
    line raises. *)
Fixpoint load_lines `{Runtime} (lines : list string) : option (list value) :=
  match lines with
  | [] => Some []
  | l :: rest =>
      if nonblank l then
        match json_loads l, load_lines rest with
        | Some v, Some vs => Some (v :: vs)
        | _, _ => None
        end
      else load_lines rest
  end.

(** The loop over [reversed(messages)]: the first message whose [type] is
    [result]; [.get] raises on a message that is not a dict. *)
Fixpoint find_result (reversed : list value) : exn + option (list (string * value)) :=
  match reversed with
  | [] => inr None
  | JDict kv :: rest =>
      if eq_str (get "type" JNull kv) "result" then inr (Some kv)
      else find_result rest
  | _ :: _ => inl AttributeError
  end.

(** [parse_jsonl_output] on the text of the file; every exception ends in
    [([], None)]. *)
Definition parse_jsonl_text `{Runtime} (text : string)
  : list value * option (list (string * value)) :=
  match load_lines (file_lines text) with
  | Some messages =>
      match find_result (rev messages) with
      | inr result_message => (messages, result_message)
      | inl _ => ([], None)
      end
  | None => ([], None)
  end.

Definition parse_jsonl_output `{Runtime} (output_file : string)
  : M (list value * option (list (string * value))) :=
  try_except
    (text ← read_file output_file; mret (parse_jsonl_text text))
    (fun _ => mret ([], None)).

(** [convert_jsonl_to_json] *)
Definition convert_jsonl_to_json `{Runtime} (jsonl_file : string) : M string :=
  let json_file := PyStr.replace ".jsonl" ".json" jsonl_file in
  parsed ← parse_jsonl_output jsonl_file;
  write_file json_file (json_dumps (JList parsed.1));;
  mret json_file.

(** [get_claude_env]: [required_env_vars] maps a name to the value read,
    [None] when the host has none; the names without a value are dropped. *)
Definition required_env_vars `{Env} : gmap string (option string) :=
  let base : gmap string (option string) :=
    <["ANTHROPIC_API_KEY" := getenv "ANTHROPIC_API_KEY"]>
    (<["CLAUDE_CODE_PATH" := Some (getenv_or "CLAUDE_CODE_PATH" "claude")]>
    (<["CLAUDE_BASH_MAINTAIN_PROJECT_WORKING_DIR" :=
         Some (getenv_or "CLAUDE_BASH_MAINTAIN_PROJECT_WORKING_DIR" "true")]>
    (<["HOME" := getenv "HOME"]>
    (<["USER" := getenv "USER"]>
    (<["PATH" := getenv "PATH"]>
    (<["SHELL" := getenv "SHELL"]>
    (<["TERM" := getenv "TERM"]> ∅))))))) in
  match getenv "GITHUB_PAT" with
  | Some github_pat =>
      if String.eqb github_pat "" then base
      else <["GH_TOKEN" := Some github_pat]> (<["GITHUB_PAT" := Some github_pat]> base)
  | None => base
  end.

Definition get_claude_env `{Env} : gmap string string := omap id required_env_vars.

(** The names [get_claude_env] can put in its result. *)
Definition FORWARDED : list string :=
  ["ANTHROPIC_API_KEY"; "CLAUDE_CODE_PATH"; "CLAUDE_BASH_MAINTAIN_PROJECT_WORKING_DIR";
   "HOME"; "USER"; "PATH"; "SHELL"; "TERM"; "GITHUB_PAT"; "GH_TOKEN"].

(** The pattern [^(/\w+)]. *)
Definition SLASH_WORD : regex := Group (Lit "/" >> Plus word).

Definition prompt_dir `{Env} (adw_id agent_name : string) : string :=
  os_path_join project_root ["agents"; adw_id; agent_name; "prompts"].

Definition prompt_file `{Env} (adw_id agent_name command_name : string) : string :=
  os_path_join (prompt_dir adw_id agent_name) [command_name +:+ ".txt"].

(** A path component that [os.path.join] puts after a separator: not
    empty, and without a separator at either end. *)
Definition plain (s : string) : Prop :=
  s <> "" /\ PyStr.startswith "/" s = false /\ PyStr.ends_in "/"%char s = false.

(** A prompt that begins with the slash command [/word]: the word is not
    empty, is made of word characters, and ends where the rest begins. *)
Definition begins_with_command (prompt name rest : string) : Prop :=
  prompt = "/" +:+ name +:+ rest
  /\ name <> ""
  /\ PyStr.all_chars word name = true
  /\ match rest with EmptyString => True | String c _ => word c = false end.

(** [save_prompt] *)
Definition save_prompt `{Env} (prompt adw_id agent_name : string) : M unit :=
  match re_match SLASH_WORD prompt with
  | None => mret ()
  | Some (cap, _) =>
      let slash_command := group1 cap in
      let command_name := PyStr.drop 1 slash_command in
      write_file (prompt_file adw_id agent_name command_name) prompt
  end.

(** [[p for p in paths if os.path.isfile(p)]] *)
Fixpoint existing_files `{Env} (paths : list string) : M (list string) :=
  match paths with
  | [] => mret (M := M) []
  | p :: rest =>
      b ← os_path_isfile p;
      l ← existing_files rest;
      mret (if b : bool then p :: l else l)
  end.

Definition image_note `{Env} (image_refs : list string) : string :=
  PyStr.nl +:+ PyStr.nl +:+ "Reference images (use Read tool to view):" +:+ PyStr.nl
    +:+ PyStr.join PyStr.nl (map (fun p => "- " +:+ abspath p) image_refs).

(** The prompt put on the command line: [cmd[2]] once the image note is
    appended. *)
Definition composed_prompt `{Env} (request : AgentPromptRequest) : M string :=
  match image_paths request with
  | [] => mret (prompt request)
  | _ =>
      image_refs ← existing_files (image_paths request);
      match image_refs with
      | [] => mret (prompt request)
      | _ => mret (prompt request +:+ image_note image_refs)
      end
  end.

Definition command_line `{Env} (request : AgentPromptRequest) (text : string) : list string :=
  [CLAUDE_PATH; "-p"; text; "--model"; model_name (model request);
   "--output-format"; "stream-json"; "--verbose"]
  ++ (if dangerously_skip_permissions request
      then ["--dangerously-skip-permissions"] else []).

(** [with open(path, "w") as f: subprocess.run(cmd, stdout=f, env=env)] *)
Definition run_to_file `{Env} (path : string) (c : list string)
    (e : gmap string string) : M Completed :=
  write_file path "";;
  result ← run c (Some e);
  write_file path (stdout result);;
  mret result.

(** [AgentPromptResponse(output=..., success=not is_error, session_id=...)]
    on the fields of the result message. *)
Definition response_of_result (result_message : list (string * value))
  : M AgentPromptResponse :=
  let session_id := get "session_id" JNull result_message in
  let is_error := get "is_error" (JBool false) result_message in
  let result_text := get "result" (JStr "") result_message in
  match Pydantic.str_field result_text, Pydantic.opt_str_field session_id with
  | Some text, Some sid =>
      mret {| output := text; success := negb (truthy is_error); session_id := sid |}
  | _, _ => raise ValidationError
  end.

Definition failure (message : string) : AgentPromptResponse :=
  {| output := message; success := false; session_id := None |}.

(** The block of [prompt_claude_code] that follows [subprocess.run]: the
    response for a completed run of the agent. *)
Definition distill `{Runtime} (request : AgentPromptRequest) (result : Completed)
  : M AgentPromptResponse :=
  if (returncode result =? 0)%Z then
    parsed ← parse_jsonl_output (output_file request);
    _ ← convert_jsonl_to_json (output_file request);
    match parsed.2 with
    | Some result_message =>
        if truthy (JDict result_message) then response_of_result result_message
        else
          raw_output ← read_file (output_file request);
          mret {| output := raw_output; success := true; session_id := None |}
    | None =>
        raw_output ← read_file (output_file request);
        mret {| output := raw_output; success := true; session_id := None |}
    end
  else mret (failure ("Claude Code error: " +:+ stderr result)).

(** The two [except] clauses of [prompt_claude_code]. *)
Definition on_exception `{Runtime} (e : exn) : M AgentPromptResponse :=
  match e with
  | TimeoutExpired =>
      mret (failure "Error: Claude Code command timed out after 5 minutes")
  | _ => mret (failure ("Error executing Claude Code: " +:+ exn_str e))
  end.

(** [prompt_claude_code] *)
Definition prompt_claude_code `{Env} `{Runtime} (request : AgentPromptRequest)
  : M AgentPromptResponse :=
  error_msg ← check_claude_installed;
  match error_msg with
  | Some msg => mret (failure msg)
  | None =>
      save_prompt (prompt request) (adw_id request) (agent_name request);;
      text ← composed_prompt request;
      let cmd := command_line request text in
      let env := get_claude_env in
      try_except
        (result ← run_to_file (output_file request) cmd env;
         distill request result)
        on_exception
  end.

(** A line of the output whose [type] is [result]. *)
Definition is_result_line `{Runtime} (line : string) : Prop :=
  nonblank line = true
  /\ exists kv, json_loads line = Some (JDict kv)
               /\ eq_str (get "type" JNull kv) "result" = true.

(** A message that is a dict and no [result] record. *)
Definition other_message (m : value) : Prop :=
  exists kv, m = JDict kv /\ eq_str (get "type" JNull kv) "result" = false.

(** The response [prompt_claude_code] gives for a completed run of the
    agent whose output is in the output file: the outcome of [distill]
    under the [except] clauses, as a function of the run. *)
Definition response_for `{Runtime} (result : Completed) : AgentPromptResponse :=
  let raw := {| output := stdout result; success := true; session_id := None |} in
  if (returncode result =? 0)%Z then
    match (parse_jsonl_text (stdout result)).2 with
    | Some result_message =>
        if truthy (JDict result_message) then
          match Pydantic.str_field (get "result" (JStr "") result_message),
                Pydantic.opt_str_field (get "session_id" JNull result_message) with
          | Some text, Some sid =>
              {| output := text;
                 success := negb (truthy (get "is_error" (JBool false) result_message));
                 session_id := sid |}
          | _, _ => failure ("Error executing Claude Code: " +:+ exn_str ValidationError)
          end
        else raw
    | None => raw
    end
  else failure ("Claude Code error: " +:+ stderr result).

(** [execute_template] *)
Definition execute_template `{Env} `{Runtime} (request : AgentTemplateRequest)
  : M AgentPromptResponse :=
  let prompt := slash_command request +:+ " " +:+ PyStr.join " " (args request) in
  let output_dir :=
    os_path_join project_root ["agents"; tpl_adw_id request; tpl_agent_name request] in
  let output_file := os_path_join output_dir ["raw_output.jsonl"] in
  prompt_claude_code
    {| prompt := prompt; adw_id := tpl_adw_id request;
       agent_name := tpl_agent_name request; model := tpl_model request;
       image_paths := tpl_image_paths request;
       dangerously_skip_permissions := true; output_file := output_file |}.

End Agent.

(** ** adw_modules/github.py *)

Module Github.
Import DataTypes Proc.

(** [get_github_env] *)
Definition get_github_env `{Env} : option (gmap string string) :=
  match getenv "GITHUB_PAT" with
  | Some github_pat =>
      if String.eqb github_pat "" then None
      else Some (<["PATH" := getenv_or "PATH" ""]> (<["GH_TOKEN" := github_pat]> ∅))
  | None => None
  end.

(** [get_repo_url]: [check=True] turns a non-zero return code into
    [CalledProcessError], which the function turns into [ValueError]. *)
Definition get_repo_url `{Env} : M string :=
  try_except
    (result ← run ["git"; "remote"; "get-url"; "origin"] None;
     if (returncode result =? 0)%Z then mret (PyStr.strip (stdout result))
     else raise (ValueError
       "No git remote 'origin' found. Please ensure you're in a git repository with a remote."))
    (fun e =>
       match e with
       | FileNotFoundError =>
           raise (ValueError "git command not found. Please ensure git is installed.")
       | _ => raise e
       end).

(** [extract_repo_path] *)
Definition extract_repo_path (github_url : string) : string :=
  if PyStr.startswith "git@github.com:" github_url
  then PyStr.replace ".git" "" (PyStr.replace "git@github.com:" "" github_url)
  else PyStr.replace ".git" "" (PyStr.replace "https://github.com/" "" github_url).

Definition comment_command (issue_id repo_path comment : string) : list string :=
  ["gh"; "issue"; "comment"; issue_id; "-R"; repo_path; "--body"; comment].

(** [make_issue_comment]: a return code other than zero ends the process
    with that code, an exception of [subprocess.run] with code 1. *)
Definition make_issue_comment `{Env} (issue_id comment : string) : M unit :=
  github_repo_url ← get_repo_url;
  let repo_path := extract_repo_path github_repo_url in
  try_except
    (result ← run (comment_command issue_id repo_path comment) get_github_env;
     if (returncode result =? 0)%Z then mret () else sys_exit (returncode result))
    (fun _ => sys_exit 1).

(** The tracker accepts every comment: [git] names the remote and [gh]
    returns zero, whenever they are asked. *)
Definition tracker_ok `{Env} : Prop :=
  (forall n, exists c,
      subprocess_run n ["git"; "remote"; "get-url"; "origin"] None = inr c
      /\ returncode c = 0%Z)
  /\ (forall n issue_id repo_path comment, exists c,
        subprocess_run n (comment_command issue_id repo_path comment) get_github_env = inr c
        /\ returncode c = 0%Z).

(** [upload_screenshot_to_github], read from the surroundings. *)
Definition upload_screenshot_to_github `{Env} (file_path repo_path issue_number : string)
  : M (option string) :=
  fun w => (Done (upload_screenshot (tick w) file_path repo_path issue_number), next_tick w).

(** The loop of [post_review_comment_with_screenshots] that uploads. *)
Fixpoint screenshot_md_parts `{Env} (paths : list string) (repo_path issue_number : string)
  : M (list string) :=
  match paths with
  | [] => mret (M := M) []
  | path :: rest =>
      url ← upload_screenshot_to_github path repo_path issue_number;
      parts ← screenshot_md_parts rest repo_path issue_number;
      match url : option string with
      | Some u =>
          if String.eqb u "" then mret parts
          else mret (("![" +:+ os_path_basename path +:+ "](" +:+ u +:+ ")") :: parts)
      | None => mret parts
      end
  end.

(** [post_review_comment_with_screenshots] *)
Definition post_review_comment_with_screenshots `{Env}
    (issue_number comment_text : string) (screenshot_paths : list string) : M unit :=
  github_repo_url ← get_repo_url;
  let repo_path := extract_repo_path github_repo_url in
  parts ← screenshot_md_parts screenshot_paths repo_path issue_number;
  let full_comment :=
    match parts : list string with
    | [] => comment_text
    | _ =>
        comment_text +:+ PyStr.nl +:+ PyStr.nl +:+ "### Screenshots" +:+ PyStr.nl
          +:+ PyStr.join PyStr.nl parts
    end in
  make_issue_comment issue_number full_comment.

End Github.

(** ** adw_modules/git_ops.py *)

Module GitOps.
Import DataTypes Proc Agent.

(** [git_commit]: the pair (commit message, error message). *)
Definition git_commit `{Env} `{Runtime} (agent_name adw_id : string)
  : M (option string * option string) :=
  response ← execute_template
    {| tpl_agent_name := agent_name +:+ "_committer"; slash_command := "/commit";
       args := []; tpl_adw_id := adw_id; tpl_image_paths := []; tpl_model := sonnet |};
  if success response then mret (Some (PyStr.strip (output response)), None)
  else mret (None, Some (output response)).

End GitOps.

(** ** adw_modules/workflow_ops.py *)

Module WorkflowOps.
Import DataTypes Proc Agent.

Definition AGENT_PLANNER : string := "sdlc_planner".
Definition AGENT_IMPLEMENTOR : string := "sdlc_implementor".

(** [format_issue_message] *)
Definition format_issue_message (adw_id agent_name message : string)
    (session_id : option string) : string :=
  match session_id with
  | Some sid =>
      if String.eqb sid "" then adw_id +:+ "_" +:+ agent_name +:+ ": " +:+ message
      else adw_id +:+ "_" +:+ agent_name +:+ "_" +:+ sid +:+ ": " +:+ message
  | None => adw_id +:+ "_" +:+ agent_name +:+ ": " +:+ message
  end.

(** [implement_plan] *)
Definition implement_plan `{Env} `{Runtime} (plan_file adw_id : string)
  : M AgentPromptResponse :=
  execute_template
    {| tpl_agent_name := AGENT_IMPLEMENTOR; slash_command := "/implement";
       args := [plan_file]; tpl_adw_id := adw_id; tpl_image_paths := [];
       tpl_model := sonnet |}.

(** [sorted(glob.glob(.../test-results/**/*.png))] *)
Definition collect_screenshots `{Env} : M (list string) :=
  fun w => (Done (playwright_pngs (tick w)), next_tick w).

(** [run_e2e_screenshots]: the Playwright run, whose exceptions are all
    caught, then the [*.png] files found. *)
Definition run_e2e_screenshots `{Env} : M (list string) :=
  try_except
    (_ ← run ["npx"; "playwright"; "test"; "--reporter=list"]
           (Some Utils.get_safe_subprocess_env);
     mret ())
    (fun _ => mret ());;
  collect_screenshots.

End WorkflowOps.

(** How a retry loop of a phase ends: in the [return] of its success
    branch, or past its last iteration ([break] included) with the state
    object as the iterations left it. *)
Inductive loop_end : Type :=
| Returned
| Exhausted (state : DataTypes.ADWStateData).

(** ** adw_test.py *)

Module AdwTest.
Import Json DataTypes Proc Agent State.

Definition MAX_TEST_RETRY_ATTEMPTS : nat := 4.
Definition AGENT_TESTER : string := "sdlc_tester".
Definition AGENT_TEST_RESOLVER : string := "sdlc_test_resolver".

(** [TestResult(suite=item.get("suite", "unknown"), ...)] for one item of
    the parsed list. *)
Definition test_result_of_item `{Runtime} (item : value) : exn + TestResult :=
  match item with
  | JDict kv =>
      match Pydantic.str_field (get "suite" (JStr "unknown") kv),
            lax_bool (get "passed" (JBool false) kv),
            Pydantic.str_field (get "output" (JStr "") kv),
            Pydantic.opt_str_field (get "error" JNull kv) with
      | Some s, Some p, Some o, Some e =>
          inr {| suite := s; passed := p; test_output := o; test_error := e |}
      | _, _, _, _ => inl ValidationError
      end
  | _ => inl AttributeError
  end.

Fixpoint test_results_of `{Runtime} (items : list value) : exn + list TestResult :=
  match items with
  | [] => inr []
  | item :: rest =>
      match test_result_of_item item with
      | inl e => inl e
      | inr tr =>
          match test_results_of rest with
          | inl e => inl e
          | inr trs => inr (tr :: trs)
          end
      end
  end.

(** The fallback of [run_tests] on the raw output. *)
Definition pass_indicated (output : string) : bool :=
  let raw := PyStr.lower output in
  PyStr.contains "all tests passed" raw
  || (PyStr.contains "pass" raw && negb (PyStr.contains "fail" raw)).

(** [run_tests] from the response of [/test] on. *)
Definition test_result_of_response `{Runtime} (response : AgentPromptResponse)
    (attempt : nat) : exn + E2ETestResult :=
  if negb (success response) then
    inr {| all_passed := false;
           results := [ {| suite := "all"; passed := false; test_output := "";
                           test_error := Some (output response) |} ];
           attempt := attempt |}
  else
    let parsed := Utils.parse_json (output response) in
    match parsed with
    | JList ((_ :: _) as items) =>
        match test_results_of items with
        | inl e => inl e
        | inr test_results =>
            inr {| all_passed := forallb passed test_results;
                   results := test_results; attempt := attempt |}
        end
    | _ =>
        let passed := pass_indicated (output response) in
        inr {| all_passed := passed;
               results := [ {| suite := "all"; passed := passed;
                               test_output := output response; test_error := None |} ];
               attempt := attempt |}
    end.

(** [run_tests] *)
Definition run_tests `{Env} `{Runtime} (adw_id : string) (attempt : nat) : M E2ETestResult :=
  response ← execute_template
    {| tpl_agent_name := AGENT_TESTER +:+ "_attempt_" +:+ pretty attempt;
       slash_command := "/test"; args := []; tpl_adw_id := adw_id;
       tpl_image_paths := []; tpl_model := sonnet |};
  match test_result_of_response response attempt with
  | inr r => mret r
  | inl e => raise e
  end.

(** [resolve_failed_tests] *)
Definition resolve_failed_tests `{Env} `{Runtime} (adw_id test_output : string)
    (attempt : nat) : M bool :=
  response ← execute_template
    {| tpl_agent_name := AGENT_TEST_RESOLVER +:+ "_attempt_" +:+ pretty attempt;
       slash_command := "/resolve_failed_test"; args := [test_output];
       tpl_adw_id := adw_id; tpl_image_paths := []; tpl_model := opus |};
  mret (success response).

(** [r.error or r.output] *)
Definition error_or_output (r : TestResult) : string :=
  match test_error r with
  | Some e => if String.eqb e "" then test_output r else e
  | None => test_output r
  end.

Definition failure_output (test_result : E2ETestResult) : string :=
  PyStr.join PyStr.nl
    (map (fun r => "Suite: " +:+ suite r +:+ PyStr.nl +:+ "Error: " +:+ error_or_output r)
         (filter (fun r => passed r = false) (results test_result))).

Definition comment `{Env} (issue_number adw_id agent_name message : string) : M unit :=
  Github.make_issue_comment issue_number
    (WorkflowOps.format_issue_message adw_id agent_name message None).

(** The loop [for attempt in range(1, MAX_TEST_RETRY_ATTEMPTS + 1)] of
    [main], over the attempts still to make. *)
Fixpoint retry_loop `{Env} `{Runtime} (adw_id : string) (attempts : list nat)
    (state : ADWStateData) : M loop_end :=
  match attempts with
  | [] => mret (Exhausted state)
  | attempt :: rest =>
      comment (issue_number state) adw_id AGENT_TESTER
        ("🧪 Running tests (attempt " +:+ pretty attempt +:+ ")");;
      test_result ← run_tests adw_id attempt;
      state ← save_state (set_test_results (test_results state ++ [test_result]) state);
      if all_passed test_result then
        comment (issue_number state) adw_id AGENT_TESTER "✅ All tests passed";;
        _ ← advance_phase state REVIEW;
        mret Returned
      else if bool_decide (MAX_TEST_RETRY_ATTEMPTS ≤ attempt) then
        mret (Exhausted state)
      else
        comment (issue_number state) adw_id AGENT_TEST_RESOLVER
          "🔧 Attempting to fix test failures";;
        resolved ← resolve_failed_tests adw_id (failure_output test_result) attempt;
        (if resolved : bool
         then _ ← GitOps.git_commit AGENT_TEST_RESOLVER adw_id; mret ()
         else mret ());;
        retry_loop adw_id rest state
  end.

Definition exhausted_message : string :=
  "Tests failed after " +:+ pretty MAX_TEST_RETRY_ATTEMPTS +:+ " attempts".

(** [main], on [sys.argv] *)
Definition main `{Env} `{Runtime} (argv : list string) : M unit :=
  match argv with
  | _ :: adw_id :: _ =>
      loaded ← load_state adw_id;
      match loaded with
      | None => sys_exit 1
      | Some state =>
          comment (issue_number state) adw_id "ops" "✅ Starting test phase";;
          ended ← retry_loop adw_id (seq 1 MAX_TEST_RETRY_ATTEMPTS) state;
          match ended with
          | Returned => mret ()
          | Exhausted state =>
              state ← mark_error state exhausted_message;
              comment (issue_number state) adw_id AGENT_TESTER
                ("❌ Tests still failing after " +:+ pretty MAX_TEST_RETRY_ATTEMPTS
                   +:+ " attempts");;
              sys_exit 1
          end
      end
  | _ => sys_exit 1
  end.

End AdwTest.

(** ** adw_review.py *)

Module AdwReview.
Import Json DataTypes Proc Agent State.

Definition MAX_REVIEW_RETRY_ATTEMPTS : nat := 3.
Definition AGENT_REVIEWER : string := "sdlc_reviewer".

Definition severity_field (v : value) : option Severity :=
  if eq_str v "blocker" then Some blocker
  else if eq_str v "warning" then Some warning
  else if eq_str v "suggestion" then Some suggestion
  else None.

(** [ReviewIssue(file=item.get("file", "unknown"), ...)] for one item. *)
Definition review_issue_of_item `{Runtime} (item : value) : exn + ReviewIssue :=
  match item with
  | JDict kv =>
      match Pydantic.str_field (get "file" (JStr "unknown") kv),
            Pydantic.opt_int_field (get "line" JNull kv),
            severity_field (get "severity" (JStr "suggestion") kv),
            Pydantic.str_field (get "description" (JStr "") kv) with
      | Some f, Some l, Some s, Some d =>
          inr {| file := f; line := l; severity := s; description := d |}
      | _, _, _, _ => inl ValidationError
      end
  | _ => inl AttributeError
  end.

Fixpoint review_issues_of `{Runtime} (items : list value) : exn + list ReviewIssue :=
  match items with
  | [] => inr []
  | item :: rest =>
      match review_issue_of_item item with
      | inl e => inl e
      | inr i =>
          match review_issues_of rest with
          | inl e => inl e
          | inr l => inr (i :: l)
          end
      end
  end.

Fixpoint characters (s : string) : list value :=
  match s with
  | EmptyString => []
  | String c s' => JStr (String c EmptyString) :: characters s'
  end.

(** What [for item in v] iterates over: the items of a list, the keys of a
    dict, the characters of a string; other values are not iterable. *)
Definition iterate (v : value) : exn + list value :=
  match v with
  | JList l => inr l
  | JDict kv => inr (map (fun p => JStr p.1) kv)
  | JStr s => inr (characters s)
  | _ => inl TypeError
  end.

(** The fallback of [run_review] on the raw output. *)
Definition has_blockers (output : string) : bool :=
  let raw := PyStr.lower output in
  PyStr.contains "blocker" raw
  && (negb (PyStr.contains "approved" raw) || PyStr.contains "not approved" raw).

(** [run_review] from the response of [/review] on. *)
Definition review_result_of_response `{Runtime} (response : AgentPromptResponse)
    (attempt : nat) : exn + ReviewResult :=
  if negb (success response) then
    inr {| approved := false;
           issues := [ {| file := "unknown"; line := None; severity := blocker;
                          description := output response |} ];
           screenshots := [];
           summary := "Review failed: " +:+ output response;
           review_attempt := attempt |}
  else
    let parsed := Utils.parse_json (output response) in
    match parsed with
    | JDict ((_ :: _) as kv) =>
        match iterate (get "issues" (JList []) kv) with
        | inl e => inl e
        | inr items =>
            match review_issues_of items with
            | inl e => inl e
            | inr issues =>
                match lax_bool (get "approved" (JBool (bool_decide (length issues = 0))) kv),
                      Pydantic.str_list_field (get "screenshots" (JList []) kv),
                      Pydantic.str_field
                        (get "summary" (JStr (PyStr.take 200 (output response))) kv) with
                | Some a, Some shots, Some sum =>
                    inr {| approved := a; issues := issues; screenshots := shots;
                           summary := sum; review_attempt := attempt |}
                | _, _, _ => inl ValidationError
                end
            end
        end
    | _ =>
        inr {| approved := negb (has_blockers (output response)); issues := [];
               screenshots := [];
               summary := PyStr.take 500 (output response);
               review_attempt := attempt |}
    end.

(** [run_review] *)
Definition run_review `{Env} `{Runtime} (adw_id plan_file : string) (attempt : nat)
  : M ReviewResult :=
  response ← execute_template
    {| tpl_agent_name := AGENT_REVIEWER +:+ "_attempt_" +:+ pretty attempt;
       slash_command := "/review"; args := [plan_file]; tpl_adw_id := adw_id;
       tpl_image_paths := []; tpl_model := opus |};
  match review_result_of_response response attempt with
  | inr r => mret r
  | inl e => raise e
  end.

Definition set_screenshots (l : list string) (r : ReviewResult) : ReviewResult :=
  {| approved := approved r; issues := issues r; screenshots := l;
     summary := summary r; review_attempt := review_attempt r |}.

(** [list(set(a + b))]: the distinct paths, in the order of the set. *)
Definition merge_screenshots (a b : list string) : list string :=
  elements (list_to_set (a ++ b) : gset string).

(** [b.line or '?'] *)
Definition line_or_mark (i : ReviewIssue) : string :=
  match line i with
  | Some z => if (z =? 0)%Z then "?" else pretty z
  | None => "?"
  end.

Definition blocker_desc (review_result : ReviewResult) : string :=
  PyStr.join PyStr.nl
    (map (fun b => "- [" +:+ file b +:+ ":" +:+ line_or_mark b +:+ "] " +:+ description b)
         (filter (fun i => severity i = blocker) (issues review_result))).

Definition comment `{Env} (issue_number adw_id agent_name message : string) : M unit :=
  Github.make_issue_comment issue_number
    (WorkflowOps.format_issue_message adw_id agent_name message None).

(** Posting a review comment: with the screenshots when there are some. *)
Definition post_review `{Env} (issue_number text : string) (shots : list string) : M unit :=
  match shots with
  | [] => Github.make_issue_comment issue_number text
  | _ => Github.post_review_comment_with_screenshots issue_number text shots
  end.

(** The loop [for attempt in range(1, MAX_REVIEW_RETRY_ATTEMPTS + 1)] of
    [main], over the attempts still to make. *)
Fixpoint retry_loop `{Env} `{Runtime} (adw_id plan_file : string)
    (e2e_screenshots : list string) (attempts : list nat) (state : ADWStateData)
  : M loop_end :=
  match attempts with
  | [] => mret (Exhausted state)
  | attempt :: rest =>
      comment (issue_number state) adw_id AGENT_REVIEWER
        ("🔍 Running review (attempt " +:+ pretty attempt +:+ ")");;
      review_result ← run_review adw_id plan_file attempt;
      let review_result :=
        match e2e_screenshots with
        | [] => review_result
        | _ =>
            set_screenshots
              (merge_screenshots (screenshots review_result) e2e_screenshots)
              review_result
        end in
      state ← save_state (set_review_results (review_results state ++ [review_result]) state);
      if approved review_result then
        post_review (issue_number state)
          (WorkflowOps.format_issue_message adw_id AGENT_REVIEWER "✅ Review approved" None)
          (screenshots review_result);;
        _ ← advance_phase state DOCUMENT;
        mret Returned
      else if bool_decide (MAX_REVIEW_RETRY_ATTEMPTS ≤ attempt) then
        mret (Exhausted state)
      else
        comment (issue_number state) adw_id WorkflowOps.AGENT_IMPLEMENTOR
          "🔧 Fixing review blockers";;
        fix_response ← WorkflowOps.implement_plan
          ("Fix these review blockers:" +:+ PyStr.nl +:+ blocker_desc review_result) adw_id;
        (if success fix_response
         then _ ← GitOps.git_commit AGENT_REVIEWER adw_id; mret ()
         else mret ());;
        retry_loop adw_id plan_file e2e_screenshots rest state
  end.

Definition exhausted_message : string :=
  "Review blockers after " +:+ pretty MAX_REVIEW_RETRY_ATTEMPTS +:+ " attempts".

Definition failure_comment (adw_id : string) : string :=
  WorkflowOps.format_issue_message adw_id AGENT_REVIEWER
    ("❌ Review blockers not resolved after " +:+ pretty MAX_REVIEW_RETRY_ATTEMPTS
       +:+ " attempts") None.

(** [main], on [sys.argv] *)
Definition main `{Env} `{Runtime} (argv : list string) : M unit :=
  match argv with
  | _ :: adw_id :: _ =>
      loaded ← load_state adw_id;
      match loaded with
      | None => sys_exit 1
      | Some state =>
          match plan_file state with
          | None => sys_exit 1
          | Some EmptyString => sys_exit 1
          | Some plan =>
              comment (issue_number state) adw_id "ops" "✅ Starting review phase";;
              e2e_screenshots ← WorkflowOps.run_e2e_screenshots;
              ended ← retry_loop adw_id plan e2e_screenshots
                        (seq 1 MAX_REVIEW_RETRY_ATTEMPTS) state;
              match ended with
              | Returned => mret ()
              | Exhausted state =>
                  state ← mark_error state exhausted_message;
                  post_review (issue_number state) (failure_comment adw_id)
                    (match last (review_results state) with
                     | Some last_review => screenshots last_review
                     | None => []
                     end);;
                  sys_exit 1
              end
          end
      end
  | _ => sys_exit 1
  end.

End AdwReview.

(** ** adw_plan_build.py *)

Module AdwPlanBuild.
Import DataTypes Proc State.

Definition set_run_fields (cls : option IssueClass) (branch plan pr : option string)
    (s : ADWStateData) : ADWStateData :=
  {| state_adw_id := state_adw_id s; issue_number := issue_number s;
     workflow := workflow s; issue_class := cls;
     branch_name := branch; plan_file := plan;
     current_phase := current_phase s; completed_phases := completed_phases s;
     test_results := test_results s; review_results := review_results s;
     documentation := documentation s; pr_url := pr; error := error s;
     created_at := created_at s; updated_at := updated_at s |}.

(** The calls of [main] on the state store, in the order of a run that
    reaches its end: [create_state], then the assignments to the state
    object and the [advance_phase] and [save_state] calls between the
    agent's steps, whose results are the arguments. *)
Definition state_calls `{Env} (adw_id issue : string) (issue_command : IssueClass)
    (branch plan_file_path pr : string) : M ADWStateData :=
  state ← create_state adw_id issue PLAN_BUILD;
  state ← advance_phase
    (set_run_fields (Some issue_command) (branch_name state) (plan_file state)
       (pr_url state) state) BRANCH;
  state ← advance_phase
    (set_run_fields (issue_class state) (Some branch) (plan_file state)
       (pr_url state) state) PLAN;
  state ← save_state
    (set_run_fields (issue_class state) (branch_name state) (Some plan_file_path)
       (pr_url state) state);
  state ← advance_phase state BUILD;
  state ← advance_phase state PR;
  advance_phase
    (set_run_fields (issue_class state) (branch_name state) (plan_file state)
       (Some pr) state) PR.

End AdwPlanBuild.

(** ** The keyword router of trigger_cron.py and trigger_webhook.py *)

Module Router.

(** [WORKFLOW_SCRIPTS], the same dict in both files, in the order in which
    it is written. *)
Definition WORKFLOW_SCRIPTS : list (string * string) :=
  [ ("adw", "adw_plan_build.py");
    ("adw_plan_build", "adw_plan_build.py");
    ("adw_sdlc", "adw_sdlc.py");
    ("adw_patch", "adw_patch.py");
    ("adw_plan_build_test", "adw_plan_build_test.py");
    ("adw_plan_build_review", "adw_plan_build_review.py");
    ("adw_plan_build_test_review", "adw_plan_build_test_review.py") ].

(** [WORKFLOW_SCRIPTS[kw]] *)
Fixpoint script_of_in (table : list (string * string)) (kw : string) : option string :=
  match table with
  | [] => None
  | (k, script) :: rest => if String.eqb k kw then Some script else script_of_in rest kw
  end.

Definition script_of (kw : string) : option string := script_of_in WORKFLOW_SCRIPTS kw.

(** [sorted(keys, key=len, reverse=True)]: a stable sort, longest first. *)
Fixpoint insert_by_len (kw : string) (sorted : list string) : list string :=
  match sorted with
  | [] => [kw]
  | k :: rest =>
      if (String.length k <=? String.length kw)%nat then kw :: sorted
      else k :: insert_by_len kw rest
  end.

Definition sorted_longest_first (keys : list string) : list string :=
  foldr insert_by_len [] keys.

Definition keywords : list string := sorted_longest_first (WORKFLOW_SCRIPTS.*1).

End Router.

(** ** trigger_cron.py *)

Module TriggerCron.
Import Router.

(** [resolve_workflow] *)
Definition resolve_workflow (comment_body : string) : option string :=
  let keyword := PyStr.lower (PyStr.strip comment_body) in
  match find (fun kw => String.eqb keyword kw || PyStr.startswith kw keyword) keywords with
  | Some kw => script_of kw
  | None => None
  end.

End TriggerCron.

(** ** trigger_webhook.py *)

Module TriggerWebhook.
Import Router.

Definition reason (kw : string) : string := "Comment with '" +:+ kw +:+ "' command".

Definition answer (kw : string) : string * string :=
  match script_of kw with
  | Some script => (script, reason kw)
  | None => (EmptyString, EmptyString)
  end.

(** The loop over the lines of the body. *)
Fixpoint first_line_match (lines : list string) : option string :=
  match lines with
  | [] => None
  | line :: rest =>
      match find (fun kw => PyStr.startswith kw (PyStr.strip line)) keywords with
      | Some kw => Some kw
      | None => first_line_match rest
      end
  end.

(** [resolve_workflow]: the pair (script, reason), two empty strings when
    no keyword matches. *)
Definition resolve_workflow (comment_body : string) : string * string :=
  let body_lower := PyStr.lower (PyStr.strip comment_body) in
  match find (fun kw => String.eqb body_lower kw) keywords with
  | Some kw => answer kw
  | None =>
      match first_line_match (PyStr.splitlines body_lower) with
      | Some kw => answer kw
      | None => (EmptyString, EmptyString)
      end
  end.

End TriggerWebhook.

(** ** Sequences of state-store operations *)

Module StoreOps.
Import DataTypes Proc State.

(** The operations a phase performs on a record once it is created. *)
Inductive store_op : Type :=
| OpSave
| OpAdvance (next_phase : ADWPhase)
| OpMarkError (message : string).

Definition apply_op `{Env} (op : store_op) (state : ADWStateData) : M ADWStateData :=
  match op with
  | OpSave => save_state state
  | OpAdvance next_phase => advance_phase state next_phase
  | OpMarkError message => mark_error state message
  end.

Fixpoint apply_ops `{Env} (ops : list store_op) (state : ADWStateData) : M ADWStateData :=
  match ops with
  | [] => mret state
  | op :: rest => state' ← apply_op op state; apply_ops rest state'
  end.

(** A fresh record, then the operations. *)
Definition run_ops `{Env} (adw_id issue : string) (workflow : ADWWorkflow)
    (ops : list store_op) : M ADWStateData :=
  state ← create_state adw_id issue workflow;
  apply_ops ops state.

End StoreOps.

(** ** Scripted surroundings, for the examples *)

Module Scenario.
Import DataTypes Proc.

Record Script : Type := {
  host : gmap string string;             (* the host environment *)
  on_disk : list string;                 (* the files [os.path.isfile] finds *)
  tracker : nat -> Z;                    (* the return code of [gh], by tick *)
  agent : nat -> string -> Completed;    (* the agent's run, by tick and prompt *)
}.

Definition ok (out : string) : Completed :=
  {| returncode := 0; stdout := out; stderr := "" |}.

(** [git] answers with a remote, [gh] as the script says, the probe
    succeeds, and a command line with a prompt is answered by the agent.
    The paths of the scenarios are absolute. *)
Definition scripted (s : Script) : Env := {|
  environ := host s;
  project_root := "/repo";
  now := fun n => "T" +:+ pretty n;
  isfile := fun _ p => bool_decide (p ∈ on_disk s);
  abspath := fun p => p;
  subprocess_run := fun n c _ =>
    match c with
    | prog :: arg :: rest =>
        if String.eqb prog "git" then inr (ok ("https://github.com/acme/app.git" +:+ PyStr.nl))
        else if String.eqb prog "gh" then
          inr {| returncode := tracker s n; stdout := ""; stderr := "" |}
        else if String.eqb prog "npx" then inr (ok "")
        else if String.eqb arg "--version" then inr (ok "1.0.0")
        else
          match rest with
          | prompt :: _ => inr (agent s n prompt)
          | [] => inl FileNotFoundError
          end
    | _ => inl FileNotFoundError
    end;
  playwright_pngs := fun _ => [];
  upload_screenshot := fun _ _ _ _ => None;
|}.

(** One line of the agent's output: a [result] record. *)
Definition result_line (is_error : bool) (text : string) : string :=
  "{" +:+ Lite.quote "type" +:+ ": " +:+ Lite.quote "result"
    +:+ ", " +:+ Lite.quote "is_error" +:+ ": " +:+ (if is_error then "true" else "false")
    +:+ ", " +:+ Lite.quote "result" +:+ ": " +:+ Lite.quote text
    +:+ ", " +:+ Lite.quote "session_id" +:+ ": " +:+ Lite.quote "s1" +:+ "}" +:+ PyStr.nl.

(** The agent says [text] and ends well. *)
Definition says (text : string) : Completed := ok (result_line false text).

Definition empty_world : World :=
  {| tick := 0; files := ∅; state_files := ∅; spawned := [] |}.

(** A record as the build phase leaves it. *)
Definition built (adw_id : string) : ADWStateData :=
  {| state_adw_id := adw_id; issue_number := "42"; workflow := PLAN_BUILD_TEST_REVIEW;
     issue_class := Some feature; branch_name := Some "feat-42";
     plan_file := Some "specs/plan-42.md"; current_phase := TEST;
     completed_phases := [CLASSIFY; BRANCH; PLAN; BUILD];
     test_results := []; review_results := []; documentation := None;
     pr_url := None; error := None; created_at := "T0"; updated_at := "T0" |}.

Definition world_with (state : ADWStateData) : World :=
  {| tick := 0; files := ∅;
     state_files := {[ "/repo/agents/" +:+ state_adw_id state +:+ "/adw_state.json" := state ]};
     spawned := [] |}.

(** The suites of a [/test] answer: one that passes and one that passes or
    fails. *)
Definition suites (second_passes : bool) : string :=
  "[{" +:+ Lite.quote "suite" +:+ ": " +:+ Lite.quote "a" +:+ ", "
    +:+ Lite.quote "passed" +:+ ": true}, {"
    +:+ Lite.quote "suite" +:+ ": " +:+ Lite.quote "b" +:+ ", "
    +:+ Lite.quote "passed" +:+ ": " +:+ (if second_passes then "true" else "false")
    +:+ (if second_passes then ""
         else ", " +:+ Lite.quote "error" +:+ ": " +:+ Lite.quote "E")
    +:+ "}]".

(** A [/review] answer with one blocker. *)
Definition blocked : string :=
  "{" +:+ Lite.quote "approved" +:+ ": false, " +:+ Lite.quote "issues" +:+ ": [{"
    +:+ Lite.quote "file" +:+ ": " +:+ Lite.quote "x" +:+ ", "
    +:+ Lite.quote "severity" +:+ ": " +:+ Lite.quote "blocker" +:+ ", "
    +:+ Lite.quote "description" +:+ ": " +:+ Lite.quote "d" +:+ "}], "
    +:+ Lite.quote "summary" +:+ ": " +:+ Lite.quote "s" +:+ "}".

(** A [/review] answer that approves. *)
Definition clean : string :=
  "{" +:+ Lite.quote "approved" +:+ ": true, " +:+ Lite.quote "issues" +:+ ": [], "
    +:+ Lite.quote "summary" +:+ ": " +:+ Lite.quote "s" +:+ "}".

(** A record as the test phase leaves it. *)
Definition tested (adw_id : string) : ADWStateData :=
  {| state_adw_id := adw_id; issue_number := "42"; workflow := PLAN_BUILD_TEST_REVIEW;
     issue_class := Some feature; branch_name := Some "feat-42";
     plan_file := Some "specs/plan-42.md"; current_phase := REVIEW;
     completed_phases := [CLASSIFY; BRANCH; PLAN; BUILD; TEST];
     test_results := []; review_results := []; documentation := None;
     pr_url := None; error := None; created_at := "T0"; updated_at := "T0" |}.

End Scenario.

(** The scenarios of the examples. *)
Module Examples.
Import DataTypes Proc Scenario.

Definition plain_host : gmap string string :=
  {[ "HOME" := "/root"; "PATH" := "/usr/bin"; "CLAUDECODE" := "1";
     "AWS_SECRET_ACCESS_KEY" := "hunter2"; "GITHUB_PAT" := "tok" ]}.

(** The agent answers every prompt with the same output. *)
Definition constant (out : string) : Script :=
  {| host := plain_host; on_disk := []; tracker := fun _ => 0%Z;
     agent := fun _ _ => ok out |}.

(** As [constant], with one image on disk. *)
Definition with_image (out : string) : Script :=
  {| host := plain_host; on_disk := ["/tmp/shot.png"]; tracker := fun _ => 0%Z;
     agent := fun _ _ => ok out |}.

(** A request as [execute_template] makes it for [/test]. *)
Definition test_request (images : list string) : AgentPromptRequest :=
  {| prompt := "/test "; adw_id := "abc"; agent_name := "sdlc_tester_attempt_1";
     model := sonnet; image_paths := images; dangerously_skip_permissions := true;
     output_file := "/repo/agents/abc/sdlc_tester_attempt_1/raw_output.jsonl" |}.

(** The tracker accepts the comments before tick [mute_from] and answers
    with [code] from then on.  The agent answers [/test] with two suites,
    the second of which passes from tick [pass_from] on, [/review] with a
    blocker before tick [pass_from] and with an approval from then on, and
    every other prompt with [done]. *)
Definition phase_script (mute_from : nat) (code : Z) (pass_from : nat) : Script :=
  {| host := plain_host; on_disk := [];
     tracker := fun n => if n <? mute_from then 0%Z else code;
     agent := fun n p =>
       if PyStr.startswith "/test" p then says (suites (pass_from <=? n))
       else if PyStr.startswith "/review" p
       then says (if pass_from <=? n then clean else blocked)
       else says "done" |}.

(** An output with a line that is no JSON before the [result] record. *)
Definition garbled : string := "oops" +:+ PyStr.nl +:+ result_line true "boom".

End Examples.

(** * What is said of runs *)

(** The relations between the world before and after a run, and the
    predicates on what a run leaves, that the properties are stated
    with. *)
Module Runs.
Import PyStr DataTypes Proc Agent State.

(** Every run of [m] takes a world to one related to it by [R], however
    the run ends. *)
Definition steps {A : Type} (R : relation World) (m : M A) : Prop :=
  forall w o w', m w = (o, w') -> R w w'.

(** A spawn of the run is the probe [claude --version], which is given no
    environment of its own, or is given [get_claude_env]. *)
Definition agent_spawn `{Env} (sp : Spawn) : Prop :=
  (cmd sp = [CLAUDE_PATH; "--version"] /\ env sp = None)
  \/ env sp = Some get_claude_env.

(** The subprocesses spawned between [w] and [w'] are spawns of the agent's
    run. *)
Definition spawns_agent `{Env} (w w' : World) : Prop :=
  exists new, spawned w' = new ++ spawned w /\ Forall agent_spawn new.

(** Nothing was spawned between [w] and [w']. *)
Definition same_spawned (w w' : World) : Prop := spawned w' = spawned w.

(** The state files of [w'] are those of [w]. *)
Definition same_states (w w' : World) : Prop := state_files w' = state_files w.

(** The run ended in an exception or in [sys.exit]. *)
Definition aborted {A : Type} (o : outcome A) : Prop :=
  match o with Done _ => False | _ => True end.

(** The text up to the first line boundary, and from it on. *)
Fixpoint line_prefix (s : string) : string :=
  match s with
  | EmptyString => EmptyString
  | String c s' => if is_linebreak c then EmptyString else String c (line_prefix s')
  end.

Fixpoint line_rest (s : string) : string :=
  match s with
  | EmptyString => EmptyString
  | String c s' => if is_linebreak c then s else line_rest s'
  end.

(** A comment on the issue that begins with [text] was accepted by the
    tracker. *)
Definition posted (issue_id text : string) (w : World) : Prop :=
  exists sp repo_path more done,
    sp ∈ spawned w
    /\ cmd sp = Github.comment_command issue_id repo_path (text +:+ more)
    /\ result sp = inr done
    /\ returncode done = 0%Z.

(** The result as [main] records it: with the screenshots of the
    Playwright run merged in, when there are some. *)
Definition recorded (e2e_screenshots : list string) (review_result : ReviewResult)
  : ReviewResult :=
  match e2e_screenshots with
  | [] => review_result
  | _ =>
      AdwReview.set_screenshots
        (AdwReview.merge_screenshots (screenshots review_result) e2e_screenshots)
        review_result
  end.

(** What a run of the retry loop leaves: the record in the state file is
    the initial one with the attempts made appended, at most one per
    attempt to make.  When every attempt was made and failed, the loop is
    exhausted; when the tracker accepts the comments and an attempt passed,
    the loop returned and the phase is REVIEW. *)
Definition test_loop_post `{Env} (adw_id : string) (attempts : list nat) (state : ADWStateData)
    (o : outcome loop_end) (w' : World) : Prop :=
  exists state' new,
    state_files w' !! get_state_path adw_id = Some state'
    /\ state_adw_id state' = adw_id
    /\ test_results state' = test_results state ++ new
    /\ length new <= length attempts
    /\ (o = Done Returned -> current_phase state' = REVIEW)
    /\ (forall s, o = Done (Exhausted s) -> s = state')
    /\ (length new = length attempts -> Forall (fun r => all_passed r = false) new ->
        exists s, o = Done (Exhausted s))
    /\ (Github.tracker_ok -> Exists (fun r => all_passed r = true) new -> o = Done Returned).

(** What a run of the review loop leaves: as for the test loop, with
    DOCUMENT for the phase. *)
Definition review_loop_post `{Env} (adw_id : string) (attempts : list nat) (state : ADWStateData)
    (o : outcome loop_end) (w' : World) : Prop :=
  exists state' new,
    state_files w' !! get_state_path adw_id = Some state'
    /\ state_adw_id state' = adw_id
    /\ issue_number state' = issue_number state
    /\ review_results state' = review_results state ++ new
    /\ length new <= length attempts
    /\ (o = Done Returned -> current_phase state' = DOCUMENT)
    /\ (forall s, o = Done (Exhausted s) -> s = state')
    /\ (length new = length attempts -> Forall (fun r => approved r = false) new ->
        exists s, o = Done (Exhausted s))
    /\ (Github.tracker_ok -> Exists (fun r => approved r = true) new -> o = Done Returned).

End Runs.

(** * Further code of the repository *)

(** ** adw_modules/orchestrator.py *)

Module Orchestrator.
Import DataTypes Proc.

(** [get_adws_dir] *)
Definition get_adws_dir `{Env} : string := os_path_join project_root ["adws"].

(** [run_phase]: the return code of [uv run <script> <args>]; the
    subprocess inherits the host environment. *)
Definition run_phase `{Env} (script_name : string) (args : list string) : M Z :=
  let script_path := os_path_join get_adws_dir [script_name] in
  let cmd := ["uv"; "run"; script_path] ++ args in
  result ← run cmd None;
  mret (returncode result).

(** The loop [for i, phase_script in enumerate(phases)] of [run_pipeline],
    over the phases still to run; [first] tells whether [i == 0]. *)
Fixpoint run_phases `{Env} (first : bool) (phases : list string)
    (issue_number adw_id : string) : M unit :=
  match phases with
  | [] => mret ()
  | phase_script :: rest =>
      exit_code ← run_phase phase_script
                    (if first then [issue_number; adw_id] else [adw_id]);
      if (exit_code =? 0)%Z then run_phases false rest issue_number adw_id
      else sys_exit exit_code
  end.

(** [run_pipeline] *)
Definition run_pipeline `{Env} (phases : list string) (issue_number adw_id : string)
  : M unit :=
  run_phases true phases issue_number adw_id.

(** The command [run_phase] spawns for a phase. *)
Definition phase_command `{Env} (first : bool) (issue_number adw_id script_name : string)
  : list string :=
  ["uv"; "run"; os_path_join get_adws_dir [script_name]]
    ++ (if first then [issue_number; adw_id] else [adw_id]).

(** The commands of a pipeline, in order. *)
Definition pipeline_commands `{Env} (phases : list string) (issue_number adw_id : string)
  : list (list string) :=
  match phases with
  | [] => []
  | p :: rest =>
      phase_command true issue_number adw_id p
        :: map (phase_command false issue_number adw_id) rest
  end.

End Orchestrator.

(** ** adw_plan_build_test.py and adw_plan_build_review.py *)

Module AdwPlanBuildTest.
Import Proc Orchestrator.

Definition PHASES : list string := ["adw_plan.py"; "adw_build.py"; "adw_test.py"].

(** [main], on [sys.argv]; [fresh] is what [make_adw_id()] would give. *)
Definition main `{Env} (argv : list string) (fresh : string) : M unit :=
  match argv with
  | _ :: issue_number :: rest =>
      let adw_id := match rest with adw_id :: _ => adw_id | [] => fresh end in
      run_pipeline PHASES issue_number adw_id
  | _ => sys_exit 1
  end.

End AdwPlanBuildTest.

Module AdwPlanBuildReview.
Import Proc Orchestrator.

Definition PHASES : list string := ["adw_plan.py"; "adw_build.py"; "adw_review.py"].

(** [main], on [sys.argv]; [fresh] is what [make_adw_id()] would give. *)
Definition main `{Env} (argv : list string) (fresh : string) : M unit :=
  match argv with
  | _ :: issue_number :: rest =>
      let adw_id := match rest with adw_id :: _ => adw_id | [] => fresh end in
      run_pipeline PHASES issue_number adw_id
  | _ => sys_exit 1
  end.

End AdwPlanBuildReview.

(** ** adw_modules/workflow_ops.py, the rest *)

Module Workflow.
Import PyStr DataTypes Proc Agent.

Definition AGENT_CLASSIFIER : string := "issue_classifier".
Definition AGENT_PLAN_FINDER : string := "plan_finder".

(** [check_error]: the first argument is an error message, or [None], or
    a response.  [if error:] lets an empty message pass. *)
Definition check_error `{Env} (error_or_response : option string + AgentPromptResponse)
    (issue_number adw_id agent_name error_prefix : string) : M unit :=
  let error :=
    match error_or_response with
    | inr response => if negb (success response) then Some (output response) else None
    | inl error => error
    end in
  match error with
  | Some e =>
      if String.eqb e "" then mret ()
      else
        Github.make_issue_comment issue_number
          (WorkflowOps.format_issue_message adw_id agent_name
             ("❌ " +:+ error_prefix +:+ ": " +:+ e) None);;
        sys_exit 1
  | None => mret ()
  end.

(** [s.lstrip(c)] and [s.strip(c)] for one character [c]. *)
Fixpoint lstrip_char (c : ascii) (s : string) : string :=
  match s with
  | EmptyString => EmptyString
  | String a s' => if Ascii.eqb a c then lstrip_char c s' else s
  end.

Fixpoint rstrip_char (c : ascii) (s : string) : string :=
  match s with
  | EmptyString => EmptyString
  | String a s' =>
      match rstrip_char c s' with
      | EmptyString => if Ascii.eqb a c then EmptyString else String a EmptyString
      | r => String a r
      end
  end.

Definition strip_char (c : ascii) (s : string) : string := rstrip_char c (lstrip_char c s).

(** [valid_commands], each with the class it names. *)
Definition valid_commands : list (string * IssueClass) :=
  [("/chore", chore); ("/bug", bug); ("/feature", feature)].

(** [classify_issue] from the response of [/classify_issue] on: the pair
    (command, error message). *)
Definition classification_of_response (issue_response : AgentPromptResponse)
  : option IssueClass * option string :=
  if negb (success issue_response) then (None, Some (output issue_response))
  else
    let issue_command := strip_char "`" (strip (output issue_response)) in
    if String.eqb issue_command "0"
    then (None, Some ("No command selected: " +:+ output issue_response))
    else
      match find (fun p => String.eqb issue_command p.1) valid_commands with
      | Some p => (Some p.2, None)
      | None =>
          let raw := lower (output issue_response) in
          match find (fun p => contains p.1 raw || contains (lstrip_char "/" p.1) raw)
                  valid_commands with
          | Some p => (Some p.2, None)
          | None => (None, Some ("Invalid command selected: " +:+ output issue_response))
          end
      end.

(** [get_plan_file] from the response of [/find_plan_file] on. *)
Definition plan_file_of_response (response : AgentPromptResponse)
  : option string * option string :=
  if negb (success response) then (None, Some (output response))
  else
    let file_path := strip (output response) in
    if negb (String.eqb file_path "") && negb (String.eqb file_path "0")
       && contains "/" file_path
    then (Some file_path, None)
    else if String.eqb file_path "0" then (None, Some "No plan file found in output")
    else (None, Some ("Invalid file path response: " +:+ file_path)).

(** [get_plan_file] *)
Definition get_plan_file `{Env} `{Runtime} (plan_output adw_id : string)
  : M (option string * option string) :=
  response ← execute_template
    {| tpl_agent_name := AGENT_PLAN_FINDER; slash_command := "/find_plan_file";
       args := [plan_output]; tpl_adw_id := adw_id; tpl_image_paths := [];
       tpl_model := sonnet |};
  mret (plan_file_of_response response).

End Workflow.

(** ** adw_modules/git_ops.py, the rest *)

Module Git.
Import PyStr DataTypes Proc Agent.

Definition AGENT_PR_CREATOR : string := "pr_creator".

(** [pull_request]: the pair (URL, error message). *)
Definition pull_request `{Env} `{Runtime} (adw_id : string)
  : M (option string * option string) :=
  response ← execute_template
    {| tpl_agent_name := AGENT_PR_CREATOR; slash_command := "/pull_request";
       args := []; tpl_adw_id := adw_id; tpl_image_paths := []; tpl_model := sonnet |};
  if success response then mret (Some (strip (output response)), None)
  else mret (None, Some (output response)).

End Git.

(** ** adw_build.py *)

Module AdwBuild.
Import DataTypes Proc State Workflow.

Definition comment `{Env} (issue_number adw_id agent_name message : string) : M unit :=
  Github.make_issue_comment issue_number
    (WorkflowOps.format_issue_message adw_id agent_name message None).

(** [main] once the state has a plan file. *)
Definition build `{Env} `{Runtime} (adw_id plan : string) (state : ADWStateData) : M unit :=
  let issue_number := issue_number state in
  comment issue_number adw_id "ops" "✅ Starting build phase";;
  comment issue_number adw_id WorkflowOps.AGENT_IMPLEMENTOR "✅ Implementing solution";;
  implement_response ← WorkflowOps.implement_plan plan adw_id;
  check_error (inr implement_response) issue_number adw_id WorkflowOps.AGENT_IMPLEMENTOR
    "Error implementing solution";;
  comment issue_number adw_id WorkflowOps.AGENT_IMPLEMENTOR "✅ Solution implemented";;
  committed ← GitOps.git_commit WorkflowOps.AGENT_IMPLEMENTOR adw_id;
  check_error (inl committed.2) issue_number adw_id WorkflowOps.AGENT_IMPLEMENTOR
    "Error committing implementation";;
  _ ← advance_phase state TEST;
  comment issue_number adw_id "ops" "✅ Build phase completed".

(** [main], on [sys.argv] *)
Definition main `{Env} `{Runtime} (argv : list string) : M unit :=
  match argv with
  | _ :: adw_id :: _ =>
      loaded ← load_state adw_id;
      match loaded with
      | None => sys_exit 1
      | Some state =>
          match plan_file state with
          | None => _ ← mark_error state "No plan file in state"; sys_exit 1
          | Some EmptyString => _ ← mark_error state "No plan file in state"; sys_exit 1
          | Some plan => build adw_id plan state
          end
      end
  | _ => sys_exit 1
  end.

End AdwBuild.

(** ** adw_document.py *)

Module AdwDocument.
Import Json DataTypes Proc Agent State.

Definition AGENT_DOCUMENTER : string := "sdlc_documenter".

Definition comment `{Env} (issue_number adw_id agent_name message : string) : M unit :=
  Github.make_issue_comment issue_number
    (WorkflowOps.format_issue_message adw_id agent_name message None).

(** [state.documentation = doc_result] *)
Definition set_documentation (d : option DocumentationResult) (s : ADWStateData)
  : ADWStateData :=
  {| state_adw_id := state_adw_id s; issue_number := issue_number s;
     workflow := workflow s; issue_class := issue_class s;
     branch_name := branch_name s; plan_file := plan_file s;
     current_phase := current_phase s; completed_phases := completed_phases s;
     test_results := test_results s; review_results := review_results s;
     documentation := d; pr_url := pr_url s; error := error s;
     created_at := created_at s; updated_at := updated_at s |}.

(** The [DocumentationResult] built from the output of [/document]. *)
Definition doc_result_of_output `{Runtime} (out : string) : exn + DocumentationResult :=
  match Utils.parse_json out with
  | JDict ((_ :: _) as kv) =>
      match Pydantic.str_list_field (get "files_created" (JList []) kv),
            Pydantic.str_field (get "summary" (JStr (PyStr.take 200 out)) kv) with
      | Some files, Some summary => inr {| files_created := files; doc_summary := summary |}
      | _, _ => inl ValidationError
      end
  | _ => inr {| files_created := []; doc_summary := PyStr.take 500 out |}
  end.

(** The request of [/document]. *)
Definition request (adw_id plan : string) : AgentTemplateRequest :=
  {| tpl_agent_name := AGENT_DOCUMENTER; slash_command := "/document";
     args := [plan]; tpl_adw_id := adw_id; tpl_image_paths := [];
     tpl_model := sonnet |}.

(** The message posted when the agent failed. *)
Definition failure_notice (response : AgentPromptResponse) : string :=
  "⚠️ Documentation failed: " +:+ PyStr.take 200 (output response).

(** [main] once the state has a plan file. *)
Definition document `{Env} `{Runtime} (adw_id plan : string) (state : ADWStateData)
  : M unit :=
  let issue_number := issue_number state in
  comment issue_number adw_id "ops" "✅ Starting documentation phase";;
  response ← execute_template (request adw_id plan);
  if negb (success response) then
    comment issue_number adw_id AGENT_DOCUMENTER (failure_notice response);;
    _ ← advance_phase state PR;
    mret ()
  else
    match doc_result_of_output (output response) with
    | inl e => raise e
    | inr doc_result =>
        state ← save_state (set_documentation (Some doc_result) state);
        _ ← GitOps.git_commit AGENT_DOCUMENTER adw_id;
        state ← advance_phase state PR;
        comment issue_number adw_id AGENT_DOCUMENTER "✅ Documentation generated"
    end.

(** [main], on [sys.argv] *)
Definition main `{Env} `{Runtime} (argv : list string) : M unit :=
  match argv with
  | _ :: adw_id :: _ =>
      loaded ← load_state adw_id;
      match loaded with
      | None => sys_exit 1
      | Some state =>
          match plan_file state with
          | None => sys_exit 1
          | Some EmptyString => sys_exit 1
          | Some plan => document adw_id plan state
          end
      end
  | _ => sys_exit 1
  end.

End AdwDocument.

(** ** trigger_webhook.py, the health endpoint *)

Module Health.
Import PyStr DataTypes Proc.

(** [s.split(c)] for one character [c]: [cur] is the piece being read, in
    reverse; the empty text gives one empty piece. *)
Fixpoint split_go (c : ascii) (cur : string) (s : string) : list string :=
  match s with
  | EmptyString => [String.rev cur]
  | String a s' =>
      if Ascii.eqb a c then String.rev cur :: split_go c EmptyString s'
      else split_go c (String a cur) s'
  end.

Definition split_char (c : ascii) (s : string) : list string := split_go c EmptyString s.

(** The loop over the lines of the report: the two flags, and the
    warnings and errors gathered so far. *)
Fixpoint gather (lines : list string) (capturing_warnings capturing_errors : bool)
    (warnings errors : list string) : list string * list string :=
  match lines with
  | [] => (warnings, errors)
  | line :: rest =>
      if contains "Warnings:" line then gather rest true false warnings errors
      else if contains "Errors:" line then gather rest false true warnings errors
      else if contains "Next Steps:" line then (warnings, errors)
      else if capturing_warnings && startswith "-" (strip line)
      then gather rest capturing_warnings capturing_errors
             (warnings ++ [drop 2 (strip line)]) errors
      else if capturing_errors && startswith "-" (strip line)
      then gather rest capturing_warnings capturing_errors
             warnings (errors ++ [drop 2 (strip line)])
      else gather rest capturing_warnings capturing_errors warnings errors
  end.

(** The warnings and errors read from the output of the health check. *)
Definition report (stdout : string) : list string * list string :=
  gather (split_char LF (strip stdout)) false false [] [].

(** The answer of the endpoint: the status, and either the report or a
    message. *)
Record Answer : Type := {
  healthy : bool;                        (* [status] is "healthy" *)
  warnings : list string;
  errors : list string;
  message : option string;               (* [error] *)
}.

(** [health], the handler of [GET /health]; [script_dir] is the directory
    of [trigger_webhook.py]. *)
Definition health `{Env} `{Runtime} (script_dir : string) : M Answer :=
  let health_check_script := os_path_join script_dir ["health_check.py"] in
  try_except
    (result ← run ["uv"; "run"; health_check_script] None;
     let found := report (stdout result) in
     mret {| healthy := (returncode result =? 0)%Z; warnings := found.1;
             errors := found.2; message := None |})
    (fun e =>
       match e with
       | TimeoutExpired =>
           mret {| healthy := false; warnings := []; errors := [];
                   message := Some "Health check timed out" |}
       | _ =>
           mret {| healthy := false; warnings := []; errors := [];
                   message := Some ("Health check failed: " +:+ exn_str e) |}
       end).

(** An item of the report: a line outside the headers that starts, once
    trimmed, with a dash; the item is the trimmed line without its first
    two characters. *)
Definition item_of (lines : list string) (item : string) : Prop :=
  exists line,
    line ∈ lines
    /\ contains "Warnings:" line = false
    /\ contains "Errors:" line = false
    /\ contains "Next Steps:" line = false
    /\ startswith "-" (strip line) = true
    /\ item = drop 2 (strip line).

End Health.

(** ** What is said of further runs *)

Module Further.
Import PyStr DataTypes Proc.

(** The command of [get_repo_url]. *)
Definition GIT_REMOTE : list string := ["git"; "remote"; "get-url"; "origin"].

(** The command of the Playwright run. *)
Definition PLAYWRIGHT : list string := ["npx"; "playwright"; "test"; "--reporter=list"].

(** A computation that does not end with status 0 unless it returns. *)
Definition fails_loudly {A : Type} (m : M A) : Prop :=
  forall w o w', m w = (o, w') -> exit_code o = 0%Z -> exists a, o = Done a.

(** A subprocess that ran to its end and returned 0. *)
Definition returned_zero (sp : Spawn) : Prop :=
  exists done, result sp = inr done /\ returncode done = 0%Z.

(** How a pipeline ended, from the phases it spawned, most recent last:
    all returned 0 and none is left; or the last one returned the code the
    process exits with, which is not 0; or the last one made
    [subprocess.run] raise.  The phases before the last returned 0. *)
Definition pipeline_ended (o : outcome unit) (ran : list Spawn) (planned : nat) : Prop :=
  match o with
  | Done _ => length ran = planned /\ Forall returned_zero ran
  | Exited code =>
      code <> 0%Z
      /\ exists earlier last done,
           ran = earlier ++ [last] /\ Forall returned_zero earlier
           /\ result last = inr done /\ returncode done = code
  | Raised e =>
      exists earlier last,
        ran = earlier ++ [last] /\ Forall returned_zero earlier /\ result last = inl e
  end.

End Further.

(** ** Further scenarios *)

Module MoreExamples.
Import DataTypes Proc Scenario.

(** A record as the plan phase leaves it. *)
Definition planned (adw_id : string) : ADWStateData :=
  {| state_adw_id := adw_id; issue_number := "42"; workflow := SDLC;
     issue_class := Some feature; branch_name := Some "feat-42";
     plan_file := Some "specs/plan-42.md"; current_phase := BUILD;
     completed_phases := [CLASSIFY; BRANCH; PLAN];
     test_results := []; review_results := []; documentation := None;
     pr_url := None; error := None; created_at := "T0"; updated_at := "T0" |}.

(** A record as the review phase leaves it. *)
Definition reviewed (adw_id : string) : ADWStateData :=
  {| state_adw_id := adw_id; issue_number := "42"; workflow := SDLC;
     issue_class := Some feature; branch_name := Some "feat-42";
     plan_file := Some "specs/plan-42.md"; current_phase := DOCUMENT;
     completed_phases := [CLASSIFY; BRANCH; PLAN; BUILD; TEST; REVIEW];
     test_results := []; review_results := []; documentation := None;
     pr_url := None; error := None; created_at := "T0"; updated_at := "T0" |}.

(** The agent fails: its subprocess returns 1 and says why. *)
Definition failing : Script :=
  {| host := Examples.plain_host; on_disk := []; tracker := fun _ => 0%Z;
     agent := fun _ _ => {| returncode := 1; stdout := ""; stderr := "no quota" |} |}.

End MoreExamples.

(** * Properties *)

Import Runs.

(** ** The state store *)

(** Unfolds the monad until the computation is a pair again. *)
Ltac run_proc :=
  repeat (unfold mbind, mret, Proc.M_bind, Proc.M_ret, Proc.datetime_now,
            Proc.put_state_file, Proc.get_state_file, Proc.write_file,
            Proc.sys_exit, Proc.raise; simpl).

Section StateStore.
Import DataTypes Proc State StoreOps.
Context `{E : Env}.

Lemma save_state_done (state : ADWStateData) (w : World) :
  save_state state w =
    (Done (set_updated_at (now (tick w)) state),
     with_state_files
       (<[get_state_path (state_adw_id state) := set_updated_at (now (tick w)) state]>
          (state_files w))
       (next_tick w)).
Proof. reflexivity. Qed.

Lemma advance_phase_done (state : ADWStateData) (next_phase : ADWPhase) (w : World) :
  exists state' w',
    advance_phase state next_phase w = (Done state', w')
    /\ current_phase state' = next_phase
    /\ completed_phases state' =
         (if bool_decide (current_phase state ∈ completed_phases state)
          then completed_phases state
          else completed_phases state ++ [current_phase state])
    /\ state_adw_id state' = state_adw_id state
    /\ state_files w' !! get_state_path (state_adw_id state) = Some state'.
Proof.
  unfold advance_phase. rewrite save_state_done.
  eexists _, _. split; [reflexivity|]. simpl.
  repeat split. apply lookup_insert_eq.
Qed.

(** What one operation does to the list of completed phases. *)
Lemma apply_op_done (op : store_op) (state : ADWStateData) (w : World) :
  exists state' w',
    apply_op op state w = (Done state', w')
    /\ (NoDup (completed_phases state) -> NoDup (completed_phases state'))
    /\ state_adw_id state' = state_adw_id state
    /\ state_files w' !! get_state_path (state_adw_id state) = Some state'.
Proof.
  destruct op as [|next_phase|message]; simpl.
  - rewrite save_state_done. eexists _, _. split; [reflexivity|]. simpl.
    repeat split; auto. apply lookup_insert_eq.
  - destruct (advance_phase_done state next_phase w)
      as (state' & w' & Hrun & _ & Hcompleted & Hid & Hfile).
    exists state', w'. repeat split; auto.
    intros Hnodup. rewrite Hcompleted. case_bool_decide as Hin; [assumption|].
    apply NoDup_app. repeat split; [assumption| |apply NoDup_singleton].
    intros x Hx Hx'. apply list_elem_of_singleton in Hx'. congruence.
  - unfold mark_error. rewrite save_state_done. eexists _, _.
    split; [reflexivity|]. simpl. repeat split; auto. apply lookup_insert_eq.
Qed.

Lemma apply_ops_done (ops : list store_op) :
  forall (state : ADWStateData) (w : World),
    NoDup (completed_phases state) ->
    state_files w !! get_state_path (state_adw_id state) = Some state ->
    exists state' w',
      apply_ops ops state w = (Done state', w')
      /\ NoDup (completed_phases state')
      /\ state_adw_id state' = state_adw_id state
      /\ state_files w' !! get_state_path (state_adw_id state) = Some state'.
Proof.
  induction ops as [|op rest IH]; intros state w Hnodup Hfile; simpl.
  - exists state, w. auto.
  - destruct (apply_op_done op state w) as (s1 & w1 & Hop & Hkeep & Hid & Hfile1).
    unfold mbind, M_bind. rewrite Hop.
    rewrite <- Hid in Hfile1.
    destruct (IH s1 w1 (Hkeep Hnodup) Hfile1) as (s2 & w2 & Hrest & Hnodup2 & Hid2 & Hfile2).
    exists s2, w2. rewrite Hid2, Hid in *. auto.
Qed.

Lemma create_state_done (adw_id issue : string) (workflow : ADWWorkflow) (w : World) :
  exists state w',
    create_state adw_id issue workflow w = (Done state, w')
    /\ completed_phases state = []
    /\ current_phase state = CLASSIFY
    /\ state_adw_id state = adw_id
    /\ state_files w' !! get_state_path adw_id = Some state.
Proof.
  unfold create_state. unfold mbind at 1 2, M_bind, datetime_now.
  rewrite save_state_done.
  eexists _, _. split; [reflexivity|]. simpl.
  repeat split. apply lookup_insert_eq.
Qed.

(** A step that completes hands its value to the rest. *)
Lemma bind_done {A B : Type} (m : M A) (f : A -> M B) (w w' : World) (a : A) :
  m w = (Done a, w') -> (m ≫= f) w = f a w'.
Proof. intros Hm. unfold mbind, M_bind. rewrite Hm. reflexivity. Qed.

End StateStore.

(** C9.  From a fresh record, whatever sequence of save, advance and
    mark-error operations follows, the operations all complete, the list of
    completed phases holds no phase twice, and the record in the state file
    is the one in memory.  The state-store calls of the plan-build workflow,
    with their two advances to PR at the end, leave the phases classify,
    branch, plan, build, pr, each once.  After an advance the phase that was
    current is among the completed ones. *)
Theorem completed_phases_never_repeat :
  forall (E : Proc.Env),
    (forall adw_id issue workflow ops w,
        exists state w',
          StoreOps.run_ops adw_id issue workflow ops w = (Proc.Done state, w')
          /\ NoDup (DataTypes.completed_phases state)
          /\ Proc.state_files w' !! State.get_state_path adw_id = Some state)
    /\ (forall adw_id issue cls branch plan pr w,
        exists state w',
          AdwPlanBuild.state_calls adw_id issue cls branch plan pr w = (Proc.Done state, w')
          /\ DataTypes.completed_phases state
             = [DataTypes.CLASSIFY; DataTypes.BRANCH; DataTypes.PLAN;
                DataTypes.BUILD; DataTypes.PR]
          /\ DataTypes.current_phase state = DataTypes.PR)
    /\ (forall state next_phase w,
        exists state' w',
          State.advance_phase state next_phase w = (Proc.Done state', w')
          /\ DataTypes.current_phase state ∈ DataTypes.completed_phases state'
          /\ DataTypes.current_phase state' = next_phase).
Proof.
  intros E. split; [|split].
  - intros adw_id issue workflow ops w.
    destruct (create_state_done adw_id issue workflow w)
      as (s0 & w0 & Hcreate & Hempty & _ & Hid0 & Hfile0).
    destruct (apply_ops_done ops s0 w0) as (s' & w' & Hrun & Hnodup & Hid & Hfile).
    + rewrite Hempty. apply NoDup_nil_2.
    + rewrite Hid0. assumption.
    + exists s', w'. unfold StoreOps.run_ops, mbind, Proc.M_bind.
      rewrite Hcreate, Hrun. rewrite Hid0 in Hfile. auto.
  - intros adw_id issue cls branch plan pr w.
    unfold AdwPlanBuild.state_calls.
    destruct (create_state_done adw_id issue DataTypes.PLAN_BUILD w)
      as (s0 & w0 & Hrun0 & Hdone0 & Hcur0 & _).
    rewrite (bind_done _ _ _ _ _ Hrun0); cbv beta.
    match goal with |- context [(State.advance_phase ?s ?p ≫= _) w0] =>
      destruct (advance_phase_done s p w0) as (s1 & w1 & Hrun1 & Hcur1 & Hdone1 & _)
    end.
    rewrite (bind_done _ _ _ _ _ Hrun1); cbv beta.
    match goal with |- context [(State.advance_phase ?s ?p ≫= _) w1] =>
      destruct (advance_phase_done s p w1) as (s2 & w2 & Hrun2 & Hcur2 & Hdone2 & _)
    end.
    rewrite (bind_done _ _ _ _ _ Hrun2); cbv beta.
    rewrite (bind_done _ _ _ _ _ (save_state_done _ w2)); cbv beta.
    match goal with |- context [(State.advance_phase ?s ?p ≫= _) ?w3] =>
      destruct (advance_phase_done s p w3) as (s4 & w4 & Hrun4 & Hcur4 & Hdone4 & _)
    end.
    rewrite (bind_done _ _ _ _ _ Hrun4); cbv beta.
    match goal with |- context [(State.advance_phase ?s ?p ≫= _) w4] =>
      destruct (advance_phase_done s p w4) as (s5 & w5 & Hrun5 & Hcur5 & Hdone5 & _)
    end.
    rewrite (bind_done _ _ _ _ _ Hrun5); cbv beta.
    match goal with |- context [State.advance_phase ?s ?p w5] =>
      destruct (advance_phase_done s p w5) as (s6 & w6 & Hrun6 & Hcur6 & Hdone6 & _)
    end.
    exists s6, w6. split; [assumption|]. split; [|assumption].
    simpl in *.
    rewrite Hdone6, Hdone5, Hdone4, Hdone2, Hdone1, Hcur5, Hcur4, Hcur2, Hcur1,
      Hdone0, Hcur0.
    reflexivity.
  - intros state next_phase w.
    destruct (advance_phase_done state next_phase w)
      as (state' & w' & Hrun & Hcur & Hcompleted & _ & _).
    exists state', w'. repeat split; auto.
    rewrite Hcompleted. case_bool_decide as Hin; [assumption|].
    apply elem_of_app. right. apply list_elem_of_singleton. reflexivity.
Qed.

(** ** Runs of a computation

    [steps R m]: every run of [m] takes a world to one related to it by
    [R], however the run ends. *)

Section Steps.
Import Proc.

Context (R : relation World) `{!PreOrder R}.

Lemma steps_ret {A : Type} (a : A) : steps R (mret a).
Proof. intros w o w' Hrun. inversion Hrun. reflexivity. Qed.

Lemma steps_raise {A : Type} (e : exn) : steps R (raise (A := A) e).
Proof. intros w o w' Hrun. inversion Hrun. reflexivity. Qed.

Lemma steps_exit {A : Type} (c : Z) : steps R (sys_exit (A := A) c).
Proof. intros w o w' Hrun. inversion Hrun. reflexivity. Qed.

Lemma steps_bind {A B : Type} (m : M A) (f : A -> M B) :
  steps R m -> (forall a, steps R (f a)) -> steps R (m ≫= f).
Proof.
  intros Hm Hf w o w' Hrun. unfold mbind, M_bind in Hrun.
  destruct (m w) as [[a|e|c] w1] eqn:Hmw.
  - transitivity w1; [exact (Hm _ _ _ Hmw)|exact (Hf a _ _ _ Hrun)].
  - inversion Hrun; subst. exact (Hm _ _ _ Hmw).
  - inversion Hrun; subst. exact (Hm _ _ _ Hmw).
Qed.

Lemma steps_try {A : Type} (m : M A) (h : exn -> M A) :
  steps R m -> (forall e, steps R (h e)) -> steps R (try_except m h).
Proof.
  intros Hm Hh w o w' Hrun. unfold try_except in Hrun.
  destruct (m w) as [[a|e|c] w1] eqn:Hmw.
  - inversion Hrun; subst. exact (Hm _ _ _ Hmw).
  - transitivity w1; [exact (Hm _ _ _ Hmw)|exact (Hh e _ _ _ Hrun)].
  - inversion Hrun; subst. exact (Hm _ _ _ Hmw).
Qed.

End Steps.

(** ** Runs of the agent invocation

    What holds of every primitive step of [prompt_claude_code] holds of
    its runs: [R] is kept by the steps that spawn nothing and write no
    state file, by the probe and by the spawn of the agent. *)

Section AgentSteps.
Import DataTypes Proc Agent.
Context `{E : Env} `{rt : Runtime}.
Context (R : relation World) `{!PreOrder R}.
Hypothesis Hquiet :
  forall w w', spawned w' = spawned w -> state_files w' = state_files w -> R w w'.
Hypothesis Hprobe : steps R (run [CLAUDE_PATH; "--version"] None).
Hypothesis Hagent : forall c, steps R (run c (Some get_claude_env)).

Lemma steps_write_file (path text : string) : steps R (write_file path text).
Proof. intros w o w' Hrun. inversion Hrun. apply Hquiet; reflexivity. Qed.

Lemma steps_read_file (path : string) : steps R (read_file path).
Proof.
  intros w o w' Hrun. unfold read_file in Hrun.
  destruct (files w !! path); inversion Hrun; apply Hquiet; reflexivity.
Qed.

Lemma steps_isfile (path : string) : steps R (os_path_isfile path).
Proof. intros w o w' Hrun. inversion Hrun. apply Hquiet; reflexivity. Qed.

Lemma steps_existing_files (paths : list string) : steps R (existing_files paths).
Proof.
  induction paths as [|p rest IH]; simpl.
  - apply steps_ret; apply _.
  - apply steps_bind; [apply _|apply steps_isfile|intros b].
    apply steps_bind; [apply _|exact IH|intros l]. apply steps_ret; apply _.
Qed.

Lemma steps_parse_jsonl_output (path : string) : steps R (parse_jsonl_output path).
Proof.
  unfold parse_jsonl_output.
  apply steps_try; [apply _| |intros e; apply steps_ret; apply _].
  apply steps_bind; [apply _|apply steps_read_file|intros t; apply steps_ret; apply _].
Qed.

Lemma steps_check_claude_installed : steps R check_claude_installed.
Proof.
  unfold check_claude_installed.
  apply steps_try; [apply _| |intros e; destruct e;
    first [apply steps_ret; apply _|apply steps_raise; apply _]].
  apply steps_bind; [apply _|exact Hprobe|intros r].
  destruct (returncode r =? 0)%Z; apply steps_ret; apply _.
Qed.

Lemma steps_save_prompt (prompt adw_id agent_name : string) :
  steps R (save_prompt prompt adw_id agent_name).
Proof.
  unfold save_prompt. destruct (Re.re_match SLASH_WORD prompt) as [[cap rest]|];
    [apply steps_write_file|apply steps_ret; apply _].
Qed.

Lemma steps_composed_prompt (request : AgentPromptRequest) :
  steps R (composed_prompt request).
Proof.
  unfold composed_prompt. destruct (image_paths request); [apply steps_ret; apply _|].
  apply steps_bind; [apply _|apply steps_existing_files|intros refs].
  destruct refs; apply steps_ret; apply _.
Qed.

Lemma steps_run_to_file (path : string) (c : list string) :
  steps R (run_to_file path c get_claude_env).
Proof.
  unfold run_to_file.
  apply steps_bind; [apply _|apply steps_write_file|intros _].
  apply steps_bind; [apply _|apply Hagent|intros r].
  apply steps_bind; [apply _|apply steps_write_file|intros _].
  apply steps_ret; apply _.
Qed.

Lemma steps_convert_jsonl_to_json (path : string) : steps R (convert_jsonl_to_json path).
Proof.
  unfold convert_jsonl_to_json.
  apply steps_bind; [apply _|apply steps_parse_jsonl_output|intros p].
  apply steps_bind; [apply _|apply steps_write_file|intros _].
  apply steps_ret; apply _.
Qed.

Lemma steps_response_of_result (result_message : list (string * Json.value)) :
  steps R (response_of_result result_message).
Proof.
  unfold response_of_result.
  destruct (Pydantic.str_field _); [destruct (Pydantic.opt_str_field _)|];
    first [apply steps_ret; apply _|apply steps_raise; apply _].
Qed.

Lemma steps_distill (request : AgentPromptRequest) (result : Completed) :
  steps R (distill request result).
Proof.
  unfold distill.
  destruct (returncode result =? 0)%Z; [|apply steps_ret; apply _].
  apply steps_bind; [apply _|apply steps_parse_jsonl_output|intros parsed].
  apply steps_bind; [apply _|apply steps_convert_jsonl_to_json|intros _].
  assert (Hraw : steps R
            (raw_output ← read_file (output_file request);
             mret {| output := raw_output; success := true; session_id := None |})).
  { apply steps_bind; [apply _|apply steps_read_file|intros raw; apply steps_ret; apply _]. }
  destruct parsed.2 as [result_message|]; [|exact Hraw].
  destruct (Json.truthy (Json.JDict result_message)); [|exact Hraw].
  apply steps_response_of_result.
Qed.

Lemma steps_prompt_claude_code (request : AgentPromptRequest) :
  steps R (prompt_claude_code request).
Proof.
  unfold prompt_claude_code.
  apply steps_bind; [apply _|apply steps_check_claude_installed|intros error_msg].
  destruct error_msg as [msg|]; [apply steps_ret; apply _|].
  apply steps_bind; [apply _|apply steps_save_prompt|intros _].
  apply steps_bind; [apply _|apply steps_composed_prompt|intros text].
  apply steps_try; [apply _| |intros e; destruct e; apply steps_ret; apply _].
  apply steps_bind; [apply _|apply steps_run_to_file|intros result].
  apply steps_distill.
Qed.

Lemma steps_execute_template (request : AgentTemplateRequest) :
  steps R (execute_template request).
Proof. unfold execute_template. apply steps_prompt_claude_code. Qed.

End AgentSteps.

(** ** The environment of the agent subprocess *)

Section ClaudeEnv.
Import DataTypes Proc Agent.
Context `{E : Env} `{rt : Runtime}.

Lemma get_claude_env_forwarded (k v : string) :
  get_claude_env !! k = Some v -> k ∈ FORWARDED.
Proof.
  intros Hk. destruct (decide (k ∈ FORWARDED)) as [|Hout]; [assumption|].
  exfalso. unfold get_claude_env in Hk. rewrite lookup_omap in Hk.
  unfold FORWARDED in Hout. repeat (apply not_elem_of_cons in Hout as [? Hout]).
  unfold required_env_vars in Hk.
  destruct (getenv "GITHUB_PAT") as [pat|]; [destruct (String.eqb pat "")|];
    rewrite !lookup_insert_ne in Hk by congruence;
    rewrite lookup_empty in Hk; discriminate.
Qed.

#[local] Instance spawns_agent_preorder : PreOrder spawns_agent.
Proof.
  split.
  - intros w. exists []. split; [reflexivity|constructor].
  - intros w1 w2 w3 (n1 & H1 & F1) (n2 & H2 & F2). exists (n2 ++ n1). split.
    + rewrite H2, H1. apply app_assoc.
    + apply Forall_app. split; assumption.
Qed.

Lemma spawns_agent_run (c : list string) (e : option (gmap string string)) :
  agent_spawn {| cmd := c; env := e; result := inl AttributeError |} ->
  steps spawns_agent (run c e).
Proof.
  intros Hok w o w' Hrun. unfold run in Hrun.
  exists [ {| cmd := c; env := e; result := subprocess_run (tick w) c e |} ].
  split.
  - destruct (subprocess_run (tick w) c e); inversion Hrun; reflexivity.
  - constructor; [|constructor]. exact Hok.
Qed.

Lemma spawns_agent_prompt_claude_code (request : AgentPromptRequest) :
  steps spawns_agent (prompt_claude_code request).
Proof.
  apply steps_prompt_claude_code.
  - apply _.
  - intros w w' Hspawned _. exists []. split; [assumption|constructor].
  - apply spawns_agent_run. left. split; reflexivity.
  - intros c. apply spawns_agent_run. right. reflexivity.
Qed.

End ClaudeEnv.

(** C6.  Whatever the host environment holds, every name in the
    environment built for the agent is one of the ten forwarded names, and
    [CLAUDECODE] is not in it; and every subprocess a run of the agent
    invocation spawns, the [claude --version] probe apart, receives exactly
    that environment. *)
Theorem agent_env_only_forwarded :
  forall (E : Proc.Env) (rt : Runtime),
    (forall k v, Agent.get_claude_env !! k = Some v -> k ∈ Agent.FORWARDED)
    /\ Agent.get_claude_env !! "CLAUDECODE" = None
    /\ (forall request w o w',
          Agent.prompt_claude_code request w = (o, w') ->
          exists new,
            Proc.spawned w' = new ++ Proc.spawned w
            /\ Forall (fun sp =>
                 (Proc.cmd sp = [Agent.CLAUDE_PATH; "--version"] /\ Proc.env sp = None)
                 \/ Proc.env sp = Some Agent.get_claude_env) new).
Proof.
  intros E rt. split; [|split].
  - intros k v. apply get_claude_env_forwarded.
  - destruct (Agent.get_claude_env !! "CLAUDECODE") as [v|] eqn:Hk; [|reflexivity].
    apply get_claude_env_forwarded in Hk. exfalso.
    unfold Agent.FORWARDED in Hk.
    repeat (apply elem_of_cons in Hk as [Hk|Hk]; [discriminate|]).
    inversion Hk.
  - intros request w o w' Hrun.
    exact (spawns_agent_prompt_claude_code request w o w' Hrun).
Qed.

Lemma agent_env_only_forwarded_witness :
  let E := Scenario.scripted (Examples.constant "ok") in
  Agent.get_claude_env !! "GH_TOKEN" = Some "tok"
  /\ "GH_TOKEN" ∈ Agent.FORWARDED.
Proof.
  intros E. split; [vm_compute; reflexivity|].
  apply (proj1 (agent_env_only_forwarded E lite) "GH_TOKEN" "tok").
  vm_compute; reflexivity.
Defined.

(** ** Image URLs of an issue body *)

Section ImageUrls.
Import DataTypes.

Lemma filter_first_seen_absent (seen : gset string) (x : string) (l : list string) :
  x ∈ seen ->
  filter (fun y => y ∉ seen) (filter (fun y => y ≠ x) l) = filter (fun y => y ∉ seen) l.
Proof.
  intros Hx. induction l as [|y l IH]; [reflexivity|].
  rewrite (filter_cons (fun y => y ≠ x)).
  destruct (decide (y ≠ x)) as [Hne|Heq].
  - rewrite !filter_cons. destruct (decide (y ∉ seen)); rewrite IH; reflexivity.
  - apply dec_stable in Heq. subst y. rewrite IH.
    rewrite filter_cons. destruct (decide (x ∉ seen)); [contradiction|reflexivity].
Qed.

Lemma filter_first_seen_added (seen : gset string) (x : string) (l : list string) :
  filter (fun y => y ∉ seen) (filter (fun y => y ≠ x) l)
  = filter (fun y => y ∉ ({[x]} ∪ seen : gset string)) l.
Proof.
  induction l as [|y l IH]; [reflexivity|].
  rewrite (filter_cons (fun y => y ≠ x)), (filter_cons (fun y => y ∉ {[x]} ∪ seen)).
  destruct (decide (y ≠ x)) as [Hne|Heq].
  - rewrite filter_cons. destruct (decide (y ∉ seen)) as [Hout|Hin].
    + rewrite decide_True; [rewrite IH; reflexivity|].
      rewrite elem_of_union, elem_of_singleton. tauto.
    + rewrite decide_False; [exact IH|].
      rewrite elem_of_union, elem_of_singleton. tauto.
  - apply dec_stable in Heq. subst y.
    rewrite decide_False; [exact IH|].
    rewrite elem_of_union, elem_of_singleton. tauto.
Qed.

(** The loop with its set of seen URLs computes [first_seen], less the
    URLs seen before. *)
Lemma unique_from_first_seen (l : list string) :
  forall seen : gset string,
    unique_from seen l = filter (fun y => y ∉ seen) (first_seen l).
Proof.
  induction l as [|x rest IH]; intros seen; [reflexivity|]. simpl.
  rewrite filter_cons. case_bool_decide as Hx.
  - rewrite decide_False by auto.
    rewrite filter_first_seen_absent by assumption. apply IH.
  - rewrite decide_True by assumption. f_equal.
    rewrite filter_first_seen_added. apply IH.
Qed.

Lemma first_seen_elem (l : list string) (x : string) : x ∈ first_seen l <-> x ∈ l.
Proof.
  induction l as [|y rest IH]; [reflexivity|]. simpl.
  rewrite !elem_of_cons, list_elem_of_filter, IH.
  destruct (decide (x = y)); tauto.
Qed.

Lemma first_seen_NoDup (l : list string) : NoDup (first_seen l).
Proof.
  induction l as [|y rest IH]; simpl; [constructor|].
  constructor.
  - rewrite list_elem_of_filter. intros [Hne _]. apply Hne. reflexivity.
  - apply NoDup_filter. exact IH.
Qed.

Lemma extract_image_urls_first_seen (body : string) :
  extract_image_urls body
  = first_seen (Re.findall HTML_IMG body ++ Re.findall MD_IMG body).
Proof.
  unfold extract_image_urls. rewrite unique_from_first_seen.
  induction (first_seen _) as [|x l IH]; [reflexivity|].
  rewrite filter_cons_True by apply not_elem_of_empty. f_equal. exact IH.
Qed.

End ImageUrls.

(** C5, as the code has it.  The URLs returned are those of the HTML
    [img] tags, in the order of the body, followed by those of the Markdown
    images, in the order of the body, without the later occurrences of a URL
    already listed: no URL is returned twice, and a URL is returned exactly
    when one of the two notations refers to it.  A body with the same URL
    in an [img] tag and in a Markdown image yields that one URL. *)
Theorem extract_image_urls_html_then_markdown :
  (forall body,
      DataTypes.extract_image_urls body
      = DataTypes.first_seen
          (Re.findall DataTypes.HTML_IMG body ++ Re.findall DataTypes.MD_IMG body))
  /\ (forall body, NoDup (DataTypes.extract_image_urls body))
  /\ (forall body url,
        url ∈ DataTypes.extract_image_urls body
        <-> url ∈ Re.findall DataTypes.HTML_IMG body
            \/ url ∈ Re.findall DataTypes.MD_IMG body)
  /\ DataTypes.extract_image_urls
       ("<img src=" +:+ PyStr.dq +:+ "https://x/y.png" +:+ PyStr.dq +:+ ">"
          +:+ " and ![alt](https://x/y.png)")
     = ["https://x/y.png"].
Proof.
  split; [|split; [|split]].
  - apply extract_image_urls_first_seen.
  - intros body. rewrite extract_image_urls_first_seen. apply first_seen_NoDup.
  - intros body url. rewrite extract_image_urls_first_seen, first_seen_elem.
    apply elem_of_app.
  - vm_compute. reflexivity.
Qed.

(** C5, as stated, fails: a Markdown image that precedes an [img] tag in
    the body is listed after it. *)
Lemma extract_image_urls_not_in_body_order :
  let body := "![a](https://x/a.png) <img src='https://x/b.png'>" in
  DataTypes.extract_image_urls body = ["https://x/b.png"; "https://x/a.png"]
  /\ DataTypes.first_reference body "https://x/a.png" = Some 0
  /\ DataTypes.first_reference body "https://x/b.png" = Some 22
  /\ ~ DataTypes.in_body_order body (DataTypes.extract_image_urls body).
Proof.
  assert (Hurls : DataTypes.extract_image_urls
                    "![a](https://x/a.png) <img src='https://x/b.png'>"
                  = ["https://x/b.png"; "https://x/a.png"]) by (vm_compute; reflexivity).
  assert (Ha : DataTypes.first_reference
                 "![a](https://x/a.png) <img src='https://x/b.png'>" "https://x/a.png"
               = Some 0) by (vm_compute; reflexivity).
  assert (Hb : DataTypes.first_reference
                 "![a](https://x/a.png) <img src='https://x/b.png'>" "https://x/b.png"
               = Some 22) by (vm_compute; reflexivity).
  cbv zeta. repeat split; try assumption.
  intros Horder. rewrite Hurls in Horder.
  destruct (Horder 0 1 "https://x/b.png" "https://x/a.png" eq_refl eq_refl)
    as (pa & pb & Hpa & Hpb & Hlt); [lia|].
  rewrite Hb in Hpa. rewrite Ha in Hpb. inversion Hpa; inversion Hpb; subst. lia.
Qed.

(** ** Prefixes *)

Section Prefixes.
Import PyStr.

Lemma append_cons (c : ascii) (s t : string) : String c s +:+ t = String c (s +:+ t).
Proof. reflexivity. Qed.

Lemma append_empty_l (t : string) : "" +:+ t = t.
Proof. reflexivity. Qed.

Lemma append_empty_r (s : string) : s +:+ "" = s.
Proof. induction s as [|c s IH]; [reflexivity|]. rewrite append_cons, IH. reflexivity. Qed.

Lemma startswith_refl (s : string) : startswith s s = true.
Proof. induction s as [|c s IH]; simpl; [reflexivity|]. rewrite Ascii.eqb_refl. exact IH. Qed.

Lemma startswith_length (p s : string) :
  startswith p s = true -> String.length p <= String.length s.
Proof.
  revert s. induction p as [|a p IH]; intros [|b s] Hp; simpl in *; try lia; try discriminate.
  destruct (Ascii.eqb a b); [|discriminate]. apply IH in Hp. lia.
Qed.

(** Two prefixes of one text: the shorter is a prefix of the longer. *)
Lemma startswith_both (a b s : string) :
  startswith a s = true -> startswith b s = true ->
  String.length a <= String.length b -> startswith a b = true.
Proof.
  revert b s. induction a as [|x a IH]; intros [|y b] [|z s] Ha Hb Hlen;
    simpl in *; try reflexivity; try discriminate; try lia.
  destruct (Ascii.eqb x z) eqn:Hxz; [|discriminate].
  destruct (Ascii.eqb y z) eqn:Hyz; [|discriminate].
  apply Ascii.eqb_eq in Hxz, Hyz. subst. rewrite Ascii.eqb_refl.
  apply (IH b s); [assumption..|lia].
Qed.

Lemma startswith_same_length (a b : string) :
  startswith a b = true -> String.length a = String.length b -> a = b.
Proof.
  revert b. induction a as [|x a IH]; intros [|y b] Hab Hlen; simpl in *;
    try reflexivity; try discriminate.
  destruct (Ascii.eqb x y) eqn:Hxy; [|discriminate].
  apply Ascii.eqb_eq in Hxy. subst. f_equal. apply IH; [assumption|lia].
Qed.

(** A prefix made of characters that are not [bad] does not reach into a
    tail that starts with a [bad] one. *)
Lemma startswith_cut (bad : ascii -> bool) (kw l t : string) :
  all_chars (fun c => negb (bad c)) kw = true ->
  match t with EmptyString => True | String c _ => bad c = true end ->
  startswith kw (l +:+ t) = startswith kw l.
Proof.
  revert l. induction kw as [|a kw IH]; intros l Hkw Ht; [reflexivity|].
  simpl in Hkw. apply andb_prop in Hkw as [Ha Hkw].
  destruct l as [|b l]; rewrite ?append_cons, ?append_empty_l; simpl.
  - destruct t as [|c t]; simpl; [reflexivity|].
    destruct (Ascii.eqb a c) eqn:Hac; [|reflexivity].
    apply Ascii.eqb_eq in Hac. subst. rewrite Ht in Ha. discriminate.
  - destruct (Ascii.eqb a b); [|reflexivity]. apply IH; assumption.
Qed.

Lemma linebreak_isspace (c : ascii) : is_linebreak c = true -> isspace c = true.
Proof.
  destruct c as [[] [] [] [] [] [] [] []]; vm_compute; intros H; first [reflexivity|discriminate].
Qed.

Lemma all_chars_weaken (p q : ascii -> bool) (s : string) :
  (forall c, p c = true -> q c = true) -> all_chars p s = true -> all_chars q s = true.
Proof.
  intros Hpq. induction s as [|c s IH]; simpl; [reflexivity|].
  intros H. apply andb_prop in H as [Hc Hs]. rewrite (Hpq c Hc), (IH Hs). reflexivity.
Qed.

Lemma line_split (s : string) :
  s = line_prefix s +:+ line_rest s
  /\ match line_rest s with EmptyString => True | String c _ => is_linebreak c = true end.
Proof.
  induction s as [|c s [IH1 IH2]]; simpl; [auto|].
  destruct (is_linebreak c) eqn:Hc; rewrite ?append_cons, ?append_empty_l;
    [rewrite Hc; auto|].
  split; [f_equal; exact IH1|exact IH2].
Qed.

Lemma rev_app_append (s1 s2 x : string) :
  String.rev_app s1 s2 +:+ x = String.rev_app s1 (s2 +:+ x).
Proof.
  revert s2. induction s1 as [|c s1 IH]; intros s2; simpl; [reflexivity|].
  rewrite IH, append_cons. reflexivity.
Qed.

Lemma rev_app_nonempty (s acc : string) : acc <> "" -> String.rev_app s acc <> "".
Proof.
  revert acc. induction s as [|c s IH]; intros acc Hacc; simpl; [assumption|].
  apply IH. discriminate.
Qed.

Lemma append_nonempty_l (s t : string) : s <> "" -> s +:+ t <> "".
Proof. destruct s; [contradiction|rewrite append_cons; discriminate]. Qed.

(** The first line [splitlines] yields is the text up to the first
    boundary. *)
Lemma splitlines_go_head (s : string) :
  forall cur, String.rev cur +:+ s <> "" ->
    exists rest, splitlines_go cur s = (String.rev cur +:+ line_prefix s) :: rest.
Proof.
  induction s as [|c s IH]; intros cur Hne; simpl.
  - rewrite append_empty_r in *. destruct cur as [|x cur]; [contradiction|].
    eexists. reflexivity.
  - destruct (is_linebreak c) eqn:Hc.
    + rewrite append_empty_r. eexists. reflexivity.
    + destruct (IH (String c cur)) as [rest Hrest].
      * apply append_nonempty_l. unfold String.rev. simpl.
        apply rev_app_nonempty. discriminate.
      * exists rest. rewrite Hrest. f_equal.
        unfold String.rev. simpl. rewrite !rev_app_append. reflexivity.
Qed.

End Prefixes.

(** ** The keyword router *)

Section KeywordRouter.
Import PyStr Router.

Lemma rstrip_split (s : string) :
  exists t, s = rstrip s +:+ t /\ all_chars isspace t = true.
Proof.
  induction s as [|c s (t & Hs & Ht)]; [exists ""; auto|]. simpl.
  destruct (rstrip s) as [|d r] eqn:Hr.
  - rewrite append_empty_l in Hs. subst t.
    destruct (isspace c) eqn:Hc.
    + exists (String c s). rewrite append_empty_l. simpl. rewrite Hc, Ht. auto.
    + exists s. auto.
  - exists t. rewrite append_cons, <- Hs. auto.
Qed.

(** Stripping a line that starts with a character that is no white space
    keeps the prefixes free of white space. *)
Lemma startswith_strip (kw : string) (a : ascii) (x : string) :
  isspace a = false ->
  all_chars (fun c => negb (isspace c)) kw = true ->
  startswith kw (strip (String a x)) = startswith kw (String a x).
Proof.
  intros Ha Hkw. unfold strip. simpl lstrip. rewrite Ha.
  destruct (rstrip_split (String a x)) as (t & Hsplit & Ht).
  rewrite Hsplit at 2. symmetry. apply (startswith_cut isspace); [assumption|].
  destruct t as [|c t]; [exact I|]. simpl in Ht. apply andb_prop in Ht. tauto.
Qed.

Lemma startswith_line_prefix (kw s : string) :
  all_chars (fun c => negb (isspace c)) kw = true ->
  startswith kw (line_prefix s) = startswith kw s.
Proof.
  intros Hkw. destruct (line_split s) as [Hsplit Hrest].
  rewrite Hsplit at 2. symmetry. apply (startswith_cut is_linebreak); [|assumption].
  revert Hkw. apply all_chars_weaken. intros c Hc.
  destruct (is_linebreak c) eqn:Hlb; [|reflexivity].
  apply linebreak_isspace in Hlb. rewrite Hlb in Hc. discriminate.
Qed.

(** The first hit in a list that starts with the longest words is a
    longest hit. *)
Lemma find_longest (P : string -> bool) (l : list string) (k : string) :
  StronglySorted (fun a b => String.length b <= String.length a) l ->
  find P l = Some k ->
  P k = true /\ k ∈ l
  /\ forall k', k' ∈ l -> P k' = true -> String.length k' <= String.length k.
Proof.
  induction 1 as [|x l Hsorted IH Hx]; simpl; [discriminate|].
  destruct (P x) eqn:Hpx.
  - intros [= <-]. split; [assumption|]. split; [apply list_elem_of_here|].
    intros k' Hk' _. apply elem_of_cons in Hk' as [->|Hk']; [lia|].
    rewrite Forall_forall in Hx. apply Hx. assumption.
  - intros Hfind. destruct (IH Hfind) as (Hpk & Hk & Hmax).
    split; [assumption|]. split; [apply list_elem_of_further; assumption|].
    intros k' Hk' Hpk'. apply elem_of_cons in Hk' as [->|Hk']; [congruence|auto].
Qed.

Lemma find_hit (P : string -> bool) (l : list string) (k : string) :
  k ∈ l -> P k = true -> exists k', find P l = Some k'.
Proof.
  intros Hk Hpk. destruct (find P l) as [k'|] eqn:Hfind; [eauto|].
  apply list_elem_of_In in Hk. rewrite (find_none _ _ Hfind _ Hk) in Hpk. discriminate.
Qed.

Lemma keywords_sorted :
  StronglySorted (fun a b => String.length b <= String.length a) keywords.
Proof. vm_compute. repeat constructor. Qed.

Lemma keywords_clean (kw : string) :
  kw ∈ keywords ->
  all_chars (fun c => negb (isspace c)) kw = true /\ kw <> ""
  /\ exists script, script_of kw = Some script.
Proof.
  intros Hkw. unfold keywords in Hkw. vm_compute in Hkw.
  repeat (apply elem_of_cons in Hkw as [->|Hkw];
          [split; [reflexivity|split; [discriminate|eexists; reflexivity]]|]).
  inversion Hkw.
Qed.

(** Two longest hits on one text are the same word. *)
Lemma longest_unique (norm k k' : string) :
  startswith k norm = true -> startswith k' norm = true ->
  String.length k' <= String.length k -> String.length k <= String.length k' ->
  k = k'.
Proof.
  intros Hk Hk' Hle Hge. apply startswith_same_length; [|lia].
  apply (startswith_both k k' norm); assumption.
Qed.

Lemma first_line_match_cons (line : string) (rest : list string) :
  TriggerWebhook.first_line_match (line :: rest)
  = match find (fun kw => startswith kw (strip line)) keywords with
    | Some kw => Some kw
    | None => TriggerWebhook.first_line_match rest
    end.
Proof. reflexivity. Qed.

End KeywordRouter.


(** Membership in a list that computes. *)
Ltac in_list :=
  vm_compute; repeat first [apply list_elem_of_here | apply list_elem_of_further].



(** ** The answers of [/test] and [/review] *)

Section Answers.
Import Json DataTypes.
Context `{rt : Runtime}.

Lemma review_issues_of_Forall2 (items : list value) (l : list ReviewIssue) :
  AdwReview.review_issues_of items = inr l ->
  Forall2 (fun item i => AdwReview.review_issue_of_item item = inr i) items l.
Proof.
  revert l. induction items as [|item items IH]; intros l; simpl.
  - intros [= <-]. constructor.
  - destruct (AdwReview.review_issue_of_item item) as [e|i] eqn:Hitem; [discriminate|].
    destruct (AdwReview.review_issues_of items) as [e|l'] eqn:Hrest; [discriminate|].
    intros [= <-]. constructor; [assumption|]. apply IH. reflexivity.
Qed.

Lemma missing_severity_is_suggestion (kv : list (string * value)) (i : ReviewIssue) :
  lookup "severity" kv = None ->
  AdwReview.review_issue_of_item (JDict kv) = inr i ->
  severity i = suggestion.
Proof.
  intros Hmissing. unfold AdwReview.review_issue_of_item, get. rewrite Hmissing.
  destruct (Pydantic.str_field _); [|discriminate].
  destruct (Pydantic.opt_int_field _); [|discriminate].
  change (AdwReview.severity_field (JStr "suggestion")) with (Some suggestion).
  cbv iota. destruct (Pydantic.str_field _); [|discriminate].
  intros [= <-]. reflexivity.
Qed.

End Answers.

(** C8, as the code has it.  When the response of [/test] succeeded and
    its output does not parse to a non-empty JSON array, the attempt has
    the single suite [all] and counts as all-passed exactly when the
    lower-cased output contains "all tests passed", or contains "pass" and
    does not contain "fail". *)
Theorem test_fallback_heuristic :
  forall (rt : Runtime) (response : DataTypes.AgentPromptResponse) (attempt : nat),
    DataTypes.success response = true ->
    (forall item items,
        Utils.parse_json (DataTypes.output response) <> Json.JList (item :: items)) ->
    let raw := PyStr.lower (DataTypes.output response) in
    let passed :=
      PyStr.contains "all tests passed" raw
      || (PyStr.contains "pass" raw && negb (PyStr.contains "fail" raw)) in
    AdwTest.test_result_of_response response attempt
    = inr {| DataTypes.all_passed := passed;
             DataTypes.results :=
               [ {| DataTypes.suite := "all"; DataTypes.passed := passed;
                    DataTypes.test_output := DataTypes.output response;
                    DataTypes.test_error := None |} ];
             DataTypes.attempt := attempt |}.
Proof.
  intros rt response attempt Hok Hfallback. cbv zeta.
  unfold AdwTest.test_result_of_response. rewrite Hok. simpl negb. cbv iota.
  destruct (Utils.parse_json (DataTypes.output response)) as [| | | | |l|] eqn:Hparsed;
    try reflexivity.
  destruct l as [|item items]; [reflexivity|].
  exfalso. exact (Hfallback item items eq_refl).
Qed.

Lemma test_fallback_heuristic_witness :
  AdwTest.test_result_of_response (H := lite)
    {| DataTypes.output := "All tests passed!"; DataTypes.success := true;
       DataTypes.session_id := None |} 1
  = inr {| DataTypes.all_passed := true;
           DataTypes.results :=
             [ {| DataTypes.suite := "all"; DataTypes.passed := true;
                  DataTypes.test_output := "All tests passed!";
                  DataTypes.test_error := None |} ];
           DataTypes.attempt := 1 |}.
Proof.
  apply (test_fallback_heuristic lite
           {| DataTypes.output := "All tests passed!"; DataTypes.success := true;
              DataTypes.session_id := None |} 1).
  - reflexivity.
  - intros item items. vm_compute. discriminate.
Defined.

(** C8, as stated, fails: an output that is no JSON and does not contain
    "all tests passed" counts as all-passed when it says "pass" and not
    "fail". *)
Lemma test_fallback_accepts_pass_word :
  let response := {| DataTypes.output := "3 passed"; DataTypes.success := true;
                     DataTypes.session_id := None |} in
  json_loads (Runtime := lite) (PyStr.strip "3 passed") = None
  /\ Utils.parse_json (H := lite) "3 passed" = Json.JNull
  /\ PyStr.contains "all tests passed" (PyStr.lower "3 passed") = false
  /\ exists r, AdwTest.test_result_of_response (H := lite) response 1 = inr r
               /\ DataTypes.all_passed r = true.
Proof.
  cbv zeta. repeat split; try (vm_compute; reflexivity).
  eexists. split; [vm_compute; reflexivity|reflexivity].
Qed.

(** C10, as the code has it.  When the response of [/review] succeeded
    and its output parses to a JSON object with at least one key and
    without the key "approved", a review result, when one is built, is
    approved exactly when its list of issues is empty; its issues are the
    entries of "issues" in their order, and an entry without the key
    "severity" becomes an issue of severity suggestion, which is no
    blocker. *)
Theorem review_defaults :
  forall (rt : Runtime) (response : DataTypes.AgentPromptResponse) (attempt : nat)
         (kv : list (string * Json.value)) (r : DataTypes.ReviewResult),
    DataTypes.success response = true ->
    Utils.parse_json (DataTypes.output response) = Json.JDict kv ->
    kv <> [] ->
    Json.lookup "approved" kv = None ->
    AdwReview.review_result_of_response response attempt = inr r ->
    (DataTypes.approved r = true <-> DataTypes.issues r = [])
    /\ (exists items,
          AdwReview.iterate (Json.get "issues" (Json.JList []) kv) = inr items
          /\ Forall2 (fun item i => AdwReview.review_issue_of_item item = inr i)
               items (DataTypes.issues r))
    /\ (forall kv' i,
          Json.lookup "severity" kv' = None ->
          AdwReview.review_issue_of_item (Json.JDict kv') = inr i ->
          DataTypes.severity i = DataTypes.suggestion
          /\ DataTypes.severity i <> DataTypes.blocker).
Proof.
  intros rt response attempt kv r Hok Hparsed Hkv Hmissing.
  unfold AdwReview.review_result_of_response. rewrite Hok, Hparsed. simpl negb.
  destruct kv as [|p kv']; [contradiction|]. cbv iota.
  set (d := p :: kv') in *.
  destruct (AdwReview.iterate (Json.get "issues" (Json.JList []) d)) as [e|items] eqn:Hitems;
    [discriminate|].
  destruct (AdwReview.review_issues_of items) as [e|l] eqn:Hissues; [discriminate|].
  unfold Json.get at 1. rewrite Hmissing. rewrite lax_bool_bool.
  destruct (Pydantic.str_list_field _) as [shots|]; [|discriminate].
  destruct (Pydantic.str_field _) as [sum|]; [|discriminate].
  intros [= <-]. simpl. split; [|split].
  - rewrite bool_decide_eq_true. destruct l; simpl; split; intros; (reflexivity || discriminate || lia).
  - exists items. split; [reflexivity|]. apply review_issues_of_Forall2. assumption.
  - intros kv0 i Hsev Hitem.
    rewrite (missing_severity_is_suggestion kv0 i Hsev Hitem). split; [reflexivity|discriminate].
Qed.

Lemma review_defaults_witness :
  let text := "{" +:+ Lite.quote "issues" +:+ ": [{}]}" in
  let response := {| DataTypes.output := text; DataTypes.success := true;
                     DataTypes.session_id := None |} in
  let r := {| DataTypes.approved := false;
              DataTypes.issues :=
                [ {| DataTypes.file := "unknown"; DataTypes.line := None;
                     DataTypes.severity := DataTypes.suggestion;
                     DataTypes.description := "" |} ];
              DataTypes.screenshots := []; DataTypes.summary := text;
              DataTypes.review_attempt := 1 |} in
  AdwReview.review_result_of_response (H := lite) response 1 = inr r
  /\ (DataTypes.approved r = true <-> DataTypes.issues r = []).
Proof.
  intros text response r. split; [vm_compute; reflexivity|].
  refine (proj1 (review_defaults lite response 1 [("issues", Json.JList [Json.JDict []])]
                   r _ _ _ _ _)).
  - reflexivity.
  - vm_compute; reflexivity.
  - discriminate.
  - reflexivity.
  - vm_compute; reflexivity.
Defined.

(** C10, as stated, fails: an empty JSON object in a code fence, beside
    the word "blocker", parses as a JSON object without "approved" and
    without issues, and the review counts as not approved. *)
Lemma review_empty_object_not_approved :
  let text := "blocker found" +:+ PyStr.nl +:+ "```json" +:+ PyStr.nl +:+ "{}"
                +:+ PyStr.nl +:+ "```" in
  let response := {| DataTypes.output := text; DataTypes.success := true;
                     DataTypes.session_id := None |} in
  Utils.parse_json (H := lite) text = Json.JDict []
  /\ Json.lookup "approved" [] = None
  /\ exists r, AdwReview.review_result_of_response (H := lite) response 1 = inr r
       /\ DataTypes.issues r = [] /\ DataTypes.approved r = false.
Proof.
  cbv zeta. split; [vm_compute; reflexivity|]. split; [reflexivity|].
  eexists. split; [vm_compute; reflexivity|]. split; reflexivity.
Qed.

(** ** The response of the agent runner *)

Section AgentResponse.
Import Json DataTypes Proc Agent.
Context `{E : Env} `{rt : Runtime}.

Lemma parse_jsonl_output_read (path text : string) (w : World) :
  files w !! path = Some text ->
  parse_jsonl_output path w = (Done (parse_jsonl_text text), w).
Proof.
  intros Hfile. unfold parse_jsonl_output, try_except, read_file, mbind, M_bind.
  rewrite Hfile. reflexivity.
Qed.

(** What [distill] answers under the [except] clauses, when the output
    file holds the output of the run and the companion file is another
    file. *)
Lemma distill_response (request : AgentPromptRequest) (result : Completed) (w : World) :
  files w !! output_file request = Some (stdout result) ->
  PyStr.replace ".jsonl" ".json" (output_file request) <> output_file request ->
  exists w', try_except (distill request result) on_exception w
             = (Done (response_for result), w').
Proof.
  intros Hfile Hother. unfold distill, response_for.
  destruct (returncode result =? 0)%Z; [|eexists; reflexivity].
  unfold try_except. unfold mbind at 1, M_bind at 1.
  rewrite (parse_jsonl_output_read _ _ _ Hfile).
  unfold mbind at 1, M_bind at 1. unfold convert_jsonl_to_json.
  unfold mbind at 1, M_bind at 1. rewrite (parse_jsonl_output_read _ _ _ Hfile).
  unfold mbind at 1, M_bind at 1. unfold write_file at 1.
  unfold mret at 1, M_ret at 1.
  set (w1 := with_files _ w).
  assert (Hraw : (raw_output ← read_file (output_file request);
                  mret {| output := raw_output; success := true; session_id := None |}) w1
                 = (Done {| output := stdout result; success := true; session_id := None |}, w1)).
  { unfold mbind, M_bind, read_file. subst w1. simpl files.
    rewrite lookup_insert_ne by assumption. rewrite Hfile. reflexivity. }
  destruct (parse_jsonl_text (stdout result)).2 as [kv|].
  - destruct (truthy (JDict kv)).
    + unfold response_of_result.
      destruct (Pydantic.str_field _); [destruct (Pydantic.opt_str_field _)|];
        eexists; reflexivity.
    + rewrite Hraw. eexists; reflexivity.
  - rewrite Hraw. eexists; reflexivity.
Qed.

Lemma run_to_file_done (path : string) (c : list string) (e : gmap string string)
    (result : Completed) (w : World) :
  subprocess_run (tick w) c (Some e) = inr result ->
  exists w', run_to_file path c e w = (Done result, w')
             /\ files w' !! path = Some (stdout result).
Proof.
  intros Hrun. unfold run_to_file, mbind, M_bind, write_file, run. simpl.
  rewrite Hrun. simpl. eexists. split; [reflexivity|]. simpl. apply lookup_insert_eq.
Qed.

(** The run of [prompt_claude_code] once the probe has passed and the agent
    has run to its end. *)
Lemma prompt_claude_code_completed (request : AgentPromptRequest)
    (w w0 w1 w2 : World) (text : string) (result : Completed) :
  check_claude_installed w = (Done None, w0) ->
  save_prompt (prompt request) (adw_id request) (agent_name request) w0 = (Done (), w1) ->
  composed_prompt request w1 = (Done text, w2) ->
  subprocess_run (tick w2) (command_line request text) (Some get_claude_env) = inr result ->
  PyStr.replace ".jsonl" ".json" (output_file request) <> output_file request ->
  exists w', prompt_claude_code request w = (Done (response_for result), w').
Proof.
  intros Hprobe Hsave Hcompose Hrun Hother. unfold prompt_claude_code.
  rewrite (bind_done _ _ _ _ _ Hprobe). cbv beta iota.
  rewrite (bind_done _ _ _ _ _ Hsave). cbv beta.
  rewrite (bind_done _ _ _ _ _ Hcompose). cbv beta zeta.
  destruct (run_to_file_done (output_file request) _ _ _ _ Hrun) as (w3 & Hran & Hfile).
  destruct (distill_response request result w3 Hfile Hother) as (w4 & Hdistill).
  exists w4. unfold try_except in *. unfold mbind, M_bind. rewrite Hran. exact Hdistill.
Qed.

Lemma find_result_skip (post rest : list value) :
  Forall other_message post -> find_result (post ++ rest) = find_result rest.
Proof.
  induction 1 as [|m post (kv & -> & Hother) _ IH]; [reflexivity|].
  simpl. rewrite Hother. exact IH.
Qed.

(** The last [result] record of the messages is the one found. *)
Lemma find_result_last (pre post : list value) (kv : list (string * value)) :
  eq_str (get "type" JNull kv) "result" = true ->
  Forall other_message post ->
  find_result (rev (pre ++ JDict kv :: post)) = inr (Some kv).
Proof.
  intros Hresult Hpost. rewrite rev_app_distr. simpl. rewrite <- app_assoc.
  rewrite find_result_skip.
  - simpl. rewrite Hresult. reflexivity.
  - apply Forall_rev. assumption.
Qed.

Lemma find_result_nonempty (l : list value) (kv : list (string * value)) :
  find_result l = inr (Some kv) -> kv <> [].
Proof.
  induction l as [|m l IH]; simpl; [discriminate|].
  destruct m; try discriminate.
  destruct (eq_str (get "type" JNull kv0) "result") eqn:Htype; [|exact IH].
  intros [= <-]. intros ->. discriminate.
Qed.

(** Without a [result] record among the messages none is found. *)
Lemma find_result_none (l : list value) :
  (forall kv, JDict kv ∈ l -> eq_str (get "type" JNull kv) "result" = false) ->
  find_result l = inr None \/ exists e, find_result l = inl e.
Proof.
  induction l as [|m l IH]; intros Hnone; simpl; [left; reflexivity|].
  destruct m; try (right; eexists; reflexivity).
  rewrite (Hnone kv) by apply list_elem_of_here.
  apply IH. intros kv' Hin. apply Hnone. apply list_elem_of_further. assumption.
Qed.

Lemma load_lines_from (lines : list string) (messages : list value) (m : value) :
  load_lines lines = Some messages -> m ∈ messages ->
  exists line, line ∈ lines /\ nonblank line = true /\ json_loads line = Some m.
Proof.
  revert messages. induction lines as [|l lines IH]; intros messages; simpl.
  - intros [= <-] Hin. inversion Hin.
  - destruct (nonblank l) eqn:Hl.
    + destruct (json_loads l) as [v|] eqn:Hv; [|discriminate].
      destruct (load_lines lines) as [vs|]; [|discriminate].
      intros [= <-] Hin. apply elem_of_cons in Hin as [->|Hin].
      * exists l. split; [apply list_elem_of_here|auto].
      * destruct (IH vs eq_refl Hin) as (line & Hline & Hrest).
        exists line. split; [apply list_elem_of_further; assumption|assumption].
    + intros Hload Hin. destruct (IH messages Hload Hin) as (line & Hline & Hrest).
      exists line. split; [apply list_elem_of_further; assumption|assumption].
Qed.

Lemma no_result_line (text : string) :
  (forall line, line ∈ file_lines text -> ~ is_result_line line) ->
  (parse_jsonl_text text).2 = None.
Proof.
  intros Hnone. unfold parse_jsonl_text.
  destruct (load_lines (file_lines text)) as [messages|] eqn:Hload; [|reflexivity].
  destruct (find_result_none (rev messages)) as [Hfound|[e Hfound]];
    [|rewrite Hfound; reflexivity..].
  intros kv Hin. apply list_elem_of_In in Hin. apply in_rev in Hin.
  apply list_elem_of_In in Hin.
  destruct (load_lines_from _ _ _ Hload Hin) as (line & Hline & Hblank & Hloads).
  destruct (eq_str (get "type" JNull kv) "result") eqn:Htype; [|reflexivity].
  exfalso. apply (Hnone line Hline). split; [assumption|]. exists kv. auto.
Qed.

End AgentResponse.




(** ** The saved prompt *)

Section SavedPrompt.
Import PyStr Re DataTypes Proc Agent.

Lemma length_append (a b : string) :
  String.length (a +:+ b) = String.length a + String.length b.
Proof. induction a as [|c a IH]; [reflexivity|]. rewrite append_cons. simpl. rewrite IH. reflexivity. Qed.

Lemma take_append (a b : string) : take (String.length a) (a +:+ b) = a.
Proof.
  induction a as [|c a IH]; [destruct b; reflexivity|].
  rewrite append_cons. simpl. rewrite IH. reflexivity.
Qed.

Lemma append_longer (s t : string) : t <> "" -> s +:+ t <> s.
Proof.
  intros Ht Heq. apply (f_equal String.length) in Heq. rewrite length_append in Heq.
  destruct t; [contradiction|]. simpl in Heq. lia.
Qed.

(** A greedy repetition takes all of a text of the class that is
    followed by no character of the class, when the rest then matches. *)
Lemma star_greedy_all {X : Type} (p : ascii -> bool) (k : string -> option X)
    (w rest : string) (x : X) :
  all_chars p w = true ->
  match rest with EmptyString => True | String c _ => p c = false end ->
  k rest = Some x ->
  star_greedy p k (w +:+ rest) = Some x.
Proof.
  intros Hw Hrest Hk. induction w as [|a w IH].
  - rewrite append_empty_l. destruct rest as [|c rest]; simpl; [assumption|].
    rewrite Hrest. assumption.
  - simpl in Hw. apply andb_prop in Hw as [Ha Hw].
    rewrite append_cons. simpl. rewrite Ha, (IH Hw). reflexivity.
Qed.

(** The pattern of [save_prompt] on a prompt that begins with a slash
    command: the group is the command. *)
Lemma slash_word_match (prompt name rest : string) :
  begins_with_command prompt name rest ->
  re_match SLASH_WORD prompt = Some (Some ("/" +:+ name), rest).
Proof.
  intros (-> & Hname & Hword & Hrest).
  destruct name as [|c name]; [contradiction|].
  simpl in Hword. apply andb_prop in Hword as [Hc Hword].
  unfold re_match, SLASH_WORD. simpl Re.run. rewrite !append_cons, !append_empty_l.
  simpl strip_prefix. cbv iota. rewrite Hc.
  rewrite (star_greedy_all word _ name rest
             (Some (consumed (String "/" (String c (name +:+ rest))) rest), rest));
    [|assumption..|reflexivity].
  unfold consumed. simpl String.length. rewrite length_append.
  replace (S (S (String.length name + String.length rest)) - String.length rest)
    with (String.length (String "/" (String c name))) by (simpl; lia).
  change (String "/" (String c (name +:+ rest))) with (String "/" (String c name) +:+ rest).
  rewrite take_append. reflexivity.
Qed.

Context `{E : Env} `{rt : Runtime}.

Lemma save_prompt_writes (prompt name rest adw_id agent_name : string) (w : World) :
  begins_with_command prompt name rest ->
  save_prompt prompt adw_id agent_name w
  = (Done (), with_files (<[prompt_file adw_id agent_name name := prompt]> (files w)) w).
Proof.
  intros Hcommand. unfold save_prompt. rewrite (slash_word_match _ _ _ Hcommand).
  reflexivity.
Qed.

Lemma existing_files_done (paths : list string) (w : World) :
  exists refs w',
    existing_files paths w = (Done refs, w')
    /\ files w' = files w /\ spawned w' = spawned w
    /\ refs ⊆ paths
    /\ ((forall n p, p ∈ paths -> isfile n p = false) -> refs = []).
Proof.
  revert w. induction paths as [|p paths IH]; intros w.
  - exists [], w. repeat split; auto; try reflexivity.
  - destruct (IH (next_tick w)) as (refs & w' & Hrun & Hfiles & Hspawned & Hsub & Hnone).
    exists (if isfile (tick w) p then p :: refs else refs), w'.
    split; [|split; [|split; [|split]]].
    + simpl. unfold mbind, M_bind, os_path_isfile. rewrite Hrun. reflexivity.
    + exact Hfiles.
    + exact Hspawned.
    + destruct (isfile (tick w) p).
      * intros x Hx. apply elem_of_cons in Hx as [->|Hx];
          [apply list_elem_of_here|apply list_elem_of_further, Hsub, Hx].
      * intros x Hx. apply list_elem_of_further, Hsub, Hx.
    + intros Hmissing. rewrite (Hmissing (tick w) p) by apply list_elem_of_here.
      apply Hnone. intros n q Hq. apply Hmissing. apply list_elem_of_further. assumption.
Qed.

(** The prompt put on the command line is the request's prompt, or that
    prompt followed by the note on the images found on disk. *)
Lemma composed_prompt_done (request : AgentPromptRequest) (w : World) :
  exists text w',
    composed_prompt request w = (Done text, w')
    /\ files w' = files w /\ spawned w' = spawned w
    /\ (text = prompt request
        \/ exists refs, refs <> [] /\ refs ⊆ image_paths request
                        /\ text = prompt request +:+ image_note refs
                        /\ text <> prompt request)
    /\ ((forall n p, p ∈ image_paths request -> isfile n p = false) ->
        text = prompt request).
Proof.
  unfold composed_prompt. destruct (image_paths request) as [|p paths] eqn:Hpaths.
  - exists (prompt request), w. repeat split; auto.
  - destruct (existing_files_done (p :: paths) w)
      as (refs & w' & Hrun & Hfiles & Hspawned & Hsub & Hnone).
    unfold mbind, M_bind. rewrite Hrun. destruct refs as [|r refs].
    + exists (prompt request), w'. repeat split; auto.
    + exists (prompt request +:+ image_note (r :: refs)), w'.
      split; [reflexivity|]. split; [assumption|]. split; [assumption|]. split.
      * right. exists (r :: refs). split; [discriminate|]. split; [assumption|].
        split; [reflexivity|]. apply append_longer. discriminate.
      * intros Hmissing. discriminate (Hnone Hmissing).
Qed.

Lemma ends_in_append (c : ascii) (a b : string) :
  b <> "" -> ends_in c (a +:+ b) = ends_in c b.
Proof.
  intros Hb. induction a as [|x a IH]; [reflexivity|].
  rewrite append_cons. simpl. rewrite IH.
  destruct (a +:+ b) eqn:Hab; [|reflexivity].
  destruct a; [rewrite append_empty_l in Hab; contradiction|discriminate].
Qed.

Lemma join2_plain (path b : string) :
  path <> "" -> ends_in "/" path = false -> startswith "/" b = false ->
  join2 path b = path +:+ "/" +:+ b.
Proof.
  intros Hpath Hend Hb. unfold join2. rewrite Hb, Hend.
  destruct path; [contradiction|reflexivity].
Qed.

Lemma append_assoc (a b c : string) : (a +:+ b) +:+ c = a +:+ b +:+ c.
Proof. induction a as [|x a IH]; [reflexivity|]. rewrite !append_cons, IH. reflexivity. Qed.

Lemma append_nonempty_r (a b : string) : b <> "" -> a +:+ b <> "".
Proof. destruct a; [rewrite append_empty_l; auto|rewrite append_cons; discriminate]. Qed.

Lemma startswith_char (a c : ascii) (s : string) :
  startswith (String a "") (String c s) = Ascii.eqb a c.
Proof. simpl. destruct (Ascii.eqb a c); reflexivity. Qed.

(** The prompt file, for plain components, is
    [<root>/agents/<workflow-id>/<agent-name>/prompts/<word>.txt]. *)
Lemma prompt_file_plain (adw_id agent_name name : string) :
  project_root <> "" -> ends_in "/" project_root = false ->
  plain adw_id -> plain agent_name ->
  name <> "" -> all_chars word name = true ->
  prompt_file adw_id agent_name name
  = project_root +:+ "/agents/" +:+ adw_id +:+ "/" +:+ agent_name
      +:+ "/prompts/" +:+ name +:+ ".txt".
Proof.
  intros Hroot Hrootend (Hid & Hid1 & Hid2) (Hag & Hag1 & Hag2) Hname Hword.
  unfold prompt_file, prompt_dir, os_path_join. simpl foldl.
  assert (Hstart : startswith "/" (name +:+ ".txt") = false).
  { destruct name as [|c name]; [contradiction|]. simpl in Hword.
    apply andb_prop in Hword as [Hc _]. rewrite append_cons, startswith_char.
    destruct (Ascii.eqb "/" c) eqn:Hslash; [|reflexivity].
    apply Ascii.eqb_eq in Hslash. subst c. discriminate. }
  rewrite (join2_plain project_root "agents") by auto.
  rewrite (join2_plain _ adw_id);
    [|apply append_nonempty_r; discriminate
     |rewrite ends_in_append by discriminate; reflexivity|assumption].
  rewrite (join2_plain _ agent_name);
    [|apply append_nonempty_r; discriminate
     |rewrite ends_in_append by (apply append_nonempty_r; assumption);
      rewrite ends_in_append by assumption; assumption|assumption].
  rewrite (join2_plain _ "prompts");
    [|apply append_nonempty_r; discriminate
     |rewrite ends_in_append by (apply append_nonempty_r; assumption);
      rewrite ends_in_append by assumption; assumption|reflexivity].
  rewrite (join2_plain _ (name +:+ ".txt"));
    [|apply append_nonempty_r; discriminate
     |rewrite ends_in_append by discriminate; reflexivity|assumption].
  rewrite !append_assoc. reflexivity.
Qed.

End SavedPrompt.

Section PromptSpawn.
Import DataTypes Proc Agent.
Context `{E : Env} `{rt : Runtime}.

#[local] Instance same_spawned_preorder : PreOrder same_spawned.
Proof.
  split; [intros w; reflexivity|].
  intros w1 w2 w3 H12 H23. unfold same_spawned in *. congruence.
Qed.

(** When the probe has passed, the one subprocess [prompt_claude_code]
    spawns is the agent, with the composed prompt on its command line. *)
Lemma prompt_claude_code_spawn (request : AgentPromptRequest) (w0 w w1 w2 : World)
    (text : string) :
  check_claude_installed w0 = (Done None, w) ->
  save_prompt (prompt request) (adw_id request) (agent_name request) w = (Done (), w1) ->
  composed_prompt request w1 = (Done text, w2) ->
  exists o w' r,
    prompt_claude_code request w0 = (o, w')
    /\ spawned w'
       = {| cmd := command_line request text; env := Some get_claude_env; result := r |}
           :: spawned w2.
Proof.
  intros Hprobe Hsave Hcompose. unfold prompt_claude_code.
  rewrite (bind_done _ _ _ _ _ Hprobe). cbv beta iota.
  rewrite (bind_done _ _ _ _ _ Hsave). cbv beta.
  rewrite (bind_done _ _ _ _ _ Hcompose). cbv beta zeta.
  unfold try_except, run_to_file.
  unfold mbind at 1, M_bind at 1. unfold mbind at 1, M_bind at 1.
  unfold write_file at 1. unfold mbind at 1, M_bind at 1. unfold run at 1.
  cbv zeta. simpl tick. simpl spawned.
  destruct (subprocess_run (tick w2) (command_line request text) (Some get_claude_env))
    as [e|result] eqn:Hrun.
  - destruct e; eexists _, _, _; (split; [reflexivity|reflexivity]).
  - unfold mbind at 1, M_bind at 1. unfold write_file at 1.
    unfold mret at 1, M_ret at 1.
    match goal with |- context [distill request result ?w3] =>
      destruct (distill request result w3) as [[response|e|c] w4] eqn:Hdistill;
      pose proof (steps_distill same_spawned
                    ltac:(intros ? ? Hs _; exact Hs) request result w3 _ w4 Hdistill)
        as Hsame
    end; unfold same_spawned in Hsame; simpl in Hsame.
    + eexists _, _, _. split; [reflexivity|]. exact Hsame.
    + destruct e; eexists _, _, _; (split; [reflexivity|]); exact Hsame.
    + eexists _, _, _. split; [reflexivity|]. exact Hsame.
Qed.

End PromptSpawn.




(** ** Steps that leave the state files alone *)

Section SameStates.
Import DataTypes Proc.
Context `{E : Env} `{rt : Runtime}.

#[global] Instance same_states_preorder : PreOrder same_states.
Proof.
  split; [intros w; reflexivity|].
  intros w1 w2 w3 H12 H23. unfold same_states in *. congruence.
Qed.

Lemma same_states_run (c : list string) (e : option (gmap string string)) :
  steps same_states (run c e).
Proof.
  intros w o w' Hrun. unfold run in Hrun.
  destruct (subprocess_run (tick w) c e); inversion Hrun; reflexivity.
Qed.

Lemma same_states_execute_template (request : AgentTemplateRequest) :
  steps same_states (Agent.execute_template request).
Proof.
  apply steps_execute_template; [apply _| |apply same_states_run|intros c; apply same_states_run].
  intros w w' _ Hstates. exact Hstates.
Qed.

Lemma same_states_get_repo_url : steps same_states Github.get_repo_url.
Proof.
  unfold Github.get_repo_url.
  apply steps_try; [apply _| |intros e; destruct e; apply steps_raise; apply _].
  apply steps_bind; [apply _|apply same_states_run|intros r].
  destruct (returncode r =? 0)%Z; [apply steps_ret|apply steps_raise]; apply _.
Qed.

Lemma same_states_make_issue_comment (issue_id comment : string) :
  steps same_states (Github.make_issue_comment issue_id comment).
Proof.
  unfold Github.make_issue_comment.
  apply steps_bind; [apply _|apply same_states_get_repo_url|intros url].
  apply steps_try; [apply _| |intros e; apply steps_exit; apply _].
  apply steps_bind; [apply _|apply same_states_run|intros r].
  destruct (returncode r =? 0)%Z; [apply steps_ret|apply steps_exit]; apply _.
Qed.

Lemma same_states_screenshot_md_parts (paths : list string) (repo issue : string) :
  steps same_states (Github.screenshot_md_parts paths repo issue).
Proof.
  induction paths as [|p paths IH]; simpl; [apply steps_ret; apply _|].
  apply steps_bind; [apply _| |intros url].
  { intros w o w' Hrun. inversion Hrun. reflexivity. }
  apply steps_bind; [apply _|exact IH|intros parts].
  destruct url as [u|]; [destruct (String.eqb u "")|]; apply steps_ret; apply _.
Qed.

Lemma same_states_post_review_comment (issue text : string) (paths : list string) :
  steps same_states (Github.post_review_comment_with_screenshots issue text paths).
Proof.
  unfold Github.post_review_comment_with_screenshots.
  apply steps_bind; [apply _|apply same_states_get_repo_url|intros url].
  apply steps_bind; [apply _|apply same_states_screenshot_md_parts|intros parts].
  apply same_states_make_issue_comment.
Qed.

Lemma same_states_git_commit (agent_name adw_id : string) :
  steps same_states (GitOps.git_commit agent_name adw_id).
Proof.
  unfold GitOps.git_commit.
  apply steps_bind; [apply _|apply same_states_execute_template|intros r].
  destruct (success r); apply steps_ret; apply _.
Qed.

Lemma same_states_run_e2e_screenshots : steps same_states WorkflowOps.run_e2e_screenshots.
Proof.
  unfold WorkflowOps.run_e2e_screenshots.
  apply steps_bind; [apply _| |intros _].
  - apply steps_try; [apply _| |intros e; apply steps_ret; apply _].
    apply steps_bind; [apply _|apply same_states_run|intros r; apply steps_ret; apply _].
  - intros w o w' Hrun. inversion Hrun. reflexivity.
Qed.

(** A comment that fails ends the process with a code that is not zero. *)
Lemma make_issue_comment_outcome (issue_id comment : string) (w w' : World)
    (o : outcome unit) :
  Github.make_issue_comment issue_id comment w = (o, w') -> exit_code o = 0%Z -> o = Done ().
Proof.
  unfold Github.make_issue_comment. intros Hrun Hcode.
  unfold mbind, M_bind in Hrun.
  destruct (Github.get_repo_url w) as [[url|e|c] w1] eqn:Hurl.
  - unfold try_except, run in Hrun.
    destruct (subprocess_run _ _ _) as [e|r]; [inversion Hrun; subst; discriminate|].
    destruct (returncode r =? 0)%Z eqn:Hrc.
    + inversion Hrun. reflexivity.
    + inversion Hrun; subst. simpl in Hcode. rewrite Hcode in Hrc. discriminate.
  - inversion Hrun; subst. discriminate.
  - exfalso. unfold Github.get_repo_url, try_except, mbind, M_bind, run in Hurl.
    destruct (subprocess_run _ _ _) as [e|r].
    + destruct e; inversion Hurl.
    + destruct (returncode r =? 0)%Z; inversion Hurl.
Qed.

(** With a tracker that accepts every comment, a comment is posted. *)
Lemma make_issue_comment_ok (issue_id comment : string) (w : World) :
  Github.tracker_ok ->
  exists w', Github.make_issue_comment issue_id comment w = (Done (), w').
Proof.
  intros [Hgit Hgh]. unfold Github.make_issue_comment, Github.get_repo_url.
  unfold try_except, mbind, M_bind, run.
  destruct (Hgit (tick w)) as (c & Hc & Hrc). rewrite Hc, Hrc. simpl.
  match goal with |- context [subprocess_run ?n (Github.comment_command ?i ?r ?b) _] =>
    destruct (Hgh n i r b) as (c' & Hc' & Hrc')
  end.
  rewrite Hc', Hrc'. simpl. eexists. reflexivity.
Qed.

(** What became of a sequence of two steps. *)
Lemma bind_run {A B : Type} (m : M A) (f : A -> M B) (w w' : World) (o : outcome B) :
  (m ≫= f) w = (o, w') ->
  (exists a w1, m w = (Done a, w1) /\ f a w1 = (o, w'))
  \/ (exists e, m w = (Raised e, w') /\ o = Raised e)
  \/ (exists c, m w = (Exited c, w') /\ o = Exited c).
Proof.
  unfold mbind, M_bind. destruct (m w) as [[a|e|c] w1].
  - intros Hf. left. eauto.
  - intros [= <- <-]. right. left. eauto.
  - intros [= <- <-]. right. right. eauto.
Qed.

End SameStates.

(** ** The test phase *)

Section TestPhase.
Import DataTypes Proc State AdwTest.
Context `{E : Env} `{rt : Runtime}.

Lemma test_post_before (adw_id : string) (attempt : nat) (rest : list nat)
    (state : ADWStateData) (o : outcome loop_end) (w' : World) :
  state_files w' !! get_state_path adw_id = Some state ->
  state_adw_id state = adw_id ->
  aborted o ->
  test_loop_post adw_id (attempt :: rest) state o w'.
Proof.
  intros Hdisk Hid Habort. exists state, [].
  split; [assumption|]. split; [assumption|]. split; [symmetry; apply app_nil_r|].
  split; [simpl; lia|]. split; [intros ->; contradiction|].
  split; [intros s ->; contradiction|]. split; [discriminate|].
  intros _ Hex. inversion Hex.
Qed.

Lemma test_post_after (adw_id : string) (attempt : nat) (rest : list nat)
    (state state2 : ADWStateData) (r : E2ETestResult) (o : outcome loop_end) (w' : World) :
  state_files w' !! get_state_path adw_id = Some state2 ->
  state_adw_id state2 = adw_id ->
  test_results state2 = test_results state ++ [r] ->
  aborted o ->
  all_passed r = true \/ rest <> [] ->
  (Github.tracker_ok -> all_passed r = true -> False) ->
  test_loop_post adw_id (attempt :: rest) state o w'.
Proof.
  intros Hdisk Hid Hresults Habort Hcase Htracker. exists state2, [r].
  split; [assumption|]. split; [assumption|]. split; [assumption|].
  split; [simpl; lia|]. split; [intros ->; contradiction|].
  split; [intros s ->; contradiction|]. split.
  - intros Hlen Hfailed. exfalso. rewrite Forall_singleton in Hfailed.
    destruct Hcase as [Hpassed|Hrest]; [congruence|].
    destruct rest; [contradiction|discriminate].
  - intros Hok Hex. exfalso. apply Exists_cons in Hex as [Hpassed|Hex]; [cbv beta in Hpassed; auto|inversion Hex].
Qed.

Lemma retry_loop_cons (adw_id : string) (attempt : nat) (rest : list nat)
    (state : ADWStateData) :
  retry_loop adw_id (attempt :: rest) state
  = (comment (issue_number state) adw_id AGENT_TESTER
       ("🧪 Running tests (attempt " +:+ pretty attempt +:+ ")");;
     test_result ← run_tests adw_id attempt;
     state ← save_state (set_test_results (test_results state ++ [test_result]) state);
     if all_passed test_result then
       comment (issue_number state) adw_id AGENT_TESTER "✅ All tests passed";;
       _ ← advance_phase state REVIEW;
       mret Returned
     else if bool_decide (MAX_TEST_RETRY_ATTEMPTS ≤ attempt) then
       mret (Exhausted state)
     else
       comment (issue_number state) adw_id AGENT_TEST_RESOLVER
         "🔧 Attempting to fix test failures";;
       resolved ← resolve_failed_tests adw_id (failure_output test_result) attempt;
       (if resolved : bool
        then _ ← GitOps.git_commit AGENT_TEST_RESOLVER adw_id; mret ()
        else mret ());;
       retry_loop adw_id rest state).
Proof. reflexivity. Qed.

Lemma same_states_comment (issue adw_id agent message : string) :
  steps same_states (comment issue adw_id agent message).
Proof. apply same_states_make_issue_comment. Qed.

Lemma same_states_run_tests (adw_id : string) (attempt : nat) :
  steps same_states (run_tests adw_id attempt).
Proof.
  unfold run_tests.
  apply steps_bind; [apply _|apply same_states_execute_template|intros r].
  destruct (test_result_of_response r attempt); [apply steps_raise|apply steps_ret]; apply _.
Qed.

Lemma same_states_resolve (adw_id out : string) (attempt : nat) :
  steps same_states (resolve_failed_tests adw_id out attempt).
Proof.
  unfold resolve_failed_tests.
  apply steps_bind; [apply _|apply same_states_execute_template|intros r].
  apply steps_ret; apply _.
Qed.

Lemma same_states_resolve_commit (adw_id : string) (resolved : bool) :
  steps same_states
    (if resolved then _ ← GitOps.git_commit AGENT_TEST_RESOLVER adw_id; mret () else mret ()).
Proof.
  destruct resolved; [|apply steps_ret; apply _].
  apply steps_bind; [apply _|apply same_states_git_commit|intros r; apply steps_ret; apply _].
Qed.

Lemma last_cons_cons {A : Type} (a b : A) (l : list A) : last (a :: b :: l) = last (b :: l).
Proof. reflexivity. Qed.

Lemma retry_loop_post (adw_id : string) (attempts : list nat) :
  forall (state : ADWStateData) (w w' : World) (o : outcome loop_end),
    (forall a, last attempts = Some a -> MAX_TEST_RETRY_ATTEMPTS <= a) ->
    state_files w !! get_state_path adw_id = Some state ->
    state_adw_id state = adw_id ->
    retry_loop adw_id attempts state w = (o, w') ->
    test_loop_post adw_id attempts state o w'.
Proof.
  induction attempts as [|attempt rest IH]; intros state w w' o Hlast Hdisk Hid Hrun.
  { simpl in Hrun. inversion Hrun; subst. exists state, [].
    split; [assumption|]. split; [reflexivity|]. split; [symmetry; apply app_nil_r|].
    split; [reflexivity|]. split; [discriminate|].
    split; [intros s [= <-]; reflexivity|]. split; [eauto|].
    intros _ Hex. inversion Hex. }
  rewrite retry_loop_cons in Hrun.
  (* the comment that announces the attempt *)
  apply bind_run in Hrun as [(u & w1 & Hstep & Hrun)|[(e & Hstep & ->)|(c & Hstep & ->)]];
    pose proof (same_states_comment _ _ _ _ _ _ _ Hstep) as Hsame; unfold same_states in Hsame;
    try (apply test_post_before; [rewrite Hsame; assumption|assumption|exact I]).
  assert (Hdisk1 : state_files w1 !! get_state_path adw_id = Some state)
    by (rewrite Hsame; assumption).
  clear Hstep Hsame Hdisk w.
  (* the tests *)
  apply bind_run in Hrun as [(r & w2 & Hstep & Hrun)|[(e & Hstep & ->)|(c & Hstep & ->)]];
    pose proof (same_states_run_tests _ _ _ _ _ Hstep) as Hsame; unfold same_states in Hsame;
    try (apply test_post_before; [rewrite Hsame; assumption|assumption|exact I]).
  assert (Hdisk2 : state_files w2 !! get_state_path adw_id = Some state)
    by (rewrite Hsame; assumption).
  clear Hstep Hsame Hdisk1 w1.
  (* the attempt is recorded *)
  apply bind_run in Hrun as [(state2 & w3 & Hstep & Hrun)|[(e & Hstep & ->)|(c & Hstep & ->)]];
    rewrite save_state_done in Hstep; try discriminate.
  injection Hstep as Hstate2 Hw3.
  assert (Hid2 : state_adw_id state2 = adw_id) by (subst state2; exact Hid).
  assert (Hresults2 : test_results state2 = test_results state ++ [r])
    by (subst state2; reflexivity).
  assert (Hphase2 : current_phase state2 = current_phase state)
    by (subst state2; reflexivity).
  assert (Hdisk3 : state_files w3 !! get_state_path adw_id = Some state2).
  { rewrite <- Hw3, <- Hstate2. simpl state_files. simpl state_adw_id. rewrite Hid.
    apply lookup_insert_eq. }
  clear Hstate2 Hw3 Hdisk2 w2.
  destruct (all_passed r) eqn:Hr.
  - (* all suites passed *)
    apply bind_run in Hrun as [(u4 & w4 & Hstep & Hrun)|[(e & Hstep & ->)|(c & Hstep & ->)]];
      pose proof (same_states_comment _ _ _ _ _ _ _ Hstep) as Hsame;
      unfold same_states in Hsame;
      try (apply (test_post_after adw_id attempt rest state state2 r);
           [rewrite Hsame; assumption|assumption|assumption|exact I|left; assumption|];
           intros Hok _;
           destruct (make_issue_comment_ok (issue_number state2)
                       (WorkflowOps.format_issue_message adw_id AGENT_TESTER
                          "✅ All tests passed" None) w3 Hok) as (w5 & Hposted);
           unfold comment in Hstep; rewrite Hposted in Hstep; discriminate).
    destruct (advance_phase_done state2 REVIEW w4)
      as (state5 & w5 & Hadvance & Hphase5 & _ & Hid5 & Hdisk5).
    apply bind_run in Hrun as [(s & w6 & Hstep5 & Hrun)|[(e & Hstep5 & ->)|(c & Hstep5 & ->)]];
      rewrite Hadvance in Hstep5; try discriminate.
    injection Hstep5 as <- <-. inversion Hrun; subst o w'.
    assert (Hresults5 : test_results state5 = test_results state2).
    { unfold advance_phase in Hadvance. rewrite save_state_done in Hadvance.
      injection Hadvance as <- _. reflexivity. }
    exists state5, [r].
    split; [rewrite <- Hid2; rewrite Hid2 in Hdisk5; rewrite Hid2; assumption|].
    split; [congruence|]. split; [congruence|]. split; [simpl; lia|].
    split; [intros _; assumption|]. split; [discriminate|]. split.
    + intros _ Hfailed. rewrite Forall_singleton in Hfailed. congruence.
    + reflexivity.
  - destruct (bool_decide (MAX_TEST_RETRY_ATTEMPTS ≤ attempt)) eqn:Hmax.
    + (* the last attempt failed *)
      inversion Hrun; subst o w'. exists state2, [r].
      split; [assumption|]. split; [assumption|]. split; [assumption|].
      split; [simpl; lia|]. split; [discriminate|].
      split; [intros s [= <-]; reflexivity|]. split; [eauto|].
      intros _ Hex. apply Exists_cons in Hex as [Hpassed|Hex]; [cbv beta in Hpassed; congruence|inversion Hex].
    + (* a failed attempt that is followed by another *)
      apply bool_decide_eq_false in Hmax.
      assert (Hrest : rest <> []).
      { intros ->. apply Hmax. apply Hlast. reflexivity. }
      assert (Hnot : Github.tracker_ok -> all_passed r = true -> False)
        by (intros _ Hp; congruence).
      apply bind_run in Hrun as [(u4 & w4 & Hstep & Hrun)|[(e & Hstep & ->)|(c & Hstep & ->)]];
        pose proof (same_states_comment _ _ _ _ _ _ _ Hstep) as Hsame;
        unfold same_states in Hsame;
        try (apply (test_post_after adw_id attempt rest state state2 r);
             [rewrite Hsame; assumption|assumption|assumption|exact I|right; assumption
             |assumption]).
      assert (Hdisk4 : state_files w4 !! get_state_path adw_id = Some state2)
        by (rewrite Hsame; assumption).
      clear Hstep Hsame Hdisk3 w3.
      apply bind_run in Hrun as [(b & w5 & Hstep & Hrun)|[(e & Hstep & ->)|(c & Hstep & ->)]];
        pose proof (same_states_resolve _ _ _ _ _ _ Hstep) as Hsame;
        unfold same_states in Hsame;
        try (apply (test_post_after adw_id attempt rest state state2 r);
             [rewrite Hsame; assumption|assumption|assumption|exact I|right; assumption
             |assumption]).
      assert (Hdisk5 : state_files w5 !! get_state_path adw_id = Some state2)
        by (rewrite Hsame; assumption).
      clear Hstep Hsame Hdisk4 w4.
      apply bind_run in Hrun as [(u' & w6 & Hstep & Hrun)|[(e & Hstep & ->)|(c & Hstep & ->)]];
        pose proof (same_states_resolve_commit _ _ _ _ _ Hstep) as Hsame;
        unfold same_states in Hsame;
        try (apply (test_post_after adw_id attempt rest state state2 r);
             [rewrite Hsame; assumption|assumption|assumption|exact I|right; assumption
             |assumption]).
      assert (Hdisk6 : state_files w6 !! get_state_path adw_id = Some state2)
        by (rewrite Hsame; assumption).
      clear Hstep Hsame Hdisk5 w5.
      assert (Hlast' : forall a, last rest = Some a -> MAX_TEST_RETRY_ATTEMPTS <= a).
      { intros a Ha. apply Hlast. destruct rest as [|a0 rest']; [contradiction|].
        rewrite last_cons_cons. assumption. }
      destruct (IH state2 w6 w' o Hlast' Hdisk6 Hid2 Hrun)
        as (state' & new & Hdisk' & Hid' & Hresults' & Hlen' & Hreturned & Hexhausted
            & Hall & Hsome).
      exists state', (r :: new).
      split; [assumption|]. split; [assumption|]. split.
      { rewrite Hresults', Hresults2, <- app_assoc. reflexivity. }
      split; [simpl; lia|]. split; [assumption|]. split; [assumption|]. split.
      * intros Hlen Hfailed. apply Forall_cons in Hfailed as [_ Hfailed].
        apply Hall; [simpl in Hlen; lia|assumption].
      * intros Hok Hex. apply Exists_cons in Hex as [Hpassed|Hex]; [cbv beta in Hpassed; congruence|auto].
Qed.

End TestPhase.




(** ** The review phase *)

Section ReviewPhase.
Import DataTypes Proc State AdwReview.
Context `{E : Env} `{rt : Runtime}.

Lemma review_post_before (adw_id : string) (attempt : nat) (rest : list nat)
    (state : ADWStateData) (o : outcome loop_end) (w' : World) :
  state_files w' !! get_state_path adw_id = Some state ->
  state_adw_id state = adw_id ->
  aborted o ->
  review_loop_post adw_id (attempt :: rest) state o w'.
Proof.
  intros Hdisk Hid Habort. exists state, [].
  split; [assumption|]. split; [assumption|]. split; [reflexivity|].
  split; [symmetry; apply app_nil_r|].
  split; [simpl; lia|]. split; [intros ->; contradiction|].
  split; [intros s ->; contradiction|]. split; [discriminate|].
  intros _ Hex. inversion Hex.
Qed.

Lemma review_post_after (adw_id : string) (attempt : nat) (rest : list nat)
    (state state2 : ADWStateData) (r : ReviewResult) (o : outcome loop_end) (w' : World) :
  state_files w' !! get_state_path adw_id = Some state2 ->
  state_adw_id state2 = adw_id ->
  issue_number state2 = issue_number state ->
  review_results state2 = review_results state ++ [r] ->
  aborted o ->
  approved r = true \/ rest <> [] ->
  (Github.tracker_ok -> approved r = true -> False) ->
  review_loop_post adw_id (attempt :: rest) state o w'.
Proof.
  intros Hdisk Hid Hissue Hresults Habort Hcase Htracker. exists state2, [r].
  split; [assumption|]. split; [assumption|]. split; [assumption|]. split; [assumption|].
  split; [simpl; lia|]. split; [intros ->; contradiction|].
  split; [intros s ->; contradiction|]. split.
  - intros Hlen Hfailed. exfalso. rewrite Forall_singleton in Hfailed.
    destruct Hcase as [Hpassed|Hrest]; [congruence|].
    destruct rest; [contradiction|discriminate].
  - intros Hok Hex. exfalso.
    apply Exists_cons in Hex as [Hpassed|Hex]; [cbv beta in Hpassed; auto|inversion Hex].
Qed.

Lemma recorded_approved (e2e_screenshots : list string) (r : ReviewResult) :
  approved (recorded e2e_screenshots r) = approved r.
Proof. destruct e2e_screenshots; reflexivity. Qed.

Lemma review_loop_cons (adw_id plan_file : string) (e2e_screenshots : list string)
    (attempt : nat) (rest : list nat) (state : ADWStateData) :
  retry_loop adw_id plan_file e2e_screenshots (attempt :: rest) state
  = (comment (issue_number state) adw_id AGENT_REVIEWER
       ("🔍 Running review (attempt " +:+ pretty attempt +:+ ")");;
     review_result ← run_review adw_id plan_file attempt;
     state ← save_state
       (set_review_results
          (review_results state ++ [recorded e2e_screenshots review_result]) state);
     if approved (recorded e2e_screenshots review_result) then
       post_review (issue_number state)
         (WorkflowOps.format_issue_message adw_id AGENT_REVIEWER "✅ Review approved" None)
         (screenshots (recorded e2e_screenshots review_result));;
       _ ← advance_phase state DOCUMENT;
       mret Returned
     else if bool_decide (MAX_REVIEW_RETRY_ATTEMPTS ≤ attempt) then
       mret (Exhausted state)
     else
       comment (issue_number state) adw_id WorkflowOps.AGENT_IMPLEMENTOR
         "🔧 Fixing review blockers";;
       fix_response ← WorkflowOps.implement_plan
         ("Fix these review blockers:" +:+ PyStr.nl
            +:+ blocker_desc (recorded e2e_screenshots review_result)) adw_id;
       (if success fix_response
        then _ ← GitOps.git_commit AGENT_REVIEWER adw_id; mret ()
        else mret ());;
       retry_loop adw_id plan_file e2e_screenshots rest state).
Proof. reflexivity. Qed.

Lemma same_states_review_comment (issue adw_id agent message : string) :
  steps same_states (comment issue adw_id agent message).
Proof. apply same_states_make_issue_comment. Qed.

Lemma same_states_run_review (adw_id plan_file : string) (attempt : nat) :
  steps same_states (run_review adw_id plan_file attempt).
Proof.
  unfold run_review.
  apply steps_bind; [apply _|apply same_states_execute_template|intros r].
  destruct (review_result_of_response r attempt); [apply steps_raise|apply steps_ret]; apply _.
Qed.

Lemma same_states_post_review (issue text : string) (shots : list string) :
  steps same_states (post_review issue text shots).
Proof.
  destruct shots; simpl;
    [apply same_states_make_issue_comment|apply same_states_post_review_comment].
Qed.

Lemma same_states_implement_plan (plan adw_id : string) :
  steps same_states (WorkflowOps.implement_plan plan adw_id).
Proof. apply same_states_execute_template. Qed.

Lemma same_states_fix_commit (adw_id : string) (fixed : bool) :
  steps same_states
    (if fixed then _ ← GitOps.git_commit AGENT_REVIEWER adw_id; mret () else mret ()).
Proof.
  destruct fixed; [|apply steps_ret; apply _].
  apply steps_bind; [apply _|apply same_states_git_commit|intros r; apply steps_ret; apply _].
Qed.

(** With a tracker that accepts every comment, the comment is posted and
    is the last process spawned. *)
Lemma make_issue_comment_posted (issue_id comment : string) (w : World) :
  Github.tracker_ok ->
  exists w', Github.make_issue_comment issue_id comment w = (Done (), w')
             /\ posted issue_id comment w'.
Proof.
  intros [Hgit Hgh]. unfold Github.make_issue_comment, Github.get_repo_url.
  unfold try_except, mbind, M_bind, run.
  destruct (Hgit (tick w)) as (c & Hc & Hrc). rewrite Hc, Hrc. simpl.
  match goal with |- context [subprocess_run ?n (Github.comment_command ?i ?r ?b) _] =>
    destruct (Hgh n i r b) as (c' & Hc' & Hrc')
  end.
  rewrite Hc', Hrc'. simpl. eexists. split; [reflexivity|].
  eexists _, _, "", c'. split; [simpl; apply list_elem_of_here|].
  split; [simpl; rewrite append_empty_r; reflexivity|]. split; [reflexivity|assumption].
Qed.

Lemma screenshot_md_parts_done (paths : list string) (repo issue : string) (w : World) :
  exists parts w', Github.screenshot_md_parts paths repo issue w = (Done parts, w').
Proof.
  revert w. induction paths as [|p paths IH]; intros w; simpl; [eexists _, _; reflexivity|].
  unfold mbind, M_bind, Github.upload_screenshot_to_github.
  destruct (IH (next_tick w)) as (parts & w' & Hparts). rewrite Hparts.
  destruct (upload_screenshot _ _ _ _) as [u|]; [destruct (String.eqb u "")|];
    eexists _, _; reflexivity.
Qed.

Lemma post_review_posted (issue text : string) (shots : list string) (w : World) :
  Github.tracker_ok ->
  exists w', post_review issue text shots w = (Done (), w') /\ posted issue text w'.
Proof.
  intros Hok. destruct shots as [|shot shots]; simpl.
  { apply make_issue_comment_posted. assumption. }
  unfold Github.post_review_comment_with_screenshots.
  pose proof Hok as [Hgit _].
  unfold mbind at 1. unfold M_bind.
  assert (Hurl : exists url w1, Github.get_repo_url w = (Done url, w1)).
  { unfold Github.get_repo_url, try_except, mbind, M_bind, run.
    destruct (Hgit (tick w)) as (c & Hc & Hrc). rewrite Hc, Hrc. simpl.
    eexists _, _. reflexivity. }
  destruct Hurl as (url & w1 & ->).
  unfold mbind at 1. unfold M_bind.
  destruct (screenshot_md_parts_done (shot :: shots) (Github.extract_repo_path url) issue w1)
    as (parts & w2 & ->).
  destruct parts as [|part parts].
  - apply make_issue_comment_posted. assumption.
  - match goal with |- context [Github.make_issue_comment issue ?body w2] =>
      destruct (make_issue_comment_posted issue body w2 Hok)
        as (w3 & Hrun & sp & repo & more & done & Hin & Hcmd & Hres & Hrc)
    end.
    exists w3. split; [exact Hrun|].
    eexists sp, repo, _, done. split; [assumption|]. split; [|split; assumption].
    rewrite Hcmd, append_assoc. reflexivity.
Qed.

(** A review comment that fails ends the process with a code that is not
    zero. *)
Lemma post_review_outcome (issue text : string) (shots : list string) (w w' : World)
    (o : outcome unit) :
  post_review issue text shots w = (o, w') -> exit_code o = 0%Z -> o = Done ().
Proof.
  intros Hrun Hcode. destruct shots as [|shot shots]; simpl in Hrun.
  { exact (make_issue_comment_outcome _ _ _ _ _ Hrun Hcode). }
  unfold Github.post_review_comment_with_screenshots in Hrun.
  apply bind_run in Hrun as [(url & w1 & _ & Hrun)|[(e & _ & ->)|(c & Hurl & _)]];
    [|discriminate|].
  - destruct (screenshot_md_parts_done (shot :: shots) (Github.extract_repo_path url) issue w1)
      as (parts & w2 & Hparts).
    apply bind_run in Hrun as [(parts' & w2' & _ & Hrun)|[(e & He & _)|(c & Hc & _)]];
      [|rewrite Hparts in He; discriminate|rewrite Hparts in Hc; discriminate].
    exact (make_issue_comment_outcome _ _ _ _ _ Hrun Hcode).
  - exfalso. unfold Github.get_repo_url, try_except, mbind, M_bind, run in Hurl.
    destruct (subprocess_run _ _ _) as [e|r].
    + destruct e; inversion Hurl.
    + destruct (returncode r =? 0)%Z; inversion Hurl.
Qed.

Lemma review_loop_run (adw_id plan_file : string) (e2e_screenshots : list string)
    (attempts : list nat) :
  forall (state : ADWStateData) (w w' : World) (o : outcome loop_end),
    (forall a, last attempts = Some a -> MAX_REVIEW_RETRY_ATTEMPTS <= a) ->
    state_files w !! get_state_path adw_id = Some state ->
    state_adw_id state = adw_id ->
    retry_loop adw_id plan_file e2e_screenshots attempts state w = (o, w') ->
    review_loop_post adw_id attempts state o w'.
Proof.
  induction attempts as [|attempt rest IH]; intros state w w' o Hlast Hdisk Hid Hrun.
  { simpl in Hrun. inversion Hrun; subst. exists state, [].
    split; [assumption|]. split; [reflexivity|]. split; [reflexivity|].
    split; [symmetry; apply app_nil_r|].
    split; [reflexivity|]. split; [discriminate|].
    split; [intros s [= <-]; reflexivity|]. split; [eauto|].
    intros _ Hex. inversion Hex. }
  rewrite review_loop_cons in Hrun.
  (* the comment that announces the attempt *)
  apply bind_run in Hrun as [(u & w1 & Hstep & Hrun)|[(e & Hstep & ->)|(c & Hstep & ->)]];
    pose proof (same_states_review_comment _ _ _ _ _ _ _ Hstep) as Hsame;
    unfold same_states in Hsame;
    try (apply review_post_before; [rewrite Hsame; assumption|assumption|exact I]).
  assert (Hdisk1 : state_files w1 !! get_state_path adw_id = Some state)
    by (rewrite Hsame; assumption).
  clear Hstep Hsame Hdisk w.
  (* the review *)
  apply bind_run in Hrun as [(r0 & w2 & Hstep & Hrun)|[(e & Hstep & ->)|(c & Hstep & ->)]];
    pose proof (same_states_run_review _ _ _ _ _ _ Hstep) as Hsame;
    unfold same_states in Hsame;
    try (apply review_post_before; [rewrite Hsame; assumption|assumption|exact I]).
  assert (Hdisk2 : state_files w2 !! get_state_path adw_id = Some state)
    by (rewrite Hsame; assumption).
  clear Hstep Hsame Hdisk1 w1.
  remember (recorded e2e_screenshots r0) as r eqn:Hr0. clear Hr0 r0.
  (* the attempt is recorded *)
  apply bind_run in Hrun as [(state2 & w3 & Hstep & Hrun)|[(e & Hstep & ->)|(c & Hstep & ->)]];
    rewrite save_state_done in Hstep; try discriminate.
  injection Hstep as Hstate2 Hw3.
  assert (Hid2 : state_adw_id state2 = adw_id) by (subst state2; exact Hid).
  assert (Hissue2 : issue_number state2 = issue_number state)
    by (subst state2; reflexivity).
  assert (Hresults2 : review_results state2 = review_results state ++ [r])
    by (subst state2; reflexivity).
  assert (Hdisk3 : state_files w3 !! get_state_path adw_id = Some state2).
  { rewrite <- Hw3, <- Hstate2. simpl state_files. simpl state_adw_id. rewrite Hid.
    apply lookup_insert_eq. }
  clear Hstate2 Hw3 Hdisk2 w2.
  destruct (approved r) eqn:Hr.
  - (* the review is approved *)
    apply bind_run in Hrun as [(u4 & w4 & Hstep & Hrun)|[(e & Hstep & ->)|(c & Hstep & ->)]];
      pose proof (same_states_post_review _ _ _ _ _ _ Hstep) as Hsame;
      unfold same_states in Hsame;
      try (apply (review_post_after adw_id attempt rest state state2 r);
           [rewrite Hsame; assumption|assumption|assumption|assumption|exact I
           |left; assumption|];
           intros Hok _;
           destruct (post_review_posted (issue_number state2)
                       (WorkflowOps.format_issue_message adw_id AGENT_REVIEWER
                          "✅ Review approved" None) (screenshots r) w3 Hok)
             as (w5 & Hposted & _);
           rewrite Hposted in Hstep; discriminate).
    destruct (advance_phase_done state2 DOCUMENT w4)
      as (state5 & w5 & Hadvance & Hphase5 & _ & Hid5 & Hdisk5).
    apply bind_run in Hrun as [(s & w6 & Hstep5 & Hrun)|[(e & Hstep5 & ->)|(c & Hstep5 & ->)]];
      rewrite Hadvance in Hstep5; try discriminate.
    injection Hstep5 as <- <-. inversion Hrun; subst o w'.
    assert (Hkept : review_results state5 = review_results state2
                    /\ issue_number state5 = issue_number state2).
    { unfold advance_phase in Hadvance. rewrite save_state_done in Hadvance.
      injection Hadvance as <- _. split; reflexivity. }
    destruct Hkept as [Hresults5 Hissue5].
    exists state5, [r].
    split; [rewrite Hid2 in Hdisk5; assumption|].
    split; [congruence|]. split; [congruence|]. split; [congruence|]. split; [simpl; lia|].
    split; [intros _; assumption|]. split; [discriminate|]. split.
    + intros _ Hfailed. rewrite Forall_singleton in Hfailed. congruence.
    + reflexivity.
  - destruct (bool_decide (MAX_REVIEW_RETRY_ATTEMPTS ≤ attempt)) eqn:Hmax.
    + (* the last attempt is not approved *)
      inversion Hrun; subst o w'. exists state2, [r].
      split; [assumption|]. split; [assumption|]. split; [assumption|]. split; [assumption|].
      split; [simpl; lia|]. split; [discriminate|].
      split; [intros s [= <-]; reflexivity|]. split; [eauto|].
      intros _ Hex.
      apply Exists_cons in Hex as [Hpassed|Hex]; [cbv beta in Hpassed; congruence|inversion Hex].
    + (* an attempt that is not approved and is followed by another *)
      apply bool_decide_eq_false in Hmax.
      assert (Hrest : rest <> []).
      { intros ->. apply Hmax. apply Hlast. reflexivity. }
      assert (Hnot : Github.tracker_ok -> approved r = true -> False)
        by (intros _ Hp; congruence).
      apply bind_run in Hrun as [(u4 & w4 & Hstep & Hrun)|[(e & Hstep & ->)|(c & Hstep & ->)]];
        pose proof (same_states_review_comment _ _ _ _ _ _ _ Hstep) as Hsame;
        unfold same_states in Hsame;
        try (apply (review_post_after adw_id attempt rest state state2 r);
             [rewrite Hsame; assumption|assumption|assumption|assumption|exact I
             |right; assumption|assumption]).
      assert (Hdisk4 : state_files w4 !! get_state_path adw_id = Some state2)
        by (rewrite Hsame; assumption).
      clear Hstep Hsame Hdisk3 w3.
      apply bind_run in Hrun as [(fix_response & w5 & Hstep & Hrun)|[(e & Hstep & ->)|(c & Hstep & ->)]];
        pose proof (same_states_implement_plan _ _ _ _ _ Hstep) as Hsame;
        unfold same_states in Hsame;
        try (apply (review_post_after adw_id attempt rest state state2 r);
             [rewrite Hsame; assumption|assumption|assumption|assumption|exact I
             |right; assumption|assumption]).
      assert (Hdisk5 : state_files w5 !! get_state_path adw_id = Some state2)
        by (rewrite Hsame; assumption).
      clear Hstep Hsame Hdisk4 w4.
      apply bind_run in Hrun as [(u' & w6 & Hstep & Hrun)|[(e & Hstep & ->)|(c & Hstep & ->)]];
        pose proof (same_states_fix_commit _ _ _ _ _ Hstep) as Hsame;
        unfold same_states in Hsame;
        try (apply (review_post_after adw_id attempt rest state state2 r);
             [rewrite Hsame; assumption|assumption|assumption|assumption|exact I
             |right; assumption|assumption]).
      assert (Hdisk6 : state_files w6 !! get_state_path adw_id = Some state2)
        by (rewrite Hsame; assumption).
      clear Hstep Hsame Hdisk5 w5.
      assert (Hlast' : forall a, last rest = Some a -> MAX_REVIEW_RETRY_ATTEMPTS <= a).
      { intros a Ha. apply Hlast. destruct rest as [|a0 rest']; [contradiction|].
        rewrite last_cons_cons. assumption. }
      destruct (IH state2 w6 w' o Hlast' Hdisk6 Hid2 Hrun)
        as (state' & new & Hdisk' & Hid' & Hissue' & Hresults' & Hlen' & Hreturned
            & Hexhausted & Hall & Hsome).
      exists state', (r :: new).
      split; [assumption|]. split; [assumption|]. split; [congruence|]. split.
      { rewrite Hresults', Hresults2, <- app_assoc. reflexivity. }
      split; [simpl; lia|]. split; [assumption|]. split; [assumption|]. split.
      * intros Hlen Hfailed. apply Forall_cons in Hfailed as [_ Hfailed].
        apply Hall; [simpl in Hlen; lia|assumption].
      * intros Hok Hex.
        apply Exists_cons in Hex as [Hpassed|Hex]; [cbv beta in Hpassed; congruence|auto].
Qed.

End ReviewPhase.




(** * Further properties of the code *)

(** ** The state files of different workflows *)

Section StatePaths.
Import PyStr DataTypes Proc Agent State.
Context `{E : Env}.

Lemma append_cancel_l (p a b : string) : p +:+ a = p +:+ b -> a = b.
Proof.
  induction p as [|c p IH]; [auto|]. rewrite !append_cons. intros [= H]. auto.
Qed.

Lemma length_append_sum (a b : string) :
  String.length (a +:+ b) = String.length a + String.length b.
Proof. induction a as [|c a IH]; [reflexivity|]. rewrite append_cons. simpl. rewrite IH. reflexivity. Qed.

Lemma append_cancel_r (a b s : string) : a +:+ s = b +:+ s -> a = b.
Proof.
  revert b. induction a as [|x a IH]; intros [|y b] H.
  - reflexivity.
  - exfalso. apply (f_equal String.length) in H.
    rewrite append_empty_l, append_cons in H. simpl in H.
    rewrite length_append_sum in H. lia.
  - exfalso. apply (f_equal String.length) in H.
    rewrite append_empty_l, append_cons in H. simpl in H.
    rewrite length_append_sum in H. lia.
  - rewrite !append_cons in H. injection H as -> H. f_equal. auto.
Qed.

(** The state path of a plain id: the id between a prefix and a suffix
    that do not depend on it. *)
Lemma get_state_path_plain :
  exists pre, forall adw_id,
    plain adw_id -> get_state_path adw_id = pre +:+ adw_id +:+ "/adw_state.json".
Proof.
  set (base := join2 project_root "agents").
  exists (if String.eqb base "" || ends_in "/" base then base else base +:+ "/").
  intros adw_id (Hne & Hstart & Hend).
  unfold get_state_path, os_path_join. simpl foldl. fold base.
  assert (Hjoin : join2 base adw_id
                  = (if String.eqb base "" || ends_in "/" base then base else base +:+ "/")
                      +:+ adw_id).
  { unfold join2. rewrite Hstart.
    destruct (String.eqb base "" || ends_in "/" base); [reflexivity|].
    rewrite append_assoc. reflexivity. }
  rewrite Hjoin.
  set (pre := if String.eqb base "" || ends_in "/" base then base else base +:+ "/").
  rewrite (join2_plain (pre +:+ adw_id) "adw_state.json");
    [rewrite append_assoc; reflexivity
    |apply append_nonempty_r; assumption
    |rewrite ends_in_append by assumption; assumption
    |reflexivity].
Qed.

Lemma get_state_path_inj (a b : string) :
  plain a -> plain b -> get_state_path a = get_state_path b -> a = b.
Proof.
  intros Ha Hb. destruct get_state_path_plain as [pre Hpre].
  rewrite (Hpre a Ha), (Hpre b Hb). intros H.
  apply append_cancel_l in H. apply append_cancel_r in H. assumption.
Qed.

End StatePaths.



(** ** What the state store keeps *)

Section StoreKeeps.
Import DataTypes Proc State StoreOps.
Context `{E : Env}.

Lemma apply_op_keeps (op : store_op) (state : ADWStateData) (w : World) :
  (forall message, op <> OpMarkError message) ->
  exists state' w',
    apply_op op state w = (Done state', w')
    /\ error state' = error state
    /\ created_at state' = created_at state
    /\ state_adw_id state' = state_adw_id state
    /\ issue_number state' = issue_number state
    /\ plan_file state' = plan_file state
    /\ test_results state' = test_results state
    /\ review_results state' = review_results state.
Proof.
  intros Hop. destruct op as [|next_phase|message]; simpl.
  - rewrite save_state_done. eexists _, _. split; [reflexivity|]. simpl. repeat split.
  - unfold advance_phase. rewrite save_state_done. eexists _, _.
    split; [reflexivity|]. simpl. repeat split.
  - exfalso. exact (Hop message eq_refl).
Qed.

End StoreKeeps.

(** X2.  The state store never clears a recorded error: after any
    sequence of saves and advances (no [mark_error] among them) the record
    has the error it had, whether one was recorded or none, and the id,
    issue number, plan file, attempts and creation time it had. *)
Theorem recorded_error_persists :
  forall (E : Proc.Env) (ops : list StoreOps.store_op) (state : DataTypes.ADWStateData)
         (w : Proc.World),
    Forall (fun op => forall message, op <> StoreOps.OpMarkError message) ops ->
    exists state' w',
      StoreOps.apply_ops ops state w = (Proc.Done state', w')
      /\ DataTypes.error state' = DataTypes.error state
      /\ DataTypes.created_at state' = DataTypes.created_at state
      /\ DataTypes.state_adw_id state' = DataTypes.state_adw_id state
      /\ DataTypes.issue_number state' = DataTypes.issue_number state
      /\ DataTypes.plan_file state' = DataTypes.plan_file state
      /\ DataTypes.test_results state' = DataTypes.test_results state
      /\ DataTypes.review_results state' = DataTypes.review_results state.
Proof.
  intros E ops. induction ops as [|op rest IH]; intros state w Hops.
  - exists state, w. repeat split.
  - apply Forall_cons in Hops as [Hop Hrest].
    destruct (apply_op_keeps op state w Hop)
      as (s1 & w1 & Hrun & He & Hc & Hi & Hn & Hp & Ht & Hr).
    destruct (IH s1 w1 Hrest) as (s2 & w2 & Hrun2 & He2 & Hc2 & Hi2 & Hn2 & Hp2 & Ht2 & Hr2).
    exists s2, w2. split.
    { simpl. rewrite (bind_done _ _ _ _ _ Hrun). exact Hrun2. }
    repeat split; congruence.
Qed.

Lemma recorded_error_persists_witness :
  let E := Scenario.scripted (Examples.constant "ok") in
  let failed := State.set_error (Some "Tests failed after 4 attempts") (Scenario.built "abc") in
  exists state' w',
    StoreOps.apply_ops [StoreOps.OpAdvance DataTypes.REVIEW; StoreOps.OpSave] failed
      Scenario.empty_world = (Proc.Done state', w')
    /\ DataTypes.error state' = Some "Tests failed after 4 attempts".
Proof.
  intros E failed.
  destruct (recorded_error_persists E
              [StoreOps.OpAdvance DataTypes.REVIEW; StoreOps.OpSave] failed
              Scenario.empty_world) as (state' & w' & Hrun & Herror & _).
  - repeat constructor; discriminate.
  - exists state', w'. split; [exact Hrun|exact Herror].
Defined.

(** ** Comments on the issue *)

Section IssueComments.
Import PyStr DataTypes Proc Github Further.
Context `{E : Env}.

(** How [get_repo_url] ends, from what [git] answers. *)
Lemma get_repo_url_run (w : World) :
  get_repo_url w
  = (match subprocess_run (tick w) GIT_REMOTE None with
     | inr done =>
         if (returncode done =? 0)%Z then Done (strip (stdout done))
         else Raised (ValueError
           "No git remote 'origin' found. Please ensure you're in a git repository with a remote.")
     | inl FileNotFoundError =>
         Raised (ValueError "git command not found. Please ensure git is installed.")
     | inl e => Raised e
     end,
     next_tick (with_spawned
       ({| cmd := GIT_REMOTE; env := None;
           result := subprocess_run (tick w) GIT_REMOTE None |} :: spawned w) w)).
Proof.
  unfold get_repo_url, try_except, mbind, M_bind, run, GIT_REMOTE.
  destruct (subprocess_run (tick w) _ None) as [e|done].
  - destruct e; reflexivity.
  - destruct (returncode done =? 0)%Z; reflexivity.
Qed.

(** [get_repo_url] never ends in [sys.exit]. *)
Lemma get_repo_url_no_exit (w w' : World) (c : Z) : get_repo_url w <> (Exited c, w').
Proof.
  rewrite get_repo_url_run. destruct (subprocess_run _ _ _) as [e|done].
  - destruct e; discriminate.
  - destruct (returncode done =? 0)%Z; discriminate.
Qed.

End IssueComments.

(** X3.  A comment is posted in two steps, [git remote get-url origin]
    and then [gh issue comment].  When [make_issue_comment] returns, [gh]
    was given the issue, the repository read from the remote, the comment
    as it is, and the token environment, and it returned 0.  When it does
    not return, the process ends with a status that is not 0; and when
    [git] fails, [gh] is not spawned at all.  No file is written. *)
Theorem comment_posted_or_process_ends :
  forall (E : Proc.Env) (issue_id comment : string) (w : Proc.World),
    let ended := Github.make_issue_comment issue_id comment w in
    let asked := Proc.subprocess_run (Proc.tick w) Further.GIT_REMOTE None in
    let git := {| Proc.cmd := Further.GIT_REMOTE; Proc.env := None; Proc.result := asked |} in
    (ended.1 = Proc.Done () ->
       exists url done,
         asked = inr url /\ Proc.returncode url = 0%Z
         /\ Proc.returncode done = 0%Z
         /\ Proc.spawned ended.2
            = {| Proc.cmd :=
                   Github.comment_command issue_id
                     (Github.extract_repo_path (PyStr.strip (Proc.stdout url))) comment;
                 Proc.env := Github.get_github_env;
                 Proc.result := inr done |} :: git :: Proc.spawned w)
    /\ (ended.1 <> Proc.Done () -> Proc.exit_code ended.1 <> 0%Z)
    /\ ((forall url, asked = inr url -> Proc.returncode url <> 0%Z) ->
        Proc.spawned ended.2 = git :: Proc.spawned w
        /\ exists e, ended.1 = Proc.Raised e)
    /\ Proc.files ended.2 = Proc.files w
    /\ Proc.state_files ended.2 = Proc.state_files w.
Proof.
  intros E issue_id comment w. cbv zeta.
  destruct (Github.make_issue_comment issue_id comment w) as [o w'] eqn:Hrun. simpl.
  unfold Github.make_issue_comment in Hrun. unfold mbind at 1 in Hrun.
  unfold Proc.M_bind in Hrun. rewrite get_repo_url_run in Hrun.
  destruct (Proc.subprocess_run (Proc.tick w) Further.GIT_REMOTE None) as [e|url] eqn:Hgit.
  { assert (Hended : exists e', o = Proc.Raised e'
              /\ w' = Proc.next_tick (Proc.with_spawned
                        ({| Proc.cmd := Further.GIT_REMOTE; Proc.env := None;
                            Proc.result := inl e |} :: Proc.spawned w) w)).
    { destruct e; inversion Hrun; eexists; split; reflexivity. }
    destruct Hended as (e' & -> & ->). simpl.
    split; [discriminate|]. split; [intros _; discriminate|].
    split; [|split; reflexivity]. intros _. split; [reflexivity|eexists; reflexivity]. }
  destruct (Proc.returncode url =? 0)%Z eqn:Hrc.
  2:{ inversion Hrun; subst o w'. simpl. split; [discriminate|].
      split; [intros _; discriminate|]. split; [|split; reflexivity].
      intros _. split; [reflexivity|eexists; reflexivity]. }
  apply Z.eqb_eq in Hrc.
  unfold Proc.try_except, mbind, Proc.M_bind, Proc.run in Hrun. simpl Proc.tick in Hrun.
  match type of Hrun with context [Proc.subprocess_run ?n ?c ?e] =>
    destruct (Proc.subprocess_run n c e) as [e'|done] eqn:Hgh
  end.
  { inversion Hrun; subst o w'. simpl. split; [discriminate|].
    split; [intros _; discriminate|]. split; [|split; reflexivity].
    intros Hfails. exfalso. exact (Hfails url eq_refl Hrc). }
  destruct (Proc.returncode done =? 0)%Z eqn:Hrc'; inversion Hrun; subst o w'; simpl.
  - apply Z.eqb_eq in Hrc'. split.
    { intros _. exists url, done. repeat split; assumption. }
    split; [intros H; contradiction|]. split; [|split; reflexivity].
    intros Hfails. exfalso. exact (Hfails url eq_refl Hrc).
  - apply Z.eqb_neq in Hrc'. split; [discriminate|]. split; [intros _; assumption|].
    split; [|split; reflexivity].
    intros Hfails. exfalso. exact (Hfails url eq_refl Hrc).
Qed.



(** ** Review comments with screenshots *)

Section Screenshots.
Import PyStr DataTypes Proc Github Further.
Context `{E : Env}.

(** A comment that was posted is the last process spawned. *)
(** The links of the screenshots: one for each upload that gave a URL, in
    the order of the paths. *)
Lemma screenshot_md_parts_links (issue repo : string) (paths : list string) :
  forall w, exists parts w',
    screenshot_md_parts paths repo issue w = (Done parts, w')
    /\ spawned w' = spawned w
    /\ length parts <= length paths
    /\ Forall (fun part => exists path n url,
                 path ∈ paths
                 /\ upload_screenshot n path repo issue = Some url
                 /\ url <> ""
                 /\ part = "![" +:+ os_path_basename path +:+ "](" +:+ url +:+ ")") parts
    /\ ((forall n path, upload_screenshot n path repo issue = None) -> parts = []).
Proof.
  induction paths as [|path paths IH]; intros w; simpl.
  { exists [], w. repeat split; auto. }
  unfold mbind, M_bind, upload_screenshot_to_github.
  destruct (IH (next_tick w)) as (parts & w' & Hrun & Hspawned & Hlen & Hparts & Hnone).
  rewrite Hrun.
  assert (Hweaken : Forall (fun part => exists path0 n url,
                      path0 ∈ path :: paths
                      /\ upload_screenshot n path0 repo issue = Some url
                      /\ url <> ""
                      /\ part = "![" +:+ os_path_basename path0 +:+ "](" +:+ url +:+ ")")
                      parts).
  { eapply Forall_impl; [exact Hparts|]. intros part (p & n & u & Hp & Hu & Hne & ->).
    exists p, n, u. repeat split; auto. apply list_elem_of_further. assumption. }
  destruct (upload_screenshot (tick w) path repo issue) as [u|] eqn:Hu.
  - destruct (String.eqb u "") eqn:Hempty.
    + exists parts, w'. split; [reflexivity|]. split; [assumption|]. split; [simpl; lia|].
      split; [assumption|]. intros Hall. rewrite Hall in Hu. discriminate.
    + apply String.eqb_neq in Hempty. eexists _, w'. split; [reflexivity|].
      split; [assumption|]. split; [simpl; lia|]. split.
      * constructor; [|assumption]. exists path, (tick w), u.
        repeat split; auto. apply list_elem_of_here.
      * intros Hall. rewrite Hall in Hu. discriminate.
  - exists parts, w'. split; [reflexivity|]. split; [assumption|]. split; [simpl; lia|].
    split; [assumption|]. assumption.
Qed.

End Screenshots.



(** ** The agent invocation when something fails *)

Section AgentFailures.
Import Json DataTypes Proc Agent.
Context `{E : Env} `{rt : Runtime}.

Lemma parse_jsonl_output_done (path : string) (w : World) :
  exists parsed, parse_jsonl_output path w = (Done parsed, w).
Proof.
  unfold parse_jsonl_output, try_except, read_file, mbind, M_bind.
  destruct (files w !! path); eexists; reflexivity.
Qed.

(** [distill] never ends in [sys.exit]. *)
Lemma distill_no_exit (request : AgentPromptRequest) (result : Completed) (w w' : World)
    (c : Z) :
  distill request result w <> (Exited c, w').
Proof.
  unfold distill. destruct (returncode result =? 0)%Z; [|discriminate].
  destruct (parse_jsonl_output_done (output_file request) w) as [parsed Hparsed].
  unfold mbind at 1, M_bind at 1. rewrite Hparsed.
  unfold mbind at 1, M_bind at 1. unfold convert_jsonl_to_json.
  unfold mbind at 1, M_bind at 1. rewrite Hparsed.
  unfold mbind at 1, M_bind at 1. unfold write_file at 1. unfold mret at 1, M_ret at 1.
  set (w1 := with_files _ w).
  assert (Hraw : forall k : string -> AgentPromptResponse,
             (raw_output ← read_file (output_file request); mret (k raw_output)) w1
             <> (Exited c, w')).
  { intros k. unfold mbind, M_bind, read_file.
    destruct (files w1 !! output_file request); discriminate. }
  destruct parsed.2 as [kv|]; [|apply Hraw].
  destruct (truthy (JDict kv)); [|apply Hraw].
  unfold response_of_result.
  destruct (Pydantic.str_field _); [destruct (Pydantic.opt_str_field _)|]; discriminate.
Qed.

Lemma on_exception_done (e : exn) (w : World) :
  on_exception e w
  = (Done (failure (match e with
                    | TimeoutExpired => "Error: Claude Code command timed out after 5 minutes"
                    | _ => "Error executing Claude Code: " +:+ exn_str e
                    end)), w).
Proof. destruct e; reflexivity. Qed.

(** The guarded block of [prompt_claude_code] answers. *)
Lemma guarded_run_answers (request : AgentPromptRequest) (c : list string)
    (env : gmap string string) (w : World) :
  exists response w',
    try_except (result ← run_to_file (output_file request) c env; distill request result)
      on_exception w = (Done response, w').
Proof.
  unfold try_except.
  destruct ((result ← run_to_file (output_file request) c env; distill request result) w)
    as [[response|e|code] w'] eqn:Hrun.
  - eauto.
  - rewrite on_exception_done. eauto.
  - exfalso. apply bind_run in Hrun as [(result & w1 & _ & Hrun)|[(e & _ & [=])|(c' & Hrun & _)]].
    + exact (distill_no_exit _ _ _ _ _ Hrun).
    + unfold run_to_file, mbind, M_bind, write_file, run in Hrun. simpl in Hrun.
      destruct (subprocess_run _ _ _); discriminate.
Qed.

End AgentFailures.



(** X8.  When the probe [claude --version] returns a code that is not 0,
    or the program is not found, the agent invocation answers success =
    false with the message that the CLI is not installed, and does nothing
    else: no prompt or output file is written and no agent is spawned.
    Another exception of the probe is not caught. *)
Theorem missing_cli_is_reported :
  forall (E : Proc.Env) (rt : Runtime) (request : DataTypes.AgentPromptRequest)
         (w : Proc.World),
    let asked := Proc.subprocess_run (Proc.tick w) [Agent.CLAUDE_PATH; "--version"] None in
    let probe := {| Proc.cmd := [Agent.CLAUDE_PATH; "--version"]; Proc.env := None;
                    Proc.result := asked |} in
    let ended := Agent.prompt_claude_code request w in
    (asked = inl FileNotFoundError \/ (exists c, asked = inr c /\ Proc.returncode c <> 0%Z) ->
     ended.1 = Proc.Done
                 (Agent.failure
                    ("Error: Claude Code CLI is not installed. Expected at: "
                       +:+ Agent.CLAUDE_PATH))
     /\ Proc.spawned ended.2 = probe :: Proc.spawned w
     /\ Proc.files ended.2 = Proc.files w)
    /\ (forall e, asked = inl e -> e <> FileNotFoundError ->
        ended.1 = Proc.Raised e
        /\ Proc.spawned ended.2 = probe :: Proc.spawned w
        /\ Proc.files ended.2 = Proc.files w).
Proof.
  intros E rt request w. cbv zeta.
  destruct (Agent.prompt_claude_code request w) as [o w'] eqn:Hrun. simpl.
  unfold Agent.prompt_claude_code in Hrun. unfold mbind at 1 in Hrun.
  unfold Proc.M_bind at 1 in Hrun.
  unfold Agent.check_claude_installed, Proc.try_except, mbind, Proc.M_bind, Proc.run in Hrun.
  destruct (Proc.subprocess_run (Proc.tick w) [Agent.CLAUDE_PATH; "--version"] None)
    as [e|c] eqn:Hasked.
  - split.
    + intros [[= ->]|(c & [=] & _)]. inversion Hrun. repeat split.
    + intros e' [= <-] He. destruct e; try contradiction; inversion Hrun; repeat split.
  - split; [|intros e [=]].
    intros [[=]|(c' & [= <-] & Hrc)]. apply Z.eqb_neq in Hrc. rewrite Hrc in Hrun.
    inversion Hrun. repeat split.
Qed.

(** ** The suites of a [/test] answer *)

Section Suites.
Import Json DataTypes.
Context `{rt : Runtime}.

Lemma test_results_of_Forall2 (items : list value) (l : list TestResult) :
  AdwTest.test_results_of items = inr l ->
  Forall2 (fun item tr => AdwTest.test_result_of_item item = inr tr) items l.
Proof.
  revert l. induction items as [|item items IH]; intros l; simpl.
  - intros [= <-]. constructor.
  - destruct (AdwTest.test_result_of_item item) as [e|tr] eqn:Hitem; [discriminate|].
    destruct (AdwTest.test_results_of items) as [e|l'] eqn:Hrest; [discriminate|].
    intros [= <-]. constructor; [assumption|]. apply IH. reflexivity.
Qed.

(** An item that is no JSON object makes the conversion raise. *)
Lemma test_results_of_raises (items : list value) :
  Exists (fun item => is_dict item = false) items ->
  exists e, AdwTest.test_results_of items = inl e.
Proof.
  induction 1 as [item items Hitem|item items _ IH]; simpl.
  - destruct item; try discriminate; eexists; reflexivity.
  - destruct (AdwTest.test_result_of_item item); [eexists; reflexivity|].
    destruct IH as [e ->]. eexists; reflexivity.
Qed.

Lemma missing_passed_is_failed (kv : list (string * value)) (tr : TestResult) :
  lookup "passed" kv = None ->
  AdwTest.test_result_of_item (JDict kv) = inr tr ->
  passed tr = false.
Proof.
  intros Hmissing. unfold AdwTest.test_result_of_item.
  destruct (Pydantic.str_field _); [|discriminate].
  unfold get at 1. rewrite Hmissing. rewrite lax_bool_bool.
  destruct (Pydantic.str_field _); [|discriminate].
  destruct (Pydantic.opt_str_field _); [|discriminate].
  intros [= <-]. reflexivity.
Qed.

End Suites.

(** X9.  When the response of [/test] succeeded and its output parses to
    a non-empty JSON array, the attempt has one suite result per item, in
    the order of the array, and counts as all-passed exactly when every
    suite passed; the text heuristic plays no part.  A suite without the
    key "passed" counts as failed.  An item that is no JSON object makes
    the attempt raise instead of giving a result. *)
Theorem test_suites_decide_attempt :
  forall (rt : Runtime) (response : DataTypes.AgentPromptResponse) (attempt : nat)
         (item : Json.value) (items : list Json.value),
    DataTypes.success response = true ->
    Utils.parse_json (DataTypes.output response) = Json.JList (item :: items) ->
    (forall r,
        AdwTest.test_result_of_response response attempt = inr r ->
        (DataTypes.all_passed r = true
         <-> Forall (fun tr => DataTypes.passed tr = true) (DataTypes.results r))
        /\ Forall2 (fun item tr => AdwTest.test_result_of_item item = inr tr)
             (item :: items) (DataTypes.results r)
        /\ DataTypes.attempt r = attempt)
    /\ (forall kv tr,
          Json.lookup "passed" kv = None ->
          AdwTest.test_result_of_item (Json.JDict kv) = inr tr ->
          DataTypes.passed tr = false)
    /\ (Exists (fun item => Json.is_dict item = false) (item :: items) ->
        exists e, AdwTest.test_result_of_response response attempt = inl e).
Proof.
  intros rt response attempt item items Hok Hparsed.
  unfold AdwTest.test_result_of_response. rewrite Hok, Hparsed. simpl negb. cbv iota.
  split; [|split].
  - intros r. destruct (AdwTest.test_results_of (item :: items)) as [e|l] eqn:Hl; [discriminate|].
    intros [= <-]. simpl. split; [|split; [|reflexivity]].
    + rewrite forallb_forall, Forall_forall. split; intros H tr Htr; apply H.
      * apply list_elem_of_In. assumption.
      * apply list_elem_of_In. assumption.
    + apply test_results_of_Forall2. assumption.
  - intros kv tr. apply missing_passed_is_failed.
  - intros Hbad. destruct (test_results_of_raises _ Hbad) as [e ->]. eexists. reflexivity.
Qed.

Lemma test_suites_decide_attempt_witness :
  let response := {| DataTypes.output := Scenario.suites false; DataTypes.success := true;
                     DataTypes.session_id := None |} in
  exists r,
    AdwTest.test_result_of_response (H := lite) response 2 = inr r
    /\ (DataTypes.all_passed r = true
        <-> Forall (fun tr => DataTypes.passed tr = true) (DataTypes.results r))
    /\ DataTypes.all_passed r = false.
Proof.
  intros response.
  destruct (AdwTest.test_result_of_response (H := lite) response 2) as [e|r] eqn:Hr;
    [vm_compute in Hr; discriminate|].
  exists r. split; [reflexivity|].
  split.
  - refine (proj1 (proj1 (test_suites_decide_attempt lite response 2 _ _ _ _) r Hr)).
    + reflexivity.
    + vm_compute. reflexivity.
  - vm_compute in Hr. injection Hr as <-. reflexivity.
Defined.

(** ** Case and white space in the router *)

Section CaseAndSpace.
Import PyStr.

Lemma isspace_lower_char (c : ascii) : isspace (lower_char c) = isspace c.
Proof. destruct c as [[] [] [] [] [] [] [] []]; vm_compute; reflexivity. Qed.

Lemma lower_char_idem (c : ascii) : lower_char (lower_char c) = lower_char c.
Proof. destruct c as [[] [] [] [] [] [] [] []]; vm_compute; reflexivity. Qed.

Lemma lower_idem (s : string) : lower (lower s) = lower s.
Proof. induction s as [|c s IH]; simpl; [reflexivity|]. rewrite lower_char_idem, IH. reflexivity. Qed.

Lemma lstrip_lower (s : string) : lstrip (lower s) = lower (lstrip s).
Proof.
  induction s as [|c s IH]; simpl; [reflexivity|]. rewrite isspace_lower_char.
  destruct (isspace c); [exact IH|reflexivity].
Qed.

Lemma rstrip_lower (s : string) : rstrip (lower s) = lower (rstrip s).
Proof.
  induction s as [|c s IH]; simpl; [reflexivity|]. rewrite IH, isspace_lower_char.
  destruct (rstrip s); simpl; [destruct (isspace c); reflexivity|reflexivity].
Qed.

Lemma strip_lower (s : string) : strip (lower s) = lower (strip s).
Proof. unfold strip. rewrite lstrip_lower, rstrip_lower. reflexivity. Qed.

Lemma rstrip_idem (s : string) : rstrip (rstrip s) = rstrip s.
Proof.
  induction s as [|c s IH]; simpl; [reflexivity|].
  destruct (rstrip s) as [|d r] eqn:Hr.
  - destruct (isspace c) eqn:Hc; simpl; [reflexivity|]. rewrite Hc. reflexivity.
  - change (rstrip (String c (String d r)))
      with (match rstrip (String d r) with
            | EmptyString => if isspace c then EmptyString else String c EmptyString
            | String x y => String c (String x y)
            end).
    rewrite IH. reflexivity.
Qed.

(** What [rstrip] leaves of a text that starts with a character that is
    no white space starts with that character. *)
Lemma rstrip_head (c : ascii) (s : string) :
  isspace c = false -> exists r, rstrip (String c s) = String c r.
Proof.
  intros Hc. simpl. destruct (rstrip s); [rewrite Hc|]; eexists; reflexivity.
Qed.

Lemma lstrip_head (s : string) :
  lstrip s = "" \/ exists c r, lstrip s = String c r /\ isspace c = false.
Proof.
  induction s as [|c s IH]; simpl; [auto|].
  destruct (isspace c) eqn:Hc; [exact IH|]. right. eauto.
Qed.

Lemma strip_idem (s : string) : strip (strip s) = strip s.
Proof.
  unfold strip. destruct (lstrip_head s) as [->|(c & r & -> & Hc)]; [reflexivity|].
  destruct (rstrip_head c r Hc) as [r' Hr]. rewrite Hr. simpl lstrip. rewrite Hc.
  rewrite <- Hr. apply rstrip_idem.
Qed.

Lemma lstrip_spaces (pad s : string) :
  all_chars isspace pad = true -> lstrip (pad +:+ s) = lstrip s.
Proof.
  induction pad as [|c pad IH]; intros Hpad; [reflexivity|].
  simpl in Hpad. apply andb_prop in Hpad as [Hc Hpad].
  rewrite append_cons. simpl. rewrite Hc. auto.
Qed.

Lemma rstrip_spaces_only (pad : string) : all_chars isspace pad = true -> rstrip pad = "".
Proof.
  induction pad as [|c pad IH]; intros Hpad; [reflexivity|].
  simpl in Hpad. apply andb_prop in Hpad as [Hc Hpad].
  simpl. rewrite (IH Hpad), Hc. reflexivity.
Qed.

Lemma rstrip_spaces (s pad : string) :
  all_chars isspace pad = true -> rstrip (s +:+ pad) = rstrip s.
Proof.
  intros Hpad. induction s as [|c s IH].
  - rewrite append_empty_l. apply rstrip_spaces_only. assumption.
  - rewrite append_cons. simpl. rewrite IH. reflexivity.
Qed.

Lemma lstrip_append (s pad : string) :
  all_chars isspace pad = true ->
  rstrip (lstrip (s +:+ pad)) = rstrip (lstrip s).
Proof.
  intros Hpad. induction s as [|c s IH].
  - rewrite append_empty_l. simpl.
    assert (Hl : all_chars isspace (lstrip pad) = true).
    { induction pad as [|x pad IHpad]; [reflexivity|].
      simpl in *. apply andb_prop in Hpad as [Hx Hpad]. rewrite Hx. auto. }
    apply rstrip_spaces_only. assumption.
  - rewrite append_cons. simpl. destruct (isspace c); [exact IH|].
    rewrite <- append_cons. apply rstrip_spaces. assumption.
Qed.

Lemma strip_padding (pad1 s pad2 : string) :
  all_chars isspace pad1 = true -> all_chars isspace pad2 = true ->
  strip (pad1 +:+ s +:+ pad2) = strip s.
Proof.
  intros H1 H2. unfold strip. rewrite lstrip_spaces by assumption.
  apply lstrip_append. assumption.
Qed.

End CaseAndSpace.

(** X10.  Both routers read the body up to case and surrounding white
    space: a body, the body in lower case, the trimmed body and the body
    between runs of white space are routed alike.  So the webhook, which
    trims and lower-cases the body before it asks its router, is answered
    as for the body it received. *)
Theorem routers_ignore_case_and_padding :
  forall (body pad1 pad2 : string),
    PyStr.all_chars PyStr.isspace pad1 = true ->
    PyStr.all_chars PyStr.isspace pad2 = true ->
    TriggerCron.resolve_workflow (PyStr.lower body) = TriggerCron.resolve_workflow body
    /\ TriggerCron.resolve_workflow (pad1 +:+ body +:+ pad2)
       = TriggerCron.resolve_workflow body
    /\ TriggerWebhook.resolve_workflow (PyStr.lower body)
       = TriggerWebhook.resolve_workflow body
    /\ TriggerWebhook.resolve_workflow (pad1 +:+ body +:+ pad2)
       = TriggerWebhook.resolve_workflow body
    /\ TriggerWebhook.resolve_workflow (PyStr.lower (PyStr.strip body))
       = TriggerWebhook.resolve_workflow body.
Proof.
  intros body pad1 pad2 H1 H2.
  assert (Hlower : PyStr.lower (PyStr.strip (PyStr.lower body))
                   = PyStr.lower (PyStr.strip body))
    by (rewrite strip_lower; apply lower_idem).
  assert (Hpad : PyStr.lower (PyStr.strip (pad1 +:+ body +:+ pad2))
                 = PyStr.lower (PyStr.strip body))
    by (rewrite strip_padding by assumption; reflexivity).
  assert (Hboth : PyStr.lower (PyStr.strip (PyStr.lower (PyStr.strip body)))
                  = PyStr.lower (PyStr.strip body))
    by (rewrite strip_lower, lower_idem, strip_idem; reflexivity).
  unfold TriggerCron.resolve_workflow, TriggerWebhook.resolve_workflow.
  rewrite Hlower, Hpad, Hboth. repeat split.
Qed.

Lemma routers_ignore_case_and_padding_witness :
  TriggerCron.resolve_workflow ("  " +:+ "ADW_sdlc now" +:+ PyStr.nl)
  = TriggerCron.resolve_workflow "ADW_sdlc now"
  /\ TriggerCron.resolve_workflow "ADW_sdlc now" = Some "adw_sdlc.py".
Proof.
  split; [|vm_compute; reflexivity].
  refine (proj1 (proj2 (routers_ignore_case_and_padding "ADW_sdlc now" "  " PyStr.nl _ _)));
    reflexivity.
Defined.

(** ** When the routers fire *)

Section RoutersFire.
Import PyStr Router.

Lemma startswith_trans (a b c : string) :
  startswith a b = true -> startswith b c = true -> startswith a c = true.
Proof.
  revert b c. induction a as [|x a IH]; intros [|y b] [|z c] Hab Hbc; simpl in *;
    try reflexivity; try discriminate.
  destruct (Ascii.eqb x y) eqn:Hxy; [|discriminate].
  destruct (Ascii.eqb y z) eqn:Hyz; [|discriminate].
  apply Ascii.eqb_eq in Hxy, Hyz. subst. rewrite Ascii.eqb_refl. eauto.
Qed.

(** Every keyword begins with [adw], is one line free of white space, and
    has a script with a name. *)
Lemma keywords_adw (kw : string) :
  kw ∈ keywords ->
  startswith "adw" kw = true
  /\ splitlines kw = [kw]
  /\ strip kw = kw
  /\ exists script, script_of kw = Some script /\ script <> ""
                    /\ script ∈ WORKFLOW_SCRIPTS.*2.
Proof.
  intros Hkw. unfold keywords in Hkw. vm_compute in Hkw.
  repeat (apply elem_of_cons in Hkw as [->|Hkw];
          [split; [reflexivity|split; [reflexivity|split; [reflexivity|]]];
           eexists; split; [reflexivity|split; [discriminate|in_list]]|]).
  inversion Hkw.
Qed.

Lemma adw_keyword : "adw" ∈ keywords.
Proof. in_list. Qed.

(** The first line that begins with a keyword decides. *)
Lemma first_line_match_some (lines : list string) (kw : string) :
  TriggerWebhook.first_line_match lines = Some kw ->
  kw ∈ keywords /\ Exists (fun line => startswith kw (strip line) = true) lines.
Proof.
  induction lines as [|line lines IH]; [discriminate|].
  rewrite first_line_match_cons.
  destruct (find _ keywords) as [k|] eqn:Hfind.
  - intros [= <-]. apply find_some in Hfind as [Hk Hp].
    split; [apply list_elem_of_In; assumption|]. apply Exists_cons_hd. assumption.
  - intros H. destruct (IH H) as [Hk Hex]. split; [assumption|].
    apply Exists_cons_tl. assumption.
Qed.

Lemma first_line_match_hit (lines : list string) :
  Exists (fun line => startswith "adw" (strip line) = true) lines ->
  exists kw, TriggerWebhook.first_line_match lines = Some kw.
Proof.
  induction 1 as [line lines Hline|line lines _ IH]; rewrite first_line_match_cons.
  - destruct (find_hit (fun kw => startswith kw (strip line)) keywords "adw"
                adw_keyword Hline) as [k ->]. eauto.
  - destruct (find _ keywords); eauto.
Qed.

Lemma answer_script (kw : string) :
  kw ∈ keywords ->
  exists script, TriggerWebhook.answer kw = (script, TriggerWebhook.reason kw)
                 /\ script_of kw = Some script /\ script <> ""
                 /\ script ∈ WORKFLOW_SCRIPTS.*2.
Proof.
  intros Hkw. destruct (keywords_adw kw Hkw) as (_ & _ & _ & script & Hscript & Hne & Hin).
  exists script. unfold TriggerWebhook.answer. rewrite Hscript. auto.
Qed.

(** A body the poller's router fires on begins with [adw]. *)
Lemma cron_fires_adw (body script : string) :
  TriggerCron.resolve_workflow body = Some script ->
  startswith "adw" (lower (strip body)) = true /\ script ∈ WORKFLOW_SCRIPTS.*2.
Proof.
  set (norm := lower (strip body)). unfold TriggerCron.resolve_workflow. fold norm.
  destruct (find _ keywords) as [k|] eqn:Hfind; [|discriminate].
  apply find_some in Hfind as [Hk Hp]. apply list_elem_of_In in Hk.
  destruct (keywords_adw k Hk) as (Hadw & _ & _ & script' & Hscript & _ & Hin).
  rewrite Hscript. intros [= <-]. split; [|assumption].
  apply orb_prop in Hp as [Heq|Hstart].
  - apply String.eqb_eq in Heq. rewrite Heq. assumption.
  - apply (startswith_trans _ _ _ Hadw Hstart).
Qed.

(** A body the webhook's router fires on has a line that begins with
    [adw]. *)
Lemma webhook_fires_adw (body : string) :
  (TriggerWebhook.resolve_workflow body).1 <> "" ->
  Exists (fun line => startswith "adw" (strip line) = true)
    (splitlines (lower (strip body)))
  /\ (TriggerWebhook.resolve_workflow body).1 ∈ WORKFLOW_SCRIPTS.*2.
Proof.
  set (norm := lower (strip body)). unfold TriggerWebhook.resolve_workflow. fold norm.
  destruct (find (fun kw => String.eqb norm kw) keywords) as [k|] eqn:Hexact.
  - intros _. apply find_some in Hexact as [Hk Heq]. apply list_elem_of_In in Hk.
    apply String.eqb_eq in Heq. subst k.
    destruct (keywords_adw norm Hk) as (Hadw & Hlines & Hstrip & _).
    destruct (answer_script norm Hk) as (script & -> & _ & _ & Hin).
    split; [|assumption]. rewrite Hlines. apply Exists_cons_hd. rewrite Hstrip. assumption.
  - destruct (TriggerWebhook.first_line_match (splitlines norm)) as [k|] eqn:Hline;
      [|intros H; contradiction].
    intros _. destruct (first_line_match_some _ _ Hline) as [Hk Hex].
    destruct (keywords_adw k Hk) as (Hadw & _).
    destruct (answer_script k Hk) as (script & -> & _ & _ & Hin).
    split; [|assumption]. eapply Exists_impl; [exact Hex|].
    intros line Hstart. apply (startswith_trans _ _ _ Hadw Hstart).
Qed.

End RoutersFire.

(** X11.  The poller's router fires exactly for the bodies that, trimmed
    and in lower case, begin with [adw]; the webhook's router fires exactly
    for the bodies of which some line does, once trimmed.  A script either
    router answers with is one of the scripts of the table. *)
Theorem routers_fire_on_adw_only :
  forall (body : string),
    let norm := PyStr.lower (PyStr.strip body) in
    ((exists script, TriggerCron.resolve_workflow body = Some script)
     <-> PyStr.startswith "adw" norm = true)
    /\ ((TriggerWebhook.resolve_workflow body).1 <> ""
        <-> Exists (fun line => PyStr.startswith "adw" (PyStr.strip line) = true)
              (PyStr.splitlines norm))
    /\ (forall script, TriggerCron.resolve_workflow body = Some script ->
          script ∈ Router.WORKFLOW_SCRIPTS.*2)
    /\ ((TriggerWebhook.resolve_workflow body).1 <> "" ->
        (TriggerWebhook.resolve_workflow body).1 ∈ Router.WORKFLOW_SCRIPTS.*2).
Proof.
  intros body norm.
  pose proof (cron_fires_adw body) as Hcron.
  pose proof (webhook_fires_adw body) as Hweb. fold norm in Hcron, Hweb.
  split; [|split; [|split]].
  - split; [intros [script Hscript]; apply (Hcron script Hscript)|].
    intros Hadw. unfold TriggerCron.resolve_workflow. fold norm.
    destruct (find_hit (fun kw => String.eqb norm kw || PyStr.startswith kw norm)
                Router.keywords "adw" adw_keyword) as [k Hfind].
    { rewrite Hadw. apply orb_true_r. }
    rewrite Hfind. apply find_some in Hfind as [Hk _]. apply list_elem_of_In in Hk.
    destruct (keywords_adw k Hk) as (_ & _ & _ & script & Hscript & _). eauto.
  - split; [intros H; apply (Hweb H)|].
    intros Hex. unfold TriggerWebhook.resolve_workflow. fold norm.
    destruct (find (fun kw => String.eqb norm kw) Router.keywords) as [k|] eqn:Hexact.
    + apply find_some in Hexact as [Hk _]. apply list_elem_of_In in Hk.
      destruct (answer_script k Hk) as (script & -> & _ & Hne & _). exact Hne.
    + destruct (first_line_match_hit _ Hex) as [k Hline]. rewrite Hline.
      destruct (first_line_match_some _ _ Hline) as [Hk _].
      destruct (answer_script k Hk) as (script & -> & _ & Hne & _). exact Hne.
  - intros script Hscript. apply (Hcron script Hscript).
  - intros H. apply (Hweb H).
Qed.

(** ** The two routers compared *)

Section RoutersAgree.
Import PyStr Router.

(** A text without a line boundary is one line. *)
Lemma splitlines_go_one_line (s : string) :
  all_chars (fun c => negb (is_linebreak c)) s = true ->
  forall cur,
    splitlines_go cur s
    = match String.rev cur +:+ s with EmptyString => [] | line => [line] end.
Proof.
  induction s as [|c s IH]; intros Hs cur; simpl.
  - rewrite append_empty_r. destruct cur as [|x cur]; [reflexivity|].
    destruct (String.rev (String x cur)) eqn:Hrev; [|reflexivity].
    exfalso. revert Hrev. unfold String.rev. simpl. apply rev_app_nonempty. discriminate.
  - simpl in Hs. apply andb_prop in Hs as [Hc Hs].
    destruct (is_linebreak c); [discriminate|].
    rewrite (IH Hs). unfold String.rev. simpl. rewrite !rev_app_append. reflexivity.
Qed.

Lemma splitlines_one_line (s : string) :
  all_chars (fun c => negb (is_linebreak c)) s = true ->
  splitlines s = match s with EmptyString => [] | _ => [s] end.
Proof.
  intros Hs. unfold splitlines. rewrite (splitlines_go_one_line s Hs "").
  change (String.rev "" +:+ s) with s. destruct s; reflexivity.
Qed.

(** The webhook's router answers with the longest keyword the body begins
    with, when there is one. *)
Lemma webhook_longest (body k : string) :
  let norm := lower (strip body) in
  k ∈ keywords ->
  startswith k norm = true ->
  (forall k', k' ∈ keywords -> startswith k' norm = true ->
              String.length k' <= String.length k) ->
  TriggerWebhook.resolve_workflow body = TriggerWebhook.answer k.
Proof.
  intros norm Hk Hpk Hlongest. unfold TriggerWebhook.resolve_workflow. fold norm.
  destruct (find (fun kw => String.eqb norm kw) keywords) as [kw|] eqn:Hexact.
  - apply find_some in Hexact as [Hkw Heq]. apply String.eqb_eq in Heq. subst kw.
    apply list_elem_of_In in Hkw. f_equal. symmetry.
    apply (longest_unique norm k norm Hpk (startswith_refl norm)).
    + apply Hlongest; [assumption|apply startswith_refl].
    + apply startswith_length. assumption.
  - destruct (keywords_clean k Hk) as (Hclean & Hne & _).
    destruct k as [|a0 k0]; [contradiction|].
    destruct norm as [|a rest] eqn:Hnorm; [discriminate|].
    assert (Ha : isspace a = false).
    { simpl in Hpk, Hclean. destruct (Ascii.eqb a0 a) eqn:Ha0; [|discriminate].
      apply Ascii.eqb_eq in Ha0. subst a0.
      apply andb_prop in Hclean as [Ha _]. destruct (isspace a); [discriminate|reflexivity]. }
    assert (Hlb : is_linebreak a = false).
    { destruct (is_linebreak a) eqn:Hlb; [|reflexivity].
      apply linebreak_isspace in Hlb. congruence. }
    destruct (splitlines_go_head (String a rest) "") as [lines Hlines]; [discriminate|].
    unfold splitlines. rewrite Hlines. simpl line_prefix. rewrite Hlb.
    unfold String.rev. simpl String.rev_app. rewrite append_empty_l.
    rewrite first_line_match_cons.
    assert (Hline : forall kw, kw ∈ keywords ->
               startswith kw (strip (String a (line_prefix rest)))
               = startswith kw (String a rest)).
    { intros kw Hkw. destruct (keywords_clean kw Hkw) as (Hcleanw & _).
      rewrite startswith_strip by assumption.
      rewrite <- (startswith_line_prefix kw (String a rest)) by assumption.
      simpl line_prefix. rewrite Hlb. reflexivity. }
    destruct (find_hit (fun kw => startswith kw (strip (String a (line_prefix rest))))
                keywords (String a0 k0) Hk) as [kw Hfindw].
    { rewrite Hline by assumption. assumption. }
    rewrite Hfindw.
    destruct (find_longest _ _ _ keywords_sorted Hfindw) as (Hpw & Hkw & Hmaxw).
    rewrite Hline in Hpw by assumption. f_equal. symmetry.
    apply (longest_unique (String a rest) (String a0 k0) kw Hpk Hpw).
    + apply Hlongest; assumption.
    + apply Hmaxw; [assumption|]. rewrite Hline by assumption. assumption.
Qed.

(** The poller's router answers with the longest keyword the body begins
    with. *)
Lemma cron_longest (body script : string) :
  let norm := lower (strip body) in
  TriggerCron.resolve_workflow body = Some script ->
  exists k, k ∈ keywords /\ startswith k norm = true /\ script_of k = Some script
            /\ forall k', k' ∈ keywords -> startswith k' norm = true ->
                          String.length k' <= String.length k.
Proof.
  intros norm. unfold TriggerCron.resolve_workflow. fold norm.
  destruct (find _ keywords) as [k|] eqn:Hfind; [|discriminate].
  intros Hscript. exists k.
  destruct (find_longest _ _ _ keywords_sorted Hfind) as (Hpk & Hk & Hmax).
  assert (Hmatch : forall kw, String.eqb norm kw || startswith kw norm = true
                              <-> startswith kw norm = true).
  { intros kw. split; [|intros ->; apply orb_true_r].
    intros H. apply orb_prop in H as [H|H]; [|assumption].
    apply String.eqb_eq in H. subst kw. apply startswith_refl. }
  split; [assumption|]. split; [apply Hmatch; assumption|]. split; [assumption|].
  intros k' Hk' Hpk'. apply Hmax; [assumption|]. apply Hmatch. assumption.
Qed.

End RoutersAgree.

(** X12.  Whenever the poller's router fires, the webhook's router
    answers with the same script; and on a body that is one line (once
    trimmed) the two routers agree altogether, the webhook answering the
    empty script name where the poller answers [None].  On other bodies the
    webhook can fire alone, on a keyword at the start of a later line. *)
Theorem webhook_follows_poller :
  forall (body : string),
    (forall script,
        TriggerCron.resolve_workflow body = Some script ->
        (TriggerWebhook.resolve_workflow body).1 = script)
    /\ (PyStr.all_chars (fun c => negb (PyStr.is_linebreak c))
          (PyStr.lower (PyStr.strip body)) = true ->
        (TriggerWebhook.resolve_workflow body).1
        = default "" (TriggerCron.resolve_workflow body))
    /\ (TriggerCron.resolve_workflow ("please" +:+ PyStr.nl +:+ "adw_patch") = None
        /\ (TriggerWebhook.resolve_workflow ("please" +:+ PyStr.nl +:+ "adw_patch")).1
           = "adw_patch.py").
Proof.
  intros body.
  assert (Hfollows : forall script,
             TriggerCron.resolve_workflow body = Some script ->
             (TriggerWebhook.resolve_workflow body).1 = script).
  { intros script Hcron. destruct (cron_longest body script Hcron)
      as (k & Hk & Hpk & Hscript & Hlongest).
    rewrite (webhook_longest body k Hk Hpk Hlongest).
    unfold TriggerWebhook.answer. rewrite Hscript. reflexivity. }
  split; [exact Hfollows|]. split; [|split; vm_compute; reflexivity].
  intros Hline.
  destruct (TriggerCron.resolve_workflow body) as [script|] eqn:Hcron.
  { simpl. apply Hfollows. reflexivity. }
  simpl. destruct (String.eqb (TriggerWebhook.resolve_workflow body).1 "") eqn:Hempty;
    [apply String.eqb_eq; assumption|].
  apply String.eqb_neq in Hempty. exfalso.
  destruct (webhook_fires_adw body Hempty) as [Hex _].
  rewrite (splitlines_one_line _ Hline) in Hex.
  destruct (PyStr.lower (PyStr.strip body)) as [|c norm] eqn:Hnorm; [inversion Hex|].
  apply Exists_cons in Hex as [Hadw|Hex]; [|inversion Hex].
  assert (Hstrip : PyStr.strip (String c norm) = String c norm).
  { rewrite <- Hnorm. rewrite strip_lower, strip_idem. reflexivity. }
  rewrite Hstrip in Hadw.
  destruct (find_hit (fun kw => String.eqb (String c norm) kw
                                || PyStr.startswith kw (String c norm))
              Router.keywords "adw" adw_keyword) as [k Hfind].
  { rewrite Hadw. apply orb_true_r. }
  unfold TriggerCron.resolve_workflow in Hcron. rewrite Hnorm, Hfind in Hcron.
  apply find_some in Hfind as [Hk _]. apply list_elem_of_In in Hk.
  destruct (keywords_adw k Hk) as (_ & _ & _ & script & Hscript & _).
  rewrite Hscript in Hcron. discriminate.
Qed.

(** ** [str.replace] *)

Section Replace.
Import PyStr.

Lemma startswith_cons (a b : ascii) (p s : string) :
  startswith (String a p) (String b s) = Ascii.eqb a b && startswith p s.
Proof. simpl. destruct (Ascii.eqb a b); reflexivity. Qed.

Lemma startswith_append (p s : string) : startswith p (p +:+ s) = true.
Proof.
  induction p as [|c p IH]; [reflexivity|].
  rewrite append_cons, startswith_cons, Ascii.eqb_refl. exact IH.
Qed.

(** The characters still to pass are passed. *)
Lemma replace_go_skip (old new x s : string) :
  replace_go old new (String.length x) (x +:+ s) = replace_go old new 0 s.
Proof.
  induction x as [|c x IH]; [reflexivity|].
  rewrite append_cons. simpl. exact IH.
Qed.

(** An occurrence at the start is replaced, and the scan goes on behind
    it. *)
Lemma replace_prefix (old new s : string) :
  old <> "" ->
  replace old new (old +:+ s) = new +:+ replace old new s.
Proof.
  intros Hold. destruct old as [|c old]; [contradiction|].
  unfold replace. rewrite append_cons.
  change (replace_go (String c old) new 0 (String c (old +:+ s)))
    with (if startswith (String c old) (String c (old +:+ s))
          then new +:+ replace_go (String c old) new (String.length (String c old) - 1)
                         (old +:+ s)
          else String c (replace_go (String c old) new 0 (old +:+ s))).
  rewrite <- append_cons, startswith_append. simpl String.length.
  replace (S (String.length old) - 1) with (String.length old) by lia.
  rewrite replace_go_skip. reflexivity.
Qed.

(** A text without an occurrence is left as it is. *)
Lemma replace_absent (old new s : string) :
  contains old s = false -> replace old new s = s.
Proof.
  unfold replace. induction s as [|c s IH]; [reflexivity|].
  intros Hs. simpl in Hs. apply orb_false_elim in Hs as [Hhere Hrest].
  change (replace_go old new 0 (String c s))
    with (if startswith old (String c s)
          then new +:+ replace_go old new (String.length old - 1) s
          else String c (replace_go old new 0 s)).
  rewrite Hhere, (IH Hrest). reflexivity.
Qed.

(** A text that lacks a character of [old] has no occurrence of it. *)
Lemma startswith_has (c : ascii) (old s : string) :
  all_chars (fun x => negb (Ascii.eqb x c)) s = true ->
  all_chars (fun x => negb (Ascii.eqb x c)) old = false ->
  startswith old s = false.
Proof.
  revert s. induction old as [|a old IH]; intros s Hs Hold; [discriminate|].
  destruct s as [|b s]; [reflexivity|].
  simpl in Hs. apply andb_prop in Hs as [Hb Hs].
  rewrite startswith_cons. destruct (Ascii.eqb a b) eqn:Hab; [|reflexivity].
  apply Ascii.eqb_eq in Hab. subst b. simpl in Hold. rewrite Hb in Hold.
  simpl. apply IH; assumption.
Qed.

Lemma contains_has (c : ascii) (old s : string) :
  all_chars (fun x => negb (Ascii.eqb x c)) s = true ->
  all_chars (fun x => negb (Ascii.eqb x c)) old = false ->
  contains old s = false.
Proof.
  intros Hs Hold. induction s as [|b s IH].
  - simpl. rewrite (startswith_has c old "" Hs Hold). reflexivity.
  - simpl. rewrite (startswith_has c old (String b s) Hs Hold).
    simpl in Hs. apply andb_prop in Hs as [_ Hs]. auto.
Qed.

Lemma all_chars_append (p : ascii -> bool) (a b : string) :
  all_chars p (a +:+ b) = all_chars p a && all_chars p b.
Proof.
  induction a as [|c a IH]; [reflexivity|]. rewrite append_cons. simpl.
  rewrite IH, andb_assoc. reflexivity.
Qed.

(** No occurrence of [.git] begins in [s] and ends in a [.git] put after
    it. *)
Lemma git_no_straddle (s : string) :
  s <> "" -> startswith ".git" s = false -> startswith ".git" (s +:+ ".git") = false.
Proof.
  intros Hne Hs. destruct s as [|a [|b [|c [|d s]]]]; [contradiction|..];
    rewrite ?append_cons, ?append_empty_l, ?startswith_cons in *.
  - change (startswith "git" ".git") with false. rewrite andb_false_r. reflexivity.
  - change (startswith "it" ".git") with false. rewrite !andb_false_r. reflexivity.
  - change (startswith "t" ".git") with false. rewrite !andb_false_r. reflexivity.
  - exact Hs.
Qed.

Lemma replace_git_suffix (p : string) :
  contains ".git" p = false -> replace ".git" "" (p +:+ ".git") = p.
Proof.
  unfold replace. induction p as [|c p IH]; intros Hp; [reflexivity|].
  simpl in Hp. apply orb_false_elim in Hp as [Hhere Hrest].
  rewrite append_cons.
  change (replace_go ".git" "" 0 (String c (p +:+ ".git")))
    with (if startswith ".git" (String c (p +:+ ".git"))
          then "" +:+ replace_go ".git" "" (String.length ".git" - 1) (p +:+ ".git")
          else String c (replace_go ".git" "" 0 (p +:+ ".git"))).
  rewrite <- append_cons, (git_no_straddle (String c p)) by (discriminate || assumption).
  rewrite (IH Hrest). reflexivity.
Qed.

End Replace.

(** X13.  The repository path is read off both forms of a GitHub URL:
    for [owner/repo] without a colon and without [.git] inside,
    [https://github.com/owner/repo.git], [https://github.com/owner/repo]
    and [git@github.com:owner/repo.git] all give [owner/repo].  Every
    [.git] is removed, not only the suffix: a name with [.git] inside
    loses it. *)
Theorem repo_path_of_url :
  forall (path : string),
    PyStr.all_chars (fun c => negb (Ascii.eqb c ":")) path = true ->
    PyStr.contains ".git" path = false ->
    Github.extract_repo_path ("https://github.com/" +:+ path +:+ ".git") = path
    /\ Github.extract_repo_path ("https://github.com/" +:+ path) = path
    /\ Github.extract_repo_path ("git@github.com:" +:+ path +:+ ".git") = path
    /\ Github.extract_repo_path "https://github.com/acme/acme.github.io" = "acme/acmehub.io".
Proof.
  intros path Hcolon Hgit.
  assert (Hsuffix : PyStr.all_chars (fun c => negb (Ascii.eqb c ":")) (path +:+ ".git") = true)
    by (rewrite all_chars_append, Hcolon; reflexivity).
  split; [|split; [|split]].
  - unfold Github.extract_repo_path.
    change (PyStr.startswith "git@github.com:" ("https://github.com/" +:+ path +:+ ".git"))
      with false. cbv iota.
    rewrite replace_prefix by discriminate. rewrite append_empty_l.
    rewrite (replace_absent "https://github.com/") by (apply (contains_has ":"); auto).
    apply replace_git_suffix. assumption.
  - unfold Github.extract_repo_path.
    change (PyStr.startswith "git@github.com:" ("https://github.com/" +:+ path)) with false.
    cbv iota. rewrite replace_prefix by discriminate. rewrite append_empty_l.
    rewrite (replace_absent "https://github.com/") by (apply (contains_has ":"); auto).
    apply replace_absent. assumption.
  - unfold Github.extract_repo_path.
    rewrite (startswith_append "git@github.com:").
    rewrite replace_prefix by discriminate. rewrite append_empty_l.
    rewrite (replace_absent "git@github.com:") by (apply (contains_has ":"); auto).
    apply replace_git_suffix. assumption.
  - vm_compute. reflexivity.
Qed.

Lemma repo_path_of_url_witness :
  Github.extract_repo_path ("https://github.com/" +:+ "acme/app" +:+ ".git") = "acme/app"
  /\ Github.extract_repo_path ("git@github.com:" +:+ "acme/app" +:+ ".git") = "acme/app".
Proof.
  destruct (repo_path_of_url "acme/app") as (Hhttps & _ & Hssh & _); [reflexivity..|].
  split; assumption.
Defined.

(** ** The output file and its companion *)

Section Companion.
Import PyStr DataTypes Proc Agent.

Lemma replace_go_unfold (old new : string) (c : ascii) (s : string) :
  replace_go old new 0 (String c s)
  = if startswith old (String c s)
    then new +:+ replace_go old new (String.length old - 1) s
    else String c (replace_go old new 0 s).
Proof. reflexivity. Qed.

(** What is passed over is not written. *)
Lemma replace_go_length (old new : string) :
  String.length new <= String.length old ->
  forall s k, k <= String.length s ->
    String.length (replace_go old new k s) + k <= String.length s.
Proof.
  intros Hnew. induction s as [|c s IH]; intros k Hk; [simpl in *; lia|].
  destruct k as [|k].
  - rewrite replace_go_unfold. destruct (startswith old (String c s)) eqn:Hstart.
    + apply startswith_length in Hstart. simpl in Hstart.
      rewrite length_append_sum.
      assert (H := IH (String.length old - 1) ltac:(lia)). simpl. lia.
    + simpl. assert (H := IH 0 ltac:(lia)). lia.
  - simpl in *. assert (H := IH k ltac:(lia)). lia.
Qed.

(** Replacing an occurrence by a shorter text makes the text shorter. *)
Lemma replace_shortens (old new s : string) :
  String.length new < String.length old ->
  contains old s = true ->
  String.length (replace old new s) < String.length s.
Proof.
  intros Hnew. unfold replace. induction s as [|c s IH]; intros Hs.
  - simpl in Hs. rewrite orb_false_r in Hs. apply startswith_length in Hs. simpl in Hs. lia.
  - rewrite replace_go_unfold. simpl in Hs.
    destruct (startswith old (String c s)) eqn:Hstart.
    + apply startswith_length in Hstart. simpl in Hstart. rewrite length_append_sum.
      assert (H := replace_go_length old new ltac:(lia) s (String.length old - 1) ltac:(lia)).
      simpl. lia.
    + simpl in Hs. simpl. apply IH in Hs. lia.
Qed.

Lemma contains_append_r (old a b : string) :
  contains old b = true -> contains old (a +:+ b) = true.
Proof.
  intros Hb. induction a as [|c a IH]; [exact Hb|].
  rewrite append_cons. simpl. rewrite IH. apply orb_true_r.
Qed.

Lemma join2_suffix (path b : string) :
  startswith "/" b = false -> exists pre, join2 path b = pre +:+ b.
Proof.
  intros Hb. unfold join2. rewrite Hb.
  destruct (String.eqb path "" || ends_in "/" path).
  - exists path. reflexivity.
  - exists (path +:+ "/"). rewrite append_assoc. reflexivity.
Qed.

End Companion.


(** ** Pipelines of phase scripts *)

Section Pipelines.
Import DataTypes Proc Orchestrator Further.
Context `{E : Env}.

(** The commands of the phases still to run. *)
Lemma run_phases_spawns (issue_number adw_id : string) (phases : list string) :
  forall (first : bool) (w w' : World) (o : outcome unit),
    run_phases first phases issue_number adw_id w = (o, w') ->
    exists ran,
      spawned w' = rev ran ++ spawned w
      /\ map cmd ran
         = take (length ran)
             (match phases with
              | [] => []
              | p :: rest =>
                  phase_command first issue_number adw_id p
                    :: map (phase_command false issue_number adw_id) rest
              end)
      /\ Forall (fun sp => env sp = None) ran
      /\ pipeline_ended o ran (length phases)
      /\ files w' = files w
      /\ state_files w' = state_files w.
Proof.
  induction phases as [|p rest IH]; intros first w w' o Hrun.
  { simpl in Hrun. injection Hrun as <- <-. exists []. repeat split; constructor. }
  simpl in Hrun. unfold run_phase in Hrun at 1.
  unfold mbind at 1 2, M_bind at 1 2, run at 1 in Hrun.
  fold (phase_command first issue_number adw_id p) in Hrun.
  set (c := phase_command first issue_number adw_id p) in *.
  destruct (subprocess_run (tick w) c None) as [e|done] eqn:Hasked.
  - injection Hrun as <- <-.
    exists [{| cmd := c; env := None; result := inl e |}].
    split; [reflexivity|]. split; [reflexivity|]. split; [repeat constructor|].
    split; [|split; reflexivity].
    exists [], {| cmd := c; env := None; result := inl e |}. repeat split. constructor.
  - unfold mret, M_ret in Hrun. cbv beta iota in Hrun.
    destruct (returncode done =? 0)%Z eqn:Hrc.
    + apply Z.eqb_eq in Hrc.
      destruct (IH false _ w' o Hrun) as (ran & Hspawned & Hcmds & Henv & Hended & Hf & Hs).
      exists ({| cmd := c; env := None; result := inr done |} :: ran).
      assert (Hzero : returned_zero {| cmd := c; env := None; result := inr done |})
        by (exists done; split; [reflexivity|assumption]).
      split; [rewrite Hspawned; simpl; rewrite <- app_assoc; reflexivity|].
      split.
      { simpl. f_equal. rewrite Hcmds. destruct rest as [|q rest']; [|reflexivity].
        simpl. destruct (length ran); reflexivity. }
      split; [constructor; [reflexivity|assumption]|].
      split; [|split; assumption].
      destruct o as [[]|e|code]; simpl in *.
      * destruct Hended as [Hlen Hall]. split; [lia|]. constructor; assumption.
      * destruct Hended as (earlier & last & Hran & Hall & Hlast).
        exists ({| cmd := c; env := None; result := inr done |} :: earlier), last.
        split; [rewrite Hran; reflexivity|]. split; [constructor; assumption|assumption].
      * destruct Hended as (Hcode & earlier & last & done' & Hran & Hall & Hlast & Hrc').
        split; [assumption|].
        exists ({| cmd := c; env := None; result := inr done |} :: earlier), last, done'.
        split; [rewrite Hran; reflexivity|]. split; [constructor; assumption|].
        split; assumption.
    + apply Z.eqb_neq in Hrc. injection Hrun as <- <-.
      exists [{| cmd := c; env := None; result := inr done |}].
      split; [reflexivity|]. split; [reflexivity|]. split; [repeat constructor|].
      split; [|split; reflexivity].
      split; [assumption|].
      exists [], {| cmd := c; env := None; result := inr done |}, done.
      repeat split. constructor.
Qed.

(** A pipeline of three phases: the third is spawned after the first two
    have returned 0. *)
Lemma three_phases (p1 p2 p3 issue_number adw_id : string) (w w' : World)
    (o : outcome unit) :
  run_pipeline [p1; p2; p3] issue_number adw_id w = (o, w') ->
  exists ran,
    spawned w' = rev ran ++ spawned w
    /\ map cmd ran
       = take (length ran)
           [phase_command true issue_number adw_id p1;
            phase_command false issue_number adw_id p2;
            phase_command false issue_number adw_id p3]
    /\ (forall third, ran !! 2 = Some third ->
          exists first second,
            ran = [first; second; third]
            /\ returned_zero first /\ returned_zero second)
    /\ (o = Done () -> length ran = 3 /\ Forall returned_zero ran)
    /\ (o <> Done () -> exit_code o <> 0%Z).
Proof.
  intros Hrun.
  destruct (run_phases_spawns issue_number adw_id [p1; p2; p3] true w w' o Hrun)
    as (ran & Hspawned & Hcmds & _ & Hended & _).
  exists ran. split; [assumption|]. split; [exact Hcmds|].
  assert (Hlen : length ran <= 3).
  { apply (f_equal length) in Hcmds. rewrite length_map, length_take in Hcmds.
    simpl in Hcmds. lia. }
  split; [|split].
  - intros third Hthird.
    destruct ran as [|a [|b [|c [|d ran]]]]; simpl in Hthird, Hlen; try discriminate;
      try lia.
    injection Hthird as ->. exists a, b. split; [reflexivity|].
    destruct o as [[]|e|code]; simpl in Hended.
    + destruct Hended as [_ Hall].
      apply Forall_cons in Hall as [Ha Hall]. apply Forall_cons in Hall as [Hb _]. auto.
    + destruct Hended as (earlier & last & Hran & Hall & _).
      destruct earlier as [|x [|y [|z earlier]]]; try discriminate.
      * injection Hran as -> -> _.
        apply Forall_cons in Hall as [Ha Hall]. apply Forall_cons in Hall as [Hb _]. auto.
      * apply (f_equal length) in Hran. simpl in Hran. rewrite length_app in Hran.
        simpl in Hran. lia.
    + destruct Hended as (_ & earlier & last & done & Hran & Hall & _).
      destruct earlier as [|x [|y [|z earlier]]]; try discriminate.
      * injection Hran as -> -> _.
        apply Forall_cons in Hall as [Ha Hall]. apply Forall_cons in Hall as [Hb _]. auto.
      * apply (f_equal length) in Hran. simpl in Hran. rewrite length_app in Hran.
        simpl in Hran. lia.
  - intros ->. exact Hended.
  - destruct o as [[]|e|code]; [intros H; contradiction|intros _; discriminate|].
    intros _. simpl. destruct Hended as [Hcode _]. exact Hcode.
Qed.

End Pipelines.

(** X15.  A pipeline runs its phase scripts in order, each as
    [uv run <script>] in the host environment, the first with the issue
    number and the workflow id and the others with the id alone, and stops
    at the first phase that does not return 0: it then exits with that
    phase's return code (or the exception of [subprocess.run] goes up), and
    no later phase is spawned.  It returns only when every phase was
    spawned and returned 0.  The pipeline itself writes no file. *)
Theorem pipeline_stops_at_first_failure :
  forall (E : Proc.Env) (phases : list string) (issue_number adw_id : string)
         (w : Proc.World),
    let ended := Orchestrator.run_pipeline phases issue_number adw_id w in
    exists ran,
      Proc.spawned ended.2 = rev ran ++ Proc.spawned w
      /\ map Proc.cmd ran
         = take (length ran) (Orchestrator.pipeline_commands phases issue_number adw_id)
      /\ Forall (fun sp => Proc.env sp = None) ran
      /\ Further.pipeline_ended ended.1 ran (length phases)
      /\ Proc.files ended.2 = Proc.files w
      /\ Proc.state_files ended.2 = Proc.state_files w.
Proof.
  intros E phases issue_number adw_id w. cbv zeta.
  destruct (Orchestrator.run_pipeline phases issue_number adw_id w) as [o w'] eqn:Hrun.
  exact (run_phases_spawns issue_number adw_id phases true w w' o Hrun).
Qed.

(** X16.  The plan-build-test and plan-build-review workflows: without
    an issue number on the command line the process exits with code 1 and
    spawns nothing.  Otherwise [adw_plan.py] is run with the issue number
    and the workflow id (the one given, or a fresh one), and the third
    phase, [adw_test.py] or [adw_review.py], is spawned only after the plan
    and build phases have both returned 0.  The workflow returns only when
    all three phases returned 0, and ends with a status that is not 0
    otherwise. *)
Theorem last_phase_needs_plan_and_build :
  forall (E : Proc.Env) (argv0 issue_number fresh : string) (rest : list string)
         (w : Proc.World),
    let adw_id := match rest with adw_id :: _ => adw_id | [] => fresh end in
    let after_build (last : string) (ended : Proc.outcome unit * Proc.World) :=
      exists ran,
        Proc.spawned ended.2 = rev ran ++ Proc.spawned w
        /\ map Proc.cmd ran
           = take (length ran)
               [Orchestrator.phase_command true issue_number adw_id "adw_plan.py";
                Orchestrator.phase_command false issue_number adw_id "adw_build.py";
                Orchestrator.phase_command false issue_number adw_id last]
        /\ (forall third, ran !! 2 = Some third ->
              exists plan build,
                ran = [plan; build; third]
                /\ Further.returned_zero plan /\ Further.returned_zero build)
        /\ (ended.1 = Proc.Done () -> length ran = 3 /\ Forall Further.returned_zero ran)
        /\ (ended.1 <> Proc.Done () -> Proc.exit_code ended.1 <> 0%Z) in
    AdwPlanBuildTest.main [argv0] fresh w = (Proc.Exited 1, w)
    /\ AdwPlanBuildReview.main [argv0] fresh w = (Proc.Exited 1, w)
    /\ after_build "adw_test.py"
         (AdwPlanBuildTest.main (argv0 :: issue_number :: rest) fresh w)
    /\ after_build "adw_review.py"
         (AdwPlanBuildReview.main (argv0 :: issue_number :: rest) fresh w).
Proof.
  intros E argv0 issue_number fresh rest w adw_id after_build.
  split; [reflexivity|]. split; [reflexivity|]. split.
  - unfold after_build.
    destruct (AdwPlanBuildTest.main (argv0 :: issue_number :: rest) fresh w)
      as [o w'] eqn:Hrun.
    exact (three_phases _ _ _ _ _ _ _ _ Hrun).
  - unfold after_build.
    destruct (AdwPlanBuildReview.main (argv0 :: issue_number :: rest) fresh w)
      as [o w'] eqn:Hrun.
    exact (three_phases _ _ _ _ _ _ _ _ Hrun).
Qed.

(** ** Errors reported on the issue *)

Section CheckError.
Import DataTypes Proc Workflow.
Context `{E : Env} `{rt : Runtime}.

Lemma same_states_check_error (error_or_response : option string + AgentPromptResponse)
    (issue_number adw_id agent_name error_prefix : string) :
  steps same_states
    (check_error error_or_response issue_number adw_id agent_name error_prefix).
Proof.
  unfold check_error.
  destruct (match error_or_response with
            | inr response => if negb (success response) then Some (output response) else None
            | inl error => error
            end) as [e|]; [|apply steps_ret; apply _].
  destruct (String.eqb e ""); [apply steps_ret; apply _|].
  apply steps_bind; [apply _|apply same_states_make_issue_comment|intros _].
  apply steps_exit; apply _.
Qed.

(** [check_error] returns only when there is no error to report. *)
Lemma check_error_done (error_or_response : option string + AgentPromptResponse)
    (issue_number adw_id agent_name error_prefix : string) (w w' : World) :
  check_error error_or_response issue_number adw_id agent_name error_prefix w
  = (Done (), w') ->
  w' = w
  /\ match error_or_response with
     | inr response => success response = true \/ output response = ""
     | inl error => error = None \/ error = Some ""
     end.
Proof.
  unfold check_error. destruct error_or_response as [[e|]|response]; simpl.
  - destruct (String.eqb e "") eqn:He.
    + intros [= <-]. apply String.eqb_eq in He. subst. auto.
    + intros Hrun. apply bind_run in Hrun as [(u & w1 & _ & [=])|[(x & _ & [=])|(c & _ & [=])]].
  - intros [= <-]. auto.
  - destruct (success response); simpl.
    + intros [= <-]. auto.
    + destruct (String.eqb (output response) "") eqn:He.
      * intros [= <-]. apply String.eqb_eq in He. auto.
      * intros Hrun.
        apply bind_run in Hrun as [(u & w1 & _ & [=])|[(x & _ & [=])|(c & _ & [=])]].
Qed.

End CheckError.

(** X17.  [check_error] lets pass a missing error, a successful response,
    and also an empty error message or a failed response with an empty
    output: nothing is done then.  For any other error the process does
    not go on: the error is posted on the issue with its prefix and the
    process exits with 1, or, when the comment cannot be posted, ends with
    another status that is not 0. *)
Theorem check_error_passes_or_ends :
  forall (E : Proc.Env) (error_or_response : option string + DataTypes.AgentPromptResponse)
         (issue_number adw_id agent_name error_prefix : string) (w : Proc.World),
    let error :=
      match error_or_response with
      | inr response =>
          if DataTypes.success response then None else Some (DataTypes.output response)
      | inl error => error
      end in
    let ended :=
      Workflow.check_error error_or_response issue_number adw_id agent_name error_prefix w in
    (error = None \/ error = Some "" -> ended = (Proc.Done (), w))
    /\ (forall e, error = Some e -> e <> "" ->
          ended.1 <> Proc.Done ()
          /\ Proc.exit_code ended.1 <> 0%Z
          /\ Proc.state_files ended.2 = Proc.state_files w
          /\ (Github.tracker_ok ->
              ended.1 = Proc.Exited 1
              /\ posted issue_number
                   (WorkflowOps.format_issue_message adw_id agent_name
                      ("❌ " +:+ error_prefix +:+ ": " +:+ e) None) ended.2)).
Proof.
  intros E error_or_response issue_number adw_id agent_name error_prefix w error ended.
  assert (Herror : error
                   = match error_or_response with
                     | inr response =>
                         if negb (DataTypes.success response)
                         then Some (DataTypes.output response) else None
                     | inl error => error
                     end).
  { subst error. destruct error_or_response as [|response]; [reflexivity|].
    destruct (DataTypes.success response); reflexivity. }
  subst ended. unfold Workflow.check_error. rewrite <- Herror. clear Herror.
  generalize error. clear error. intros error. split.
  - intros [->| ->]; reflexivity.
  - intros e -> He. apply String.eqb_neq in He. rewrite He.
    match goal with |- context [(Github.make_issue_comment ?i ?c ≫= ?k) w] =>
      destruct ((Github.make_issue_comment i c ≫= k) w) as [o w'] eqn:Hrun;
      set (text := c) in *
    end.
    simpl.
    apply bind_run in Hrun as [(u & w1 & Hstep & Hrun)|[(x & Hstep & ->)|(c & Hstep & ->)]];
      pose proof (same_states_make_issue_comment _ _ _ _ _ Hstep) as Hsame;
      unfold same_states in Hsame.
    + injection Hrun as <- <-. split; [discriminate|]. split; [discriminate|].
      split; [assumption|]. intros Hok. split; [reflexivity|].
      destruct (make_issue_comment_posted issue_number text w Hok) as (w2 & Hposted & Hseen).
      rewrite Hposted in Hstep. inversion Hstep. subst. exact Hseen.
    + split; [discriminate|]. split; [discriminate|]. split; [assumption|].
      intros Hok. exfalso.
      destruct (make_issue_comment_posted issue_number text w Hok) as (w2 & Hposted & _).
      rewrite Hposted in Hstep. discriminate.
    + split; [discriminate|]. split.
      { intros Hcode. discriminate (make_issue_comment_outcome _ _ _ _ _ Hstep Hcode). }
      split; [assumption|]. intros Hok. exfalso.
      destruct (make_issue_comment_posted issue_number text w Hok) as (w2 & Hposted & _).
      rewrite Hposted in Hstep. discriminate.
Qed.

(** ** Steps that fail loudly *)

Section Loud.
Import DataTypes Proc Agent Further.
Context `{E : Env} `{rt : Runtime}.

Lemma loud_ret {A : Type} (a : A) : fails_loudly (mret a).
Proof. intros w o w' [= <- <-] _. eauto. Qed.

Lemma loud_raise {A : Type} (e : exn) : fails_loudly (raise (A := A) e).
Proof. intros w o w' [= <- <-]. discriminate. Qed.

Lemma loud_exit {A : Type} (c : Z) : c <> 0%Z -> fails_loudly (sys_exit (A := A) c).
Proof. intros Hc w o w' [= <- <-] Hcode. contradiction. Qed.

Lemma loud_bind {A B : Type} (m : M A) (f : A -> M B) :
  fails_loudly m -> (forall a, fails_loudly (f a)) -> fails_loudly (m ≫= f).
Proof.
  intros Hm Hf w o w' Hrun Hcode.
  apply bind_run in Hrun as [(a & w1 & _ & Hrun)|[(e & _ & ->)|(c & Hstep & ->)]].
  - exact (Hf a w1 o w' Hrun Hcode).
  - discriminate.
  - destruct (Hm w _ w' Hstep Hcode) as [a [=]].
Qed.

Lemma loud_make_issue_comment (issue_id comment : string) :
  fails_loudly (Github.make_issue_comment issue_id comment).
Proof.
  intros w o w' Hrun Hcode. exists ().
  exact (make_issue_comment_outcome _ _ _ _ _ Hrun Hcode).
Qed.

(** The agent invocation never ends in [sys.exit]. *)
Lemma prompt_claude_code_ends (request : AgentPromptRequest) (w w' : World)
    (o : outcome AgentPromptResponse) :
  prompt_claude_code request w = (o, w') ->
  (exists response, o = Done response) \/ (exists e, o = Raised e).
Proof.
  unfold prompt_claude_code. intros Hrun.
  apply bind_run in Hrun as [(msg & w0 & Hprobe & Hrun)|[(e & _ & ->)|(c & Hprobe & _)]];
    [|eauto|].
  - destruct msg as [msg|]; [injection Hrun as <- _; eauto|].
    apply bind_run in Hrun as [(u & w1 & _ & Hrun)|[(e & _ & ->)|(c & Hsave & _)]]; [|eauto|].
    + apply bind_run in Hrun as [(text & w2 & _ & Hrun)|[(e & _ & ->)|(c & Hcompose & _)]];
        [|eauto|].
      * destruct (guarded_run_answers request (command_line request text) get_claude_env w2)
          as (response & w3 & Hanswer).
        rewrite Hanswer in Hrun. injection Hrun as <- _. eauto.
      * destruct (composed_prompt_done request w1) as (text & w2 & Hdone & _).
        rewrite Hdone in Hcompose. discriminate.
    + exfalso. unfold save_prompt in Hsave.
      destruct (Re.re_match _ _) as [[cap rest]|]; discriminate.
  - exfalso. unfold check_claude_installed, try_except, mbind, M_bind, run in Hprobe.
    destruct (subprocess_run _ _ _) as [e|done].
    + destruct e; discriminate.
    + destruct (returncode done =? 0)%Z; discriminate.
Qed.

Lemma loud_execute_template (request : AgentTemplateRequest) :
  fails_loudly (execute_template request).
Proof.
  intros w o w' Hrun Hcode. unfold execute_template in Hrun.
  destruct (prompt_claude_code_ends _ _ _ _ Hrun) as [[response ->]|[e ->]];
    [eauto|discriminate].
Qed.

Lemma loud_git_commit (agent_name adw_id : string) :
  fails_loudly (GitOps.git_commit agent_name adw_id).
Proof.
  unfold GitOps.git_commit. apply loud_bind; [apply loud_execute_template|].
  intros response. destruct (success response); apply loud_ret.
Qed.

Lemma loud_check_error (error_or_response : option string + AgentPromptResponse)
    (issue_number adw_id agent_name error_prefix : string) :
  fails_loudly
    (Workflow.check_error error_or_response issue_number adw_id agent_name error_prefix).
Proof.
  unfold Workflow.check_error.
  destruct (match error_or_response with
            | inr response => if negb (success response) then Some (output response) else None
            | inl error => error
            end) as [e|]; [|apply loud_ret].
  destruct (String.eqb e ""); [apply loud_ret|].
  apply loud_bind; [apply loud_make_issue_comment|intros _; apply loud_exit; discriminate].
Qed.

Lemma loud_save_state (state : ADWStateData) : fails_loudly (State.save_state state).
Proof. intros w o w' Hrun _. rewrite save_state_done in Hrun. injection Hrun as <- _. eauto. Qed.

End Loud.

Create HintDb loud.
Create HintDb quiet.

#[global] Hint Resolve loud_ret loud_raise loud_make_issue_comment loud_execute_template
  loud_git_commit loud_check_error loud_save_state : loud.
#[global] Hint Resolve same_states_make_issue_comment same_states_execute_template
  same_states_git_commit same_states_check_error same_states_post_review_comment
  same_states_run_e2e_screenshots : quiet.

(** ** The build phase *)

(** One step that leaves the state files alone: the run goes on, or the
    step ended it. *)
Ltac quiet_step Hrun Hstep Hsame :=
  apply bind_run in Hrun as [(? & ? & Hstep & Hrun)|[(? & Hstep & ->)|(? & Hstep & ->)]];
  match type of Hstep with
  | ?m _ = _ =>
      let Hq := fresh "Hq" in
      assert (Hq : steps same_states m) by auto with quiet;
      pose proof (Hq _ _ _ Hstep) as Hsame; clear Hq; unfold same_states in Hsame
  end.

(** A chain of steps that fail loudly fails loudly. *)
Ltac prove_loud :=
  first [solve [auto with loud] | apply loud_bind; [prove_loud|intros ?; prove_loud]].

Section BuildPhase.
Import DataTypes Proc State Further.
Context `{E : Env} `{rt : Runtime}.

Lemma loud_build (adw_id plan : string) (state : ADWStateData) :
  fails_loudly (AdwBuild.build adw_id plan state).
Proof.
  unfold AdwBuild.build, AdwBuild.comment, WorkflowOps.implement_plan, advance_phase.
  prove_loud.
Qed.

(** The build either leaves the state files as they are and does not
    return, or has advanced the record to TEST. *)
Lemma build_states (adw_id plan : string) (state : ADWStateData) (w w' : World)
    (o : outcome unit) :
  state_adw_id state = adw_id ->
  AdwBuild.build adw_id plan state w = (o, w') ->
  (state_files w' = state_files w /\ o <> Done ())
  \/ exists state',
       state_files w' !! get_state_path adw_id = Some state'
       /\ current_phase state' = TEST
       /\ current_phase state ∈ completed_phases state'
       /\ error state' = error state
       /\ plan_file state' = plan_file state
       /\ test_results state' = test_results state.
Proof.
  intros Hid Hrun.
  unfold AdwBuild.build, AdwBuild.comment, WorkflowOps.implement_plan in Hrun.
  quiet_step Hrun Hstep1 Hsame1; try (left; split; [congruence|discriminate]).
  quiet_step Hrun Hstep2 Hsame2; try (left; split; [congruence|discriminate]).
  quiet_step Hrun Hstep3 Hsame3; try (left; split; [congruence|discriminate]).
  quiet_step Hrun Hstep4 Hsame4; try (left; split; [congruence|discriminate]).
  quiet_step Hrun Hstep5 Hsame5; try (left; split; [congruence|discriminate]).
  quiet_step Hrun Hstep6 Hsame6; try (left; split; [congruence|discriminate]).
  quiet_step Hrun Hstep7 Hsame7; try (left; split; [congruence|discriminate]).
  right. unfold advance_phase in Hrun.
  apply bind_run in Hrun as [(s & w8 & Hadv & Hrun)|[(e & Hadv & _)|(c & Hadv & _)]];
    rewrite save_state_done in Hadv; try discriminate.
  injection Hadv as _ Hw8.
  assert (Hq : steps same_states
                 (Github.make_issue_comment (issue_number state)
                    (WorkflowOps.format_issue_message adw_id "ops"
                       "✅ Build phase completed" None))) by auto with quiet.
  pose proof (Hq _ _ _ Hrun) as Hsame8. unfold same_states in Hsame8.
  eexists. split.
  { rewrite Hsame8, <- Hw8. simpl state_files. simpl state_adw_id. rewrite Hid.
    apply lookup_insert_eq. }
  simpl. split; [reflexivity|]. split; [|repeat split].
  case_bool_decide as Hin; [assumption|].
  apply elem_of_app. right. apply list_elem_of_singleton. reflexivity.
Qed.

(** Without a plan file the error is recorded and the process exits. *)
Lemma build_without_plan (adw_id : string) (state : ADWStateData) (w : World) :
  state_adw_id state = adw_id ->
  let ended := (_ ← mark_error state "No plan file in state"; sys_exit (A := unit) 1) w in
  exists state',
    ended.1 = Exited 1
    /\ state_files ended.2 !! get_state_path adw_id = Some state'
    /\ error state' = Some "No plan file in state"
    /\ current_phase state' = current_phase state
    /\ completed_phases state' = completed_phases state
    /\ spawned ended.2 = spawned w.
Proof.
  intros Hid. cbv zeta. unfold mark_error. unfold mbind, M_bind. rewrite save_state_done.
  eexists. split; [reflexivity|]. split.
  { simpl. rewrite Hid. apply lookup_insert_eq. }
  repeat split.
Qed.

Lemma build_main_loaded (argv0 adw_id : string) (rest : list string)
    (state : ADWStateData) (w : World) :
  state_files w !! get_state_path adw_id = Some state ->
  AdwBuild.main (argv0 :: adw_id :: rest) w
  = match plan_file state with
    | None => (_ ← mark_error state "No plan file in state"; sys_exit 1) w
    | Some EmptyString => (_ ← mark_error state "No plan file in state"; sys_exit 1) w
    | Some plan => AdwBuild.build adw_id plan state w
    end.
Proof.
  intros Hdisk. unfold AdwBuild.main, load_state. unfold mbind at 1. unfold M_bind at 1.
  unfold get_state_file. rewrite Hdisk. destruct (plan_file state) as [[|c plan]|]; reflexivity.
Qed.

End BuildPhase.

(** X18.  The build phase, for a workflow whose state file holds its
    record.  Without a plan file the error "No plan file in state" is
    recorded and the process exits with 1, nothing having been spawned.
    With a plan file the run either leaves the state file as it was and
    does not return, or has advanced the record to TEST with the phase that
    was current among the completed ones, and the record's error, plan file
    and attempts as they were; it returns only in the second case, and ends
    with a status that is not 0 when it does not return. *)
Theorem build_phase_advances_or_leaves_state :
  forall (E : Proc.Env) (rt : Runtime) (argv0 adw_id : string) (rest : list string)
         (state : DataTypes.ADWStateData) (w : Proc.World),
    Proc.state_files w !! State.get_state_path adw_id = Some state ->
    DataTypes.state_adw_id state = adw_id ->
    let ended := AdwBuild.main (argv0 :: adw_id :: rest) w in
    let advanced (state' : DataTypes.ADWStateData) :=
      DataTypes.current_phase state' = DataTypes.TEST
      /\ DataTypes.current_phase state ∈ DataTypes.completed_phases state'
      /\ DataTypes.error state' = DataTypes.error state
      /\ DataTypes.plan_file state' = DataTypes.plan_file state
      /\ DataTypes.test_results state' = DataTypes.test_results state in
    exists state',
      Proc.state_files ended.2 !! State.get_state_path adw_id = Some state'
      /\ (DataTypes.plan_file state = None \/ DataTypes.plan_file state = Some "" ->
          ended.1 = Proc.Exited 1
          /\ DataTypes.error state' = Some "No plan file in state"
          /\ DataTypes.current_phase state' = DataTypes.current_phase state
          /\ DataTypes.completed_phases state' = DataTypes.completed_phases state
          /\ Proc.spawned ended.2 = Proc.spawned w)
      /\ (forall plan, DataTypes.plan_file state = Some plan -> plan <> "" ->
          ((state' = state /\ ended.1 <> Proc.Done ()) \/ advanced state')
          /\ (ended.1 = Proc.Done () -> advanced state')
          /\ (ended.1 <> Proc.Done () -> Proc.exit_code ended.1 <> 0%Z)).
Proof.
  intros E rt argv0 adw_id rest state w Hdisk Hid ended advanced. subst ended.
  rewrite (build_main_loaded argv0 adw_id rest state w Hdisk).
  pose proof (build_without_plan adw_id state w Hid) as Hmissing.
  destruct (DataTypes.plan_file state) as [[|c plan]|] eqn:Hplan.
  - destruct Hmissing as (state' & Hexit & Hfile & Hrest). exists state'.
    split; [exact Hfile|]. split; [intros _; split; [exact Hexit|exact Hrest]|].
    intros plan [= <-] Hne. contradiction.
  - clear Hmissing.
    destruct (AdwBuild.build adw_id (String c plan) state w) as [o w'] eqn:Hrun. simpl.
    pose proof (loud_build adw_id (String c plan) state w o w' Hrun) as Hloud.
    assert (Hcode : o <> Proc.Done () -> Proc.exit_code o <> 0%Z).
    { intros Hnot Hzero. destruct (Hloud Hzero) as [[] ->]. contradiction. }
    destruct (build_states adw_id (String c plan) state w w' o Hid Hrun)
      as [[Hsame Hnot]|(state' & Hfile & Hadv)].
    + exists state. split; [rewrite Hsame; exact Hdisk|].
      split; [intros [[=]|[=]]|].
      intros plan' _ _. split; [left; auto|]. split; [intros Hdone; contradiction|exact Hcode].
    + exists state'. split; [exact Hfile|]. split; [intros [[=]|[=]]|].
      intros plan' _ _. rewrite Hplan in Hadv.
      split; [right; exact Hadv|]. split; [intros _; exact Hadv|exact Hcode].
  - destruct Hmissing as (state' & Hexit & Hfile & Hrest). exists state'.
    split; [exact Hfile|]. split; [intros _; split; [exact Hexit|exact Hrest]|].
    intros plan [=].
Qed.

Lemma build_phase_advances_or_leaves_state_witness :
  let E := Scenario.scripted (Examples.constant "ok") in
  let state := MoreExamples.planned "abc" in
  let w := Scenario.world_with state in
  let ended := AdwBuild.main (H0 := lite) ["adw_build.py"; "abc"] w in
  ended.1 = Proc.Done ()
  /\ exists state',
      Proc.state_files ended.2 !! State.get_state_path "abc" = Some state'
      /\ DataTypes.current_phase state' = DataTypes.TEST
      /\ DataTypes.BUILD ∈ DataTypes.completed_phases state'.
Proof.
  intros E state w ended.
  assert (Hdone : ended.1 = Proc.Done ()) by (vm_compute; reflexivity).
  split; [exact Hdone|].
  destruct (build_phase_advances_or_leaves_state E lite "adw_build.py" "abc" [] state w)
    as (state' & Hfile & _ & Hplan).
  - vm_compute. reflexivity.
  - reflexivity.
  - exists state'. split; [exact Hfile|].
    destruct (Hplan "specs/plan-42.md" eq_refl ltac:(discriminate)) as (_ & Hadv & _).
    destruct (Hadv Hdone) as (Hphase & Hcompleted & _). split; assumption.
Defined.

(** ** The documentation phase *)

Section DocumentPhase.
Import DataTypes Proc State Further.
Context `{E : Env} `{rt : Runtime}.

Lemma loud_document (adw_id plan : string) (state : ADWStateData) :
  fails_loudly (AdwDocument.document adw_id plan state).
Proof.
  unfold AdwDocument.document, AdwDocument.comment, advance_phase.
  apply loud_bind; [auto with loud|intros _].
  apply loud_bind; [auto with loud|intros response].
  destruct (negb (success response)); [prove_loud|].
  destruct (AdwDocument.doc_result_of_output (output response)); prove_loud.
Qed.

(** What advancing to PR leaves in the state file. *)
Lemma advance_to_pr (state : ADWStateData) (w : World) :
  exists state' w',
    advance_phase state PR w = (Done state', w')
    /\ state_files w' !! get_state_path (state_adw_id state) = Some state'
    /\ spawned w' = spawned w
    /\ current_phase state' = PR
    /\ current_phase state ∈ completed_phases state'
    /\ error state' = error state
    /\ plan_file state' = plan_file state
    /\ documentation state' = documentation state.
Proof.
  unfold advance_phase. rewrite save_state_done. eexists _, _. split; [reflexivity|].
  simpl. split; [apply lookup_insert_eq|]. split; [reflexivity|]. split; [reflexivity|].
  split; [|repeat split].
  case_bool_decide as Hin; [assumption|].
  apply elem_of_app. right. apply list_elem_of_singleton. reflexivity.
Qed.

(** The documentation phase leaves the record in its phase and does not
    return, or has advanced it to PR. *)
Lemma document_states (adw_id plan : string) (state : ADWStateData) (w w' : World)
    (o : outcome unit) :
  state_files w !! get_state_path adw_id = Some state ->
  state_adw_id state = adw_id ->
  AdwDocument.document adw_id plan state w = (o, w') ->
  exists state',
    state_files w' !! get_state_path adw_id = Some state'
    /\ error state' = error state
    /\ plan_file state' = plan_file state
    /\ ((current_phase state' = current_phase state
         /\ completed_phases state' = completed_phases state
         /\ o <> Done ())
        \/ (current_phase state' = PR /\ current_phase state ∈ completed_phases state')).
Proof.
  intros Hdisk Hid Hrun.
  assert (Hkept : forall w0, state_files w0 = state_files w ->
            forall o0 : outcome unit, o0 <> Done () ->
            exists state',
              state_files w0 !! get_state_path adw_id = Some state'
              /\ error state' = error state
              /\ plan_file state' = plan_file state
              /\ ((current_phase state' = current_phase state
                   /\ completed_phases state' = completed_phases state
                   /\ o0 <> Done ())
                  \/ (current_phase state' = PR
                      /\ current_phase state ∈ completed_phases state'))).
  { intros w0 Hsame o0 Hnot. exists state. rewrite Hsame. auto 10. }
  unfold AdwDocument.document, AdwDocument.comment in Hrun.
  quiet_step Hrun Hstep1 Hsame1; try (apply Hkept; [congruence|discriminate]).
  quiet_step Hrun Hstep2 Hsame2; try (apply Hkept; [congruence|discriminate]).
  match type of Hstep2 with _ = (Done ?r, _) => rename r into response end.
  destruct (negb (success response)).
  - quiet_step Hrun Hstep3 Hsame3; try (apply Hkept; [congruence|discriminate]).
    match type of Hstep3 with _ _ = (_, ?w3) =>
      destruct (advance_to_pr state w3)
        as (state' & w4 & Hadv & Hfile & _ & Hphase & Hdone & Herr & Hplan & _)
    end.
    rewrite (bind_done _ _ _ _ _ Hadv) in Hrun. injection Hrun as <- <-.
    exists state'. rewrite Hid in Hfile. auto 10.
  - destruct (AdwDocument.doc_result_of_output (output response)) as [e|doc].
    { injection Hrun as <- <-. apply Hkept; [congruence|discriminate]. }
    apply bind_run in Hrun as [(state1 & w3 & Hsave & Hrun)|[(e & Hsave & _)|(c & Hsave & _)]];
      rewrite save_state_done in Hsave; try discriminate.
    injection Hsave as Hstate1 Hw3.
    assert (Hid1 : state_adw_id state1 = adw_id) by (subst state1; exact Hid).
    assert (Hdisk3 : state_files w3 !! get_state_path adw_id = Some state1).
    { rewrite <- Hw3, <- Hstate1. simpl state_files. simpl state_adw_id. rewrite Hid.
      apply lookup_insert_eq. }
    assert (Hfields : error state1 = error state /\ plan_file state1 = plan_file state
                      /\ current_phase state1 = current_phase state
                      /\ completed_phases state1 = completed_phases state)
      by (subst state1; repeat split).
    destruct Hfields as (Herr1 & Hplan1 & Hphase1 & Hcompleted1).
    clear Hstate1 Hw3.
    quiet_step Hrun Hstep4 Hsame4;
      try (exists state1; split; [rewrite Hsame4; assumption|];
           split; [assumption|]; split; [assumption|]; left;
           split; [assumption|]; split; [assumption|discriminate]).
    match type of Hstep4 with _ _ = (_, ?w4) =>
      destruct (advance_to_pr state1 w4)
        as (state' & w5 & Hadv & Hfile & _ & Hphase & Hdone & Herr & Hplan & _)
    end.
    rewrite (bind_done _ _ _ _ _ Hadv) in Hrun.
    assert (Hq : steps same_states
                   (Github.make_issue_comment (issue_number state)
                      (WorkflowOps.format_issue_message adw_id AdwDocument.AGENT_DOCUMENTER
                         "✅ Documentation generated" None))) by auto with quiet.
    pose proof (Hq _ _ _ Hrun) as Hsame5. unfold same_states in Hsame5.
    exists state'. rewrite Hid1 in Hfile. rewrite Hsame5.
    split; [assumption|]. split; [congruence|]. split; [congruence|].
    right. split; [assumption|]. rewrite <- Hphase1. assumption.
Qed.

Lemma document_main_loaded (argv0 adw_id plan : string) (rest : list string)
    (state : ADWStateData) (w : World) :
  state_files w !! get_state_path adw_id = Some state ->
  plan_file state = Some plan -> plan <> "" ->
  AdwDocument.main (argv0 :: adw_id :: rest) w = AdwDocument.document adw_id plan state w.
Proof.
  intros Hdisk Hplan Hne. unfold AdwDocument.main, load_state.
  unfold mbind at 1. unfold M_bind at 1. unfold get_state_file. rewrite Hdisk, Hplan.
  destruct plan; [contradiction|reflexivity].
Qed.

(** A failure of the agent is reported and the phase goes on to PR. *)
Lemma document_failure (adw_id plan : string) (state : ADWStateData)
    (w w1 w2 : World) (response : AgentPromptResponse) :
  Github.tracker_ok ->
  state_adw_id state = adw_id ->
  AdwDocument.comment (issue_number state) adw_id "ops" "✅ Starting documentation phase" w
  = (Done (), w1) ->
  Agent.execute_template (AdwDocument.request adw_id plan) w1 = (Done response, w2) ->
  success response = false ->
  exists state' w',
    AdwDocument.document adw_id plan state w = (Done (), w')
    /\ state_files w' !! get_state_path adw_id = Some state'
    /\ current_phase state' = PR
    /\ documentation state' = documentation state
    /\ posted (issue_number state)
         (WorkflowOps.format_issue_message adw_id AdwDocument.AGENT_DOCUMENTER
            (AdwDocument.failure_notice response) None) w'.
Proof.
  intros Hok Hid Hstart Hexec Hfailed. unfold AdwDocument.document.
  rewrite (bind_done _ _ _ _ _ Hstart). rewrite (bind_done _ _ _ _ _ Hexec).
  rewrite Hfailed. change (negb false) with true. cbv iota. unfold AdwDocument.comment at 1.
  match goal with |- context [Github.make_issue_comment ?i ?c ≫= _] =>
    destruct (make_issue_comment_posted i c w2 Hok) as (w3 & Hposted & Hseen)
  end.
  rewrite (bind_done _ _ _ _ _ Hposted).
  destruct (advance_to_pr state w3)
    as (state' & w4 & Hadv & Hfile & Hspawned & Hphase & _ & _ & _ & Hdoc).
  rewrite (bind_done _ _ _ _ _ Hadv). exists state', w4.
  split; [reflexivity|]. rewrite Hid in Hfile. split; [assumption|].
  split; [assumption|]. split; [assumption|].
  destruct Hseen as (sp & repo & more & done & Hin & Hcmd & Hres & Hrc).
  exists sp, repo, more, done. rewrite Hspawned. auto.
Qed.

End DocumentPhase.

(** X19.  The documentation phase, for a workflow whose state file holds
    its record with a plan file.  The record ends in the phase it was in,
    or in PR with the phase that was current among the completed ones, and
    its error and plan file are kept; the run returns only with the record
    in PR, and ends with a status that is not 0 when it does not return.
    A failure of the agent is not fatal: with a tracker that accepts the
    comments, when the agent answers success = false the failure is posted
    on the issue, the record goes to PR without documentation being
    recorded, and the run returns. *)
Theorem documentation_failure_is_not_fatal :
  forall (E : Proc.Env) (rt : Runtime) (argv0 adw_id plan : string) (rest : list string)
         (state : DataTypes.ADWStateData) (w : Proc.World),
    Proc.state_files w !! State.get_state_path adw_id = Some state ->
    DataTypes.state_adw_id state = adw_id ->
    DataTypes.plan_file state = Some plan ->
    plan <> "" ->
    let ended := AdwDocument.main (argv0 :: adw_id :: rest) w in
    exists state',
      Proc.state_files ended.2 !! State.get_state_path adw_id = Some state'
      /\ DataTypes.error state' = DataTypes.error state
      /\ DataTypes.plan_file state' = DataTypes.plan_file state
      /\ ((DataTypes.current_phase state' = DataTypes.current_phase state
           /\ DataTypes.completed_phases state' = DataTypes.completed_phases state
           /\ ended.1 <> Proc.Done ())
          \/ (DataTypes.current_phase state' = DataTypes.PR
              /\ DataTypes.current_phase state ∈ DataTypes.completed_phases state'))
      /\ (ended.1 <> Proc.Done () -> Proc.exit_code ended.1 <> 0%Z)
      /\ (Github.tracker_ok ->
          forall w1 response w2,
            AdwDocument.comment (DataTypes.issue_number state) adw_id "ops"
              "✅ Starting documentation phase" w = (Proc.Done (), w1) ->
            Agent.execute_template (AdwDocument.request adw_id plan) w1
              = (Proc.Done response, w2) ->
            DataTypes.success response = false ->
            ended.1 = Proc.Done ()
            /\ DataTypes.current_phase state' = DataTypes.PR
            /\ DataTypes.documentation state' = DataTypes.documentation state
            /\ posted (DataTypes.issue_number state)
                 (WorkflowOps.format_issue_message adw_id AdwDocument.AGENT_DOCUMENTER
                    (AdwDocument.failure_notice response) None) ended.2).
Proof.
  intros E rt argv0 adw_id plan rest state w Hdisk Hid Hplan Hne ended. subst ended.
  rewrite (document_main_loaded argv0 adw_id plan rest state w Hdisk Hplan Hne).
  destruct (AdwDocument.document adw_id plan state w) as [o w'] eqn:Hrun. simpl.
  destruct (document_states adw_id plan state w w' o Hdisk Hid Hrun)
    as (state' & Hfile & Herr & Hplan' & Hphase).
  exists state'. split; [assumption|]. split; [assumption|]. split; [assumption|].
  split; [assumption|]. split.
  { intros Hnot Hzero. destruct (loud_document adw_id plan state w o w' Hrun Hzero) as [[] ->].
    contradiction. }
  intros Hok w1 response w2 Hstart Hexec Hfailed.
  destruct (document_failure adw_id plan state w w1 w2 response Hok Hid Hstart Hexec Hfailed)
    as (state2 & w2' & Hrun2 & Hfile2 & Hphase2 & Hdoc2 & Hposted).
  rewrite Hrun in Hrun2. injection Hrun2 as -> ->.
  rewrite Hfile in Hfile2. injection Hfile2 as ->. auto.
Qed.

Lemma documentation_failure_is_not_fatal_witness :
  let E := Scenario.scripted MoreExamples.failing in
  let state := MoreExamples.reviewed "abc" in
  let w := Scenario.world_with state in
  let ended := AdwDocument.main (H0 := lite) ["adw_document.py"; "abc"] w in
  ended.1 = Proc.Done ()
  /\ exists state',
      Proc.state_files ended.2 !! State.get_state_path "abc" = Some state'
      /\ DataTypes.error state' = None
      /\ DataTypes.current_phase state' = DataTypes.PR.
Proof.
  intros E state w ended.
  assert (Hdone : ended.1 = Proc.Done ()) by (vm_compute; reflexivity).
  split; [exact Hdone|].
  destruct (documentation_failure_is_not_fatal E lite "adw_document.py" "abc"
              "specs/plan-42.md" [] state w)
    as (state' & Hfile & Herr & _ & Hphase & _).
  - vm_compute. reflexivity.
  - reflexivity.
  - reflexivity.
  - discriminate.
  - exists state'. split; [exact Hfile|]. split; [exact Herr|].
    destruct Hphase as [(_ & _ & Hnot)|[Hpr _]]; [contradiction|exact Hpr].
Defined.

(** ** The class of an issue *)

Section Classify.
Import PyStr DataTypes Workflow.

Lemma startswith_tail (c : ascii) (s t : string) :
  startswith (String c s) t = true -> exists t', t = String c t' /\ startswith s t' = true.
Proof.
  destruct t as [|d t]; [discriminate|]. simpl.
  destruct (Ascii.eqb c d) eqn:Hcd; [|discriminate].
  apply Ascii.eqb_eq in Hcd. subst d. eauto.
Qed.

(** A text that contains [c s] contains [s]. *)
Lemma contains_tail (c : ascii) (s t : string) :
  contains (String c s) t = true -> contains s t = true.
Proof.
  induction t as [|d t IH]; intros H.
  - simpl in H. discriminate.
  - change (contains (String c s) (String d t))
      with (startswith (String c s) (String d t) || contains (String c s) t) in H.
    change (contains s (String d t)) with (startswith s (String d t) || contains s t).
    apply orb_prop in H as [H|H].
    + apply startswith_tail in H as (t' & [= <- <-] & Hs).
      assert (Hin : contains s t = true) by (destruct t; simpl; rewrite Hs; reflexivity).
      rewrite Hin. apply orb_true_r.
    + rewrite (IH H). apply orb_true_r.
Qed.

Lemma contains_or_tail (c : ascii) (s t : string) :
  contains (String c s) t || contains s t = contains s t.
Proof.
  destruct (contains (String c s) t) eqn:H; [|reflexivity].
  rewrite (contains_tail c s t H). reflexivity.
Qed.

End Classify.

(** X20.  The class of an issue, from a response of the classifier that
    succeeded: when the output, without the white space and the backticks
    around it, is one of [/chore], [/bug], [/feature], that is the class,
    and when it is [0] no class is selected.  Otherwise the class is read
    from the words of the output in lower case, wherever they stand:
    [chore] before [bug] before [feature], and an error when none of them
    occurs.  A response that failed gives its output as the error.  In all
    cases exactly one of class and error is given. *)
Theorem issue_class_is_read_from_words :
  forall (response : DataTypes.AgentPromptResponse),
    let command := Workflow.strip_char "`" (PyStr.strip (DataTypes.output response)) in
    let raw := PyStr.lower (DataTypes.output response) in
    let answer := Workflow.classification_of_response response in
    (DataTypes.success response = false ->
     answer = (None, Some (DataTypes.output response)))
    /\ (DataTypes.success response = true ->
        (command = "0" ->
         answer = (None, Some ("No command selected: " +:+ DataTypes.output response)))
        /\ (command = "/chore" -> answer = (Some DataTypes.chore, None))
        /\ (command = "/bug" -> answer = (Some DataTypes.bug, None))
        /\ (command = "/feature" -> answer = (Some DataTypes.feature, None))
        /\ (command <> "0" -> command <> "/chore" -> command <> "/bug" ->
            command <> "/feature" ->
            answer
            = if PyStr.contains "chore" raw then (Some DataTypes.chore, None)
              else if PyStr.contains "bug" raw then (Some DataTypes.bug, None)
              else if PyStr.contains "feature" raw then (Some DataTypes.feature, None)
              else (None, Some ("Invalid command selected: " +:+ DataTypes.output response))))
    /\ (answer.1 = None <-> answer.2 <> None).
Proof.
  intros response command raw answer. subst answer.
  unfold Workflow.classification_of_response. fold command. fold raw.
  destruct (DataTypes.success response); simpl negb; cbv iota.
  2:{ split; [reflexivity|]. split; [discriminate|]. simpl. split; [discriminate|reflexivity]. }
  assert (Hwords :
    find (fun p : string * DataTypes.IssueClass =>
            PyStr.contains p.1 raw || PyStr.contains (Workflow.lstrip_char "/" p.1) raw)
      Workflow.valid_commands
    = if PyStr.contains "chore" raw then Some ("/chore", DataTypes.chore)
      else if PyStr.contains "bug" raw then Some ("/bug", DataTypes.bug)
      else if PyStr.contains "feature" raw then Some ("/feature", DataTypes.feature)
      else None).
  { unfold Workflow.valid_commands, find. cbn [fst snd].
    change (Workflow.lstrip_char "/" "/chore") with "chore".
    change (Workflow.lstrip_char "/" "/bug") with "bug".
    change (Workflow.lstrip_char "/" "/feature") with "feature".
    rewrite !contains_or_tail. reflexivity. }
  assert (Hexact :
    find (fun p : string * DataTypes.IssueClass => String.eqb command p.1)
      Workflow.valid_commands
    = if String.eqb command "/chore" then Some ("/chore", DataTypes.chore)
      else if String.eqb command "/bug" then Some ("/bug", DataTypes.bug)
      else if String.eqb command "/feature" then Some ("/feature", DataTypes.feature)
      else None) by reflexivity.
  rewrite Hexact, Hwords. clear Hexact Hwords.
  split; [discriminate|]. split.
  - intros _. split; [intros ->; reflexivity|].
    split; [intros ->; reflexivity|]. split; [intros ->; reflexivity|].
    split; [intros ->; reflexivity|].
    intros H0 H1 H2 H3. apply String.eqb_neq in H0, H1, H2, H3. rewrite H0, H1, H2, H3.
    destruct (PyStr.contains "chore" raw); [reflexivity|].
    destruct (PyStr.contains "bug" raw); [reflexivity|].
    destruct (PyStr.contains "feature" raw); reflexivity.
  - destruct (String.eqb command "0"); [simpl; split; [discriminate|reflexivity]|].
    destruct (String.eqb command "/chore"); [simpl; split; [discriminate|intros H; contradiction]|].
    destruct (String.eqb command "/bug"); [simpl; split; [discriminate|intros H; contradiction]|].
    destruct (String.eqb command "/feature");
      [simpl; split; [discriminate|intros H; contradiction]|].
    destruct (PyStr.contains "chore" raw); [simpl; split; [discriminate|intros H; contradiction]|].
    destruct (PyStr.contains "bug" raw); [simpl; split; [discriminate|intros H; contradiction]|].
    destruct (PyStr.contains "feature" raw);
      simpl; split; try discriminate; try reflexivity; intros H; contradiction.
Qed.

(** ** The health endpoint *)

Section HealthReport.
Import PyStr DataTypes Proc Health.

Lemma gather_items (all : list string) :
  forall lines cw ce ws es,
    (forall l, l ∈ lines -> l ∈ all) ->
    Forall (item_of all) ws -> Forall (item_of all) es ->
    Forall (item_of all) (gather lines cw ce ws es).1
    /\ Forall (item_of all) (gather lines cw ce ws es).2.
Proof.
  induction lines as [|line rest IH]; intros cw ce ws es Hsub Hws Hes; cbn [gather].
  - split; assumption.
  - assert (Hrest : forall l, l ∈ rest -> l ∈ all)
      by (intros l Hl; apply Hsub; right; exact Hl).
    assert (Hline : line ∈ all) by (apply Hsub; left).
    destruct (contains "Warnings:" line) eqn:HW; [apply IH; assumption|].
    destruct (contains "Errors:" line) eqn:HE; [apply IH; assumption|].
    destruct (contains "Next Steps:" line) eqn:HN; [split; assumption|].
    assert (Hitem : startswith "-" (strip line) = true ->
                    item_of all (drop 2 (strip line))).
    { intros Hdash. exists line. repeat split; assumption. }
    destruct cw, ce, (startswith "-" (strip line)) eqn:Hdash; cbn [andb];
      (apply IH; [assumption| |]); try assumption;
      (apply Forall_app; split; [assumption|]);
      (apply Forall_cons; split; [apply Hitem; reflexivity | apply Forall_nil; exact I]).
Qed.

Lemma gather_stop :
  forall before next after cw ce ws es,
    contains "Warnings:" next = false ->
    contains "Errors:" next = false ->
    contains "Next Steps:" next = true ->
    gather (before ++ next :: after) cw ce ws es = gather (before ++ [next]) cw ce ws es.
Proof.
  induction before as [|line rest IH]; intros next after cw ce ws es HW HE HN.
  - cbn [gather app]. rewrite HW, HE, HN. reflexivity.
  - cbn [gather app].
    destruct (contains "Warnings:" line); [apply IH; assumption|].
    destruct (contains "Errors:" line); [apply IH; assumption|].
    destruct (contains "Next Steps:" line); [reflexivity|].
    destruct (cw && startswith "-" (strip line)); [apply IH; assumption|].
    destruct (ce && startswith "-" (strip line)); apply IH; assumption.
Qed.

Lemma gather_last_stop :
  forall before next cw ce ws es,
    contains "Warnings:" next = false ->
    contains "Errors:" next = false ->
    contains "Next Steps:" next = true ->
    gather (before ++ [next]) cw ce ws es = gather before cw ce ws es.
Proof.
  induction before as [|line rest IH]; intros next cw ce ws es HW HE HN.
  - cbn [gather app]. rewrite HW, HE, HN. reflexivity.
  - cbn [gather app].
    destruct (contains "Warnings:" line); [apply IH; assumption|].
    destruct (contains "Errors:" line); [apply IH; assumption|].
    destruct (contains "Next Steps:" line); [reflexivity|].
    destruct (cw && startswith "-" (strip line)); [apply IH; assumption|].
    destruct (ce && startswith "-" (strip line)); apply IH; assumption.
Qed.

Lemma gather_no_warnings :
  forall lines ce ws es,
    (forall l, l ∈ lines -> contains "Warnings:" l = false) ->
    (gather lines false ce ws es).1 = ws.
Proof.
  induction lines as [|line rest IH]; intros ce ws es Hnone; cbn [gather andb]; [reflexivity|].
  assert (Hrest : forall l, l ∈ rest -> contains "Warnings:" l = false)
    by (intros l Hl; apply Hnone; right; exact Hl).
  rewrite (Hnone line) by left.
  destruct (contains "Errors:" line); [apply IH; assumption|].
  destruct (contains "Next Steps:" line); [reflexivity|].
  destruct (ce && startswith "-" (strip line)); apply IH; assumption.
Qed.

Lemma gather_no_errors :
  forall lines cw ws es,
    (forall l, l ∈ lines -> contains "Errors:" l = false) ->
    (gather lines cw false ws es).2 = es.
Proof.
  induction lines as [|line rest IH]; intros cw ws es Hnone; cbn [gather andb]; [reflexivity|].
  assert (Hrest : forall l, l ∈ rest -> contains "Errors:" l = false)
    by (intros l Hl; apply Hnone; right; exact Hl).
  destruct (contains "Warnings:" line); [apply IH; assumption|].
  rewrite (Hnone line) by left.
  destruct (contains "Next Steps:" line); [reflexivity|].
  destruct (cw && startswith "-" (strip line)); apply IH; assumption.
Qed.

Lemma health_run `{Env} `{Runtime} (script_dir : string) (w : World) :
  exists answer w' sp,
    health script_dir w = (Done answer, w')
    /\ same_states w w'
    /\ spawned w' = sp :: spawned w
    /\ cmd sp = ["uv"; "run"; os_path_join script_dir ["health_check.py"]]
    /\ match result sp with
       | inr done =>
           healthy answer = (returncode done =? 0)%Z
           /\ message answer = None
           /\ (warnings answer, errors answer) = report (stdout done)
       | inl TimeoutExpired =>
           healthy answer = false
           /\ message answer = Some "Health check timed out"
       | inl e =>
           healthy answer = false
           /\ message answer = Some ("Health check failed: " +:+ exn_str e)
       end.
Proof.
  unfold health, try_except, mbind, M_bind, run.
  destruct (subprocess_run (tick w) ["uv"; "run"; os_path_join script_dir ["health_check.py"]] None)
    as [e|done] eqn:Hres; simpl.
  - destruct e; simpl; eexists _, _, _; (split; [reflexivity|]);
      (split; [reflexivity|]); (split; [reflexivity|]); simpl;
      (split; [reflexivity|]); split; reflexivity.
  - eexists _, _, _; (split; [reflexivity|]);
      (split; [reflexivity|]); (split; [reflexivity|]); simpl;
      (split; [reflexivity|]).
    repeat split. destruct (report (stdout done)); reflexivity.
Qed.

End HealthReport.

(** X21. The health endpoint never fails: it runs the health check once,
    writes no state file and answers.  The answer is healthy exactly when
    the check returned zero, and then carries the report read from the
    output; when the check timed out or could not be run the answer is
    unhealthy and carries the message of the failure. *)
Theorem health_endpoint_always_answers :
  forall (E : Proc.Env) (R : Runtime) (script_dir : string) (w : Proc.World),
    exists answer w' sp,
      Health.health script_dir w = (Proc.Done answer, w')
      /\ same_states w w'
      /\ Proc.spawned w' = sp :: Proc.spawned w
      /\ Proc.cmd sp = ["uv"; "run"; Proc.os_path_join script_dir ["health_check.py"]]
      /\ match Proc.result sp with
         | inr done =>
             Health.healthy answer = (Proc.returncode done =? 0)%Z
             /\ Health.message answer = None
             /\ (Health.warnings answer, Health.errors answer)
                = Health.report (Proc.stdout done)
         | inl TimeoutExpired =>
             Health.healthy answer = false
             /\ Health.message answer = Some "Health check timed out"
         | inl e =>
             Health.healthy answer = false
             /\ Health.message answer = Some ("Health check failed: " +:+ exn_str e)
         end.
Proof.
  intros E R script_dir w. apply health_run.
Qed.

(** X22. The report of the health endpoint holds only items of the output:
    lines outside the headers that start with a dash, without their first
    two characters.  Nothing is read after the first line that holds
    Next Steps: and no header, and without a Warnings: (Errors:) header no
    warning (error) is reported. *)
Theorem health_report_items :
  forall (stdout : string),
    let lines := Health.split_char PyStr.LF (PyStr.strip stdout) in
    Forall (Health.item_of lines) (Health.report stdout).1
    /\ Forall (Health.item_of lines) (Health.report stdout).2
    /\ (forall before next after,
          lines = before ++ next :: after ->
          PyStr.contains "Warnings:" next = false ->
          PyStr.contains "Errors:" next = false ->
          PyStr.contains "Next Steps:" next = true ->
          Health.report stdout = Health.gather before false false [] [])
    /\ ((forall l, l ∈ lines -> PyStr.contains "Warnings:" l = false) ->
        (Health.report stdout).1 = [])
    /\ ((forall l, l ∈ lines -> PyStr.contains "Errors:" l = false) ->
        (Health.report stdout).2 = []).
Proof.
  intros stdout lines. unfold Health.report. fold lines.
  destruct (gather_items lines lines false false [] []) as [Hws Hes];
    [auto | constructor | constructor |].
  split; [exact Hws|]. split; [exact Hes|]. split; [|split].
  - intros before next after Hlines HW HE HN. rewrite Hlines.
    rewrite gather_stop by assumption. apply gather_last_stop; assumption.
  - intros Hnone. apply gather_no_warnings. exact Hnone.
  - intros Hnone. apply gather_no_errors. exact Hnone.
Qed.

(** ** The plan file named by the agent *)

Section PlanFile.
Import PyStr DataTypes Proc Agent Workflow.

Lemma plan_file_of_response_path (response : AgentPromptResponse) :
  match plan_file_of_response response with
  | (Some path, err) =>
      err = None /\ success response = true /\ path = strip (output response)
      /\ path <> "" /\ path <> "0" /\ contains "/" path = true
  | (None, err) => err <> None
  end.
Proof.
  unfold plan_file_of_response.
  destruct (success response); cbn [negb]; [|discriminate].
  destruct (String.eqb_spec (strip (output response)) "") as [Hempty|Hfull]; cbn [negb andb].
  - rewrite Hempty. cbn. discriminate.
  - destruct (String.eqb_spec (strip (output response)) "0") as [Hzero|Hpath]; cbn [negb andb].
    + discriminate.
    + destruct (contains "/" (strip (output response))) eqn:Hslash; [|discriminate].
      repeat split; assumption.
Qed.

Lemma get_plan_file_run `{Env} `{Runtime} (plan_output adw_id : string) (w : World) :
  same_states w (get_plan_file plan_output adw_id w).2
  /\ match (get_plan_file plan_output adw_id w).1 with
     | Done (Some path, err) =>
         err = None /\ path <> "" /\ path <> "0" /\ contains "/" path = true
         /\ strip path = path
     | Done (None, err) => err <> None
     | Raised _ => True
     | Exited _ => False
     end.
Proof.
  unfold get_plan_file, mbind, M_bind.
  destruct (execute_template _ w) as [o w'] eqn:Hrun.
  pose proof (same_states_execute_template _ _ _ _ Hrun) as Hsame.
  unfold execute_template in Hrun.
  destruct (prompt_claude_code_ends _ _ _ _ Hrun) as [[response ->]|[e ->]]; simpl.
  - split; [exact Hsame|].
    pose proof (plan_file_of_response_path response) as Hpath.
    destruct (plan_file_of_response response) as [[path|] err]; [|exact Hpath].
    destruct Hpath as (Herr & _ & Heq & Hempty & Hzero & Hslash).
    repeat split; try assumption. rewrite Heq. apply strip_idem.
  - split; [exact Hsame|exact I].
Qed.

End PlanFile.

(** X23.  Looking for the plan file writes no state file and never ends the
    process.  A plan file that is returned comes without an error message,
    is not empty and not 0, holds a slash and has no white space around
    it; when none is returned there is an error message. *)
Theorem plan_file_is_a_trimmed_path :
  forall (E : Proc.Env) (R : Runtime) (plan_output adw_id : string) (w : Proc.World),
    let ended := Workflow.get_plan_file plan_output adw_id w in
    same_states w ended.2
    /\ match ended.1 with
       | Proc.Done (Some path, err) =>
           err = None /\ path <> "" /\ path <> "0" /\ PyStr.contains "/" path = true
           /\ PyStr.strip path = path
       | Proc.Done (None, err) => err <> None
       | Proc.Raised _ => True
       | Proc.Exited _ => False
       end.
Proof.
  intros E R plan_output adw_id w ended. apply get_plan_file_run.
Qed.
